(** * nyxsitemap: sitemap generation (sitemap.go)

    A shallow embedding of the Go package [nyxsitemap] and the properties its
    specification states about it.

    Layout of the development:
    - [GoStrings]: byte strings and the few functions of package [strings]
      and [fmt] that sitemap.go calls;
    - [GoTime]: calendar dates, [time.Parse] and [Time.Format] for the
      layout "2006-01-02", [Time.After];
    - the program: [SitemapURL], [SitemapOptions], [AddURL], [Write], ...
      written in a small state monad over the operating system interface;
    - the theorems. *)

From Stdlib Require Import ZArith NArith String Ascii List Lia Bool.
From stdpp Require Import base tactics option list strings.
Import ListNotations.

Local Open Scope string_scope.
Local Open Scope list_scope.
Local Open Scope Z_scope.

(* ===================================================================== *)
(** ** Go strings: sequences of bytes *)
(* ===================================================================== *)

Module GoStrings.

(** A Go [string] is an immutable sequence of bytes; [string] of the
    Standard Library is a list of [ascii] (8-bit) characters. *)

Definition byte_of (c : ascii) : Z := Z.of_N (N_of_ascii c).

Definition len (s : string) : Z := Z.of_nat (String.length s).

(** [s[i]] for [0 <= i < len(s)]. *)
Definition at_ (s : string) (i : nat) : option ascii := String.get i s.

(** [s[i:]] and [s[:i]] on in-range positions. *)
Fixpoint drop_str (n : nat) (s : string) : string :=
  match n, s with
  | O, _ => s
  | S n', String _ s' => drop_str n' s'
  | S _, EmptyString => EmptyString
  end.

Fixpoint take_str (n : nat) (s : string) : string :=
  match n, s with
  | O, _ => EmptyString
  | S n', String c s' => String c (take_str n' s')
  | S _, EmptyString => EmptyString
  end.

Definition is_digit_byte (c : ascii) : bool :=
  (48 <=? byte_of c) && (byte_of c <=? 57).

Definition digit_val (c : ascii) : Z := byte_of c - 48.

Definition digit_char (d : Z) : ascii := ascii_of_N (Z.to_N (48 + d)).

(** Decimal digits of a non-negative number, most significant first
    ([strconv]'s and [fmt]'s %d for non-negative arguments). *)
Fixpoint dec_digits_fuel (fuel : nat) (n : Z) (acc : string) : string :=
  match fuel with
  | O => acc
  | S fuel' =>
      let acc' := String (digit_char (n mod 10)) acc in
      if n <? 10 then acc' else dec_digits_fuel fuel' (n / 10) acc'
  end.

Definition dec_digits (n : Z) : string :=
  dec_digits_fuel (S (Z.to_nat (Z.log2 n))) n EmptyString.

(** [fmt.Sprintf("%d", x)]. *)
Definition itoa (x : Z) : string :=
  if x <? 0 then String "-" (dec_digits (- x)) else dec_digits x.

Fixpoint rev_str (s acc : string) : string :=
  match s with
  | EmptyString => acc
  | String c s' => rev_str s' (String c acc)
  end.

Fixpoint drop_leading (c : ascii) (s : string) : string :=
  match s with
  | EmptyString => EmptyString
  | String d s' => if Ascii.eqb c d then drop_leading c s' else s
  end.

(** [strings.TrimRight(s, cutset)] for a cutset of the single byte [c]. *)
Definition TrimRight1 (s : string) (c : ascii) : string :=
  rev_str (drop_leading c (rev_str s EmptyString)) EmptyString.

Fixpoint contains_byte (c : ascii) (s : string) : bool :=
  match s with
  | EmptyString => false
  | String d s' => Ascii.eqb c d || contains_byte c s'
  end.

(** [strings.HasPrefix]. *)
Fixpoint HasPrefix (s p : string) {struct p} : bool :=
  match p, s with
  | EmptyString, _ => true
  | String c p', String d s' => Ascii.eqb c d && HasPrefix s' p'
  | String _ _, EmptyString => false
  end.

(** [strings.Contains]. *)
Fixpoint Contains (s sub : string) : bool :=
  HasPrefix s sub ||
  match s with
  | EmptyString => false
  | String _ s' => Contains s' sub
  end.



End GoStrings.

(* ===================================================================== *)
(** ** Package time *)
(* ===================================================================== *)

Module GoTime.
Import GoStrings.

(** A [time.Time] in UTC, held as its civil date and the nanoseconds since
    midnight.  sitemap.go only ever looks at times through [UTC()],
    [Format], [Parse] and [After], none of which can tell this
    representation from Go's (seconds since year 1 plus nanoseconds);
    monotonic clock readings are stripped by [UTC()]. *)
Record Time : Type := mkTime {
  year : Z;
  month : Z;
  day : Z;
  nsec_of_day : N
}.

Definition isLeap (y : Z) : bool :=
  (y mod 4 =? 0) && (negb (y mod 100 =? 0) || (y mod 400 =? 0)).

(** [daysIn(m, year)]. *)
Definition daysIn (m y : Z) : Z :=
  if (m =? 2) && isLeap y then 29
  else if m =? 2 then 28
  else if (m =? 4) || (m =? 6) || (m =? 9) || (m =? 11) then 30
  else 31.

(** [isDigit(s, i)]: false when [i] is out of range. *)
Definition isDigit (s : string) (i : nat) : bool :=
  match at_ s i with
  | Some c => is_digit_byte c
  | None => false
  end.

(** [leadingInt]: the leading decimal digits of [s] and the rest; [None]
    on overflow of 63 bits. *)
Fixpoint leadingInt_from (s : string) (x : Z) : option (Z * string) :=
  match s with
  | EmptyString => Some (x, EmptyString)
  | String c s' =>
      if negb (is_digit_byte c) then Some (x, s)
      else if x >? 2 ^ 63 / 10 then None
      else
        let x' := x * 10 + digit_val c in
        if x' >? 2 ^ 63 then None else leadingInt_from s' x'
  end.

Definition leadingInt (s : string) : option (Z * string) := leadingInt_from s 0.

(** [atoi]: an optional sign, then digits up to the end of the string. *)
Definition atoi (s : string) : option Z :=
  let '(neg, s1) :=
    match s with
    | String "-" r => (true, r)
    | String "+" r => (false, r)
    | _ => (false, s)
    end in
  match leadingInt s1 with
  | Some (q, EmptyString) => Some (if neg : bool then - q else q)
  | _ => None
  end.

(** [getnum(s, fixed)]: one or two digits; exactly two when [fixed]. *)
Definition getnum (s : string) (fixed : bool) : option (Z * string) :=
  if negb (isDigit s 0) then None
  else if negb (isDigit s 1) then
    if fixed then None
    else match s with
         | String c r => Some (digit_val c, r)
         | EmptyString => None
         end
  else match s with
       | String c (String d r) => Some (digit_val c * 10 + digit_val d, r)
       | _ => None
       end.

(** [skip(value, prefix)] for a prefix without blanks: the literal text of
    the layout must be matched byte for byte. *)
Fixpoint skip (value prefix : string) {struct prefix} : option string :=
  match prefix with
  | EmptyString => Some value
  | String p prefix' =>
      match value with
      | String v value' => if Ascii.eqb v p then skip value' prefix' else None
      | EmptyString => None
      end
  end.

(** [time.Parse("2006-01-02", value)].  The layout splits into the chunks
    stdLongYear, "-", stdZeroMonth, "-", stdZeroDay; the steps below are the
    iterations of [Parse]'s loop on them, then the checks after the loop.
    The error value is not inspected by the caller, so failure is [None]. *)
Definition Parse_date (value : string) : option Time :=
  (* stdLongYear *)
  if (len value <? 4) || negb (isDigit value 0) then None else
  match atoi (take_str 4 value) with
  | None => None
  | Some y =>
  let value := drop_str 4 value in
  (* "-" then stdZeroMonth *)
  match skip value "-" with
  | None => None
  | Some value =>
  match getnum value true with
  | None => None
  | Some (m, value) =>
  if (m <=? 0) || (12 <? m) then None else
  (* "-" then stdZeroDay *)
  match skip value "-" with
  | None => None
  | Some value =>
  match getnum value true with
  | None => None
  | Some (d, value) =>
  (* end of layout: no extra text *)
  if negb (len value =? 0) then None else
  (* validate the day of the month *)
  if (d <? 1) || (d >? daysIn m y) then None
  else Some (mkTime y m d 0)
  end end end end end.

(** [appendInt(b, x, width)]: sign, zero padding to [width], digits. *)
Fixpoint zeros (n : nat) : string :=
  match n with
  | O => EmptyString
  | S n' => String "0" (zeros n')
  end.

Definition appendInt (x : Z) (width : nat) : string :=
  let u := Z.abs x in
  let ds := dec_digits u in
  let padded := zeros (width - String.length ds) +:+ ds in
  if x <? 0 then String "-" padded else padded.

(** [t.Format("2006-01-02")]. *)
Definition Format_date (t : Time) : string :=
  appendInt (year t) 4 +:+ "-" +:+ appendInt (month t) 2 +:+ "-" +:+ appendInt (day t) 2.

(** Lexicographic order on civil dates. *)
Definition date_ltb (y1 m1 d1 y2 m2 d2 : Z) : bool :=
  (y1 <? y2) || ((y1 =? y2) && ((m1 <? m2) || ((m1 =? m2) && (d1 <? d2)))).

Definition same_date (t u : Time) : bool :=
  (year t =? year u) && (month t =? month u) && (day t =? day u).

(** [t.After(u)]: the instant [t] is strictly later than [u]. *)
Definition After (t u : Time) : bool :=
  date_ltb (year u) (month u) (day u) (year t) (month t) (day t)
  || (same_date t u && (nsec_of_day u <? nsec_of_day t)%N).

(** The calendar day of [t] is strictly later than that of [u]. *)
Definition day_after (t u : Time) : bool :=
  date_ltb (year u) (month u) (day u) (year t) (month t) (day t).

(** A time the clock can show whose date prints in the four-digit-year
    form: a real calendar day of the years 0..9999. *)
Definition civil (t : Time) : Prop :=
  0 <= year t <= 9999 /\ 1 <= month t <= 12 /\ 1 <= day t <= daysIn (month t) (year t).

End GoTime.

(* ===================================================================== *)
(** ** Package net/url *)
(* ===================================================================== *)

(** [url.Parse], [URL.ResolveReference] and [URL.String], after the
    sources of package net/url (Go 1.21).  A [url.Error] is kept as the
    text of the error it wraps. *)

Module GoURL.
Import GoStrings.

Record Userinfo : Type := mkUserinfo {
  username : string;
  password : string;
  passwordSet : bool
}.

Record URL : Type := mkURL {
  Scheme : string;
  Opaque : string;
  User : option Userinfo;
  Host : string;
  Path : string;
  RawPath : string;
  OmitHost : bool;
  ForceQuery : bool;
  RawQuery : string;
  Fragment : string;
  RawFragment : string
}.


Inductive encoding : Type :=
| encodePath
| encodePathSegment
| encodeHost
| encodeZone
| encodeUserPassword
| encodeQueryComponent
| encodeFragment.

Definition encoding_eqb (a b : encoding) : bool :=
  match a, b with
  | encodePath, encodePath | encodePathSegment, encodePathSegment
  | encodeHost, encodeHost | encodeZone, encodeZone
  | encodeUserPassword, encodeUserPassword
  | encodeQueryComponent, encodeQueryComponent
  | encodeFragment, encodeFragment => true
  | _, _ => false
  end.

Definition dquote : ascii := "034"%char.

Definition is_lower (c : ascii) : bool := (97 <=? byte_of c) && (byte_of c <=? 122).
Definition is_upper (c : ascii) : bool := (65 <=? byte_of c) && (byte_of c <=? 90).
Definition is_alpha (c : ascii) : bool := is_lower c || is_upper c.
Definition is_alnum (c : ascii) : bool := is_alpha c || is_digit_byte c.

Definition ishex (c : ascii) : bool :=
  is_digit_byte c
  || ((97 <=? byte_of c) && (byte_of c <=? 102))
  || ((65 <=? byte_of c) && (byte_of c <=? 70)).

Definition unhex (c : ascii) : Z :=
  if is_digit_byte c then byte_of c - 48
  else if (97 <=? byte_of c) && (byte_of c <=? 102) then byte_of c - 97 + 10
  else if (65 <=? byte_of c) && (byte_of c <=? 70) then byte_of c - 65 + 10
  else 0.

Definition upperhex (d : Z) : ascii :=
  if d <? 10 then ascii_of_N (Z.to_N (48 + d)) else ascii_of_N (Z.to_N (65 + d - 10)).

Definition byte_to_ascii (b : Z) : ascii := ascii_of_N (Z.to_N (b mod 256)).

(** [shouldEscape(c, mode)]. *)
Definition shouldEscape (c : ascii) (mode : encoding) : bool :=
  if is_alnum c then false
  else if (encoding_eqb mode encodeHost || encoding_eqb mode encodeZone)
          && (contains_byte c "!$&'()*+,;=:[]<>" || Ascii.eqb c dquote) then false
  else if contains_byte c "-_.~" then false
  else if contains_byte c "$&+,/:;=?@"
          && negb (encoding_eqb mode encodeHost || encoding_eqb mode encodeZone) then
    match mode with
    | encodePath => Ascii.eqb c "?"
    | encodePathSegment => contains_byte c "/;,?"
    | encodeUserPassword => contains_byte c "@/?:"
    | encodeQueryComponent => true
    | encodeFragment => false
    | encodeHost | encodeZone => true
    end
  else if encoding_eqb mode encodeFragment && contains_byte c "!()*" then false
  else true.

(** First pass of [unescape]: the escapes are well formed and allowed in
    this part of the URL.  Returns the number of escapes and whether a
    plus sign has to be rewritten. *)
Fixpoint unescape_scan (s : string) (mode : encoding) (n : nat) (hasPlus : bool)
  : string + (nat * bool) :=
  match s with
  | EmptyString => inr (n, hasPlus)
  | String "%" rest =>
      match rest with
      | String c1 (String c2 rest') =>
          if negb (ishex c1) || negb (ishex c2)
          then inl ("invalid URL escape " +:+ take_str 3 s)
          else if encoding_eqb mode encodeHost && (unhex c1 <? 8)
                  && negb (String.eqb (take_str 3 s) "%25")
          then inl ("invalid URL escape " +:+ take_str 3 s)
          else if encoding_eqb mode encodeZone
                  && (let v := byte_to_ascii (unhex c1 * 16 + unhex c2) in
                      negb (String.eqb (take_str 3 s) "%25")
                      && negb (Ascii.eqb v " ")
                      && shouldEscape v encodeHost)
          then inl ("invalid URL escape " +:+ take_str 3 s)
          else unescape_scan rest' mode (S n) hasPlus
      | _ => inl ("invalid URL escape " +:+ take_str 3 s)
      end
  | String "+" rest =>
      unescape_scan rest mode n (encoding_eqb mode encodeQueryComponent)
  | String c rest =>
      if (encoding_eqb mode encodeHost || encoding_eqb mode encodeZone)
         && (byte_of c <? 128) && shouldEscape c encodeHost
      then inl ("invalid character in host name")
      else unescape_scan rest mode n hasPlus
  end.

(** Second pass of [unescape]: decode. *)
Fixpoint unescape_decode (s : string) (mode : encoding) : string :=
  match s with
  | EmptyString => EmptyString
  | String "%" (String c1 (String c2 rest)) =>
      String (byte_to_ascii (unhex c1 * 16 + unhex c2)) (unescape_decode rest mode)
  | String "+" rest =>
      String (if encoding_eqb mode encodeQueryComponent then " "%char else "+"%char)
             (unescape_decode rest mode)
  | String c rest => String c (unescape_decode rest mode)
  end.

Definition unescape (s : string) (mode : encoding) : string + string :=
  match unescape_scan s mode 0 false with
  | inl e => inl e
  | inr (n, hasPlus) =>
      if Nat.eqb n 0 && negb hasPlus then inr s else inr (unescape_decode s mode)
  end.

(** [escape(s, mode)]. *)
Fixpoint escape (s : string) (mode : encoding) : string :=
  match s with
  | EmptyString => EmptyString
  | String c rest =>
      if shouldEscape c mode then
        if Ascii.eqb c " " && encoding_eqb mode encodeQueryComponent
        then String "+" (escape rest mode)
        else String "%" (String (upperhex (byte_of c / 16))
                          (String (upperhex (byte_of c mod 16)) (escape rest mode)))
      else String c (escape rest mode)
  end.

(** [stringContainsCTLByte]. *)
Fixpoint stringContainsCTLByte (s : string) : bool :=
  match s with
  | EmptyString => false
  | String c rest => (byte_of c <? 32) || (byte_of c =? 127) || stringContainsCTLByte rest
  end.

(** [getScheme]: the loop over the bytes of [rawURL], [i] the position. *)
Fixpoint getScheme_at (s : string) (i : nat) (rawURL : string)
  : string + (string * string) :=
  match s with
  | EmptyString => inr ("", rawURL)
  | String c rest =>
      if is_alpha c then getScheme_at rest (S i) rawURL
      else if is_digit_byte c || contains_byte c "+-." then
        if Nat.eqb i 0 then inr ("", rawURL) else getScheme_at rest (S i) rawURL
      else if Ascii.eqb c ":" then
        if Nat.eqb i 0 then inl "missing protocol scheme"
        else inr (take_str i rawURL, rest)
      else inr ("", rawURL)
  end.

Definition getScheme (rawURL : string) : string + (string * string) :=
  getScheme_at rawURL 0 rawURL.

(** [strings.ToLower] on the bytes a scheme can hold. *)
Fixpoint ToLower (s : string) : string :=
  match s with
  | EmptyString => EmptyString
  | String c rest =>
      String (if is_upper c then byte_to_ascii (byte_of c + 32) else c) (ToLower rest)
  end.

(** [strings.Cut(s, sep)] for a separator of one byte. *)
Fixpoint Cut (s : string) (sep : ascii) : string * string * bool :=
  match s with
  | EmptyString => (EmptyString, EmptyString, false)
  | String c rest =>
      if Ascii.eqb c sep then (EmptyString, rest, true)
      else let '(b, a, f) := Cut rest sep in (String c b, a, f)
  end.

(** [strings.Count(s, sep)] for a separator of one byte. *)
Fixpoint Count (s : string) (sep : ascii) : nat :=
  match s with
  | EmptyString => O
  | String c rest => (if Ascii.eqb c sep then 1 else 0)%nat + Count rest sep
  end.

(** [strings.Index(s, sep)]. *)
Fixpoint Index_at (s sep : string) (i : nat) : option nat :=
  if HasPrefix s sep then Some i
  else match s with
       | EmptyString => None
       | String _ rest => Index_at rest sep (S i)
       end.

Definition Index (s sep : string) : option nat := Index_at s sep 0.

(** [strings.LastIndex(s, sep)] for a separator of one byte. *)
Fixpoint LastIndex_at (s : string) (sep : ascii) (i : nat) (last : option nat)
  : option nat :=
  match s with
  | EmptyString => last
  | String c rest =>
      LastIndex_at rest sep (S i) (if Ascii.eqb c sep then Some i else last)
  end.

Definition LastIndex (s : string) (sep : ascii) : option nat :=
  LastIndex_at s sep 0 None.

(** [strings.HasSuffix(s, suffix)] for a suffix of one byte. *)
Fixpoint HasSuffix1 (s : string) (c : ascii) : bool :=
  match s with
  | EmptyString => false
  | String d EmptyString => Ascii.eqb d c
  | String _ rest => HasSuffix1 rest c
  end.

(** [validOptionalPort]. *)
Fixpoint all_digits (s : string) : bool :=
  match s with
  | EmptyString => true
  | String c rest => is_digit_byte c && all_digits rest
  end.

Definition validOptionalPort (port : string) : bool :=
  match port with
  | EmptyString => true
  | String c rest => Ascii.eqb c ":" && all_digits rest
  end.

(** [validUserinfo]. *)
Fixpoint validUserinfo (s : string) : bool :=
  match s with
  | EmptyString => true
  | String c rest =>
      (is_alnum c || contains_byte c "-._:~!$&'()*+,;=%@") && validUserinfo rest
  end.

(** [parseHost]. *)
Definition parseHost (host : string) : string + string :=
  if HasPrefix host "[" then
    match LastIndex host "]" with
    | None => inl "missing ']' in host"
    | Some i =>
        let colonPort := drop_str (S i) host in
        if negb (validOptionalPort colonPort)
        then inl ("invalid port " +:+ colonPort +:+ " after host")
        else
          match Index (take_str i host) "%25" with
          | Some zone =>
              match unescape (take_str zone host) encodeHost with
              | inl e => inl e
              | inr host1 =>
              match unescape (drop_str zone (take_str i host)) encodeZone with
              | inl e => inl e
              | inr host2 =>
              match unescape (drop_str i host) encodeHost with
              | inl e => inl e
              | inr host3 => inr (host1 +:+ host2 +:+ host3)
              end end end
          | None => unescape host encodeHost
          end
    end
  else
    match LastIndex host ":" with
    | Some i =>
        let colonPort := drop_str i host in
        if negb (validOptionalPort colonPort)
        then inl ("invalid port " +:+ colonPort +:+ " after host")
        else unescape host encodeHost
    | None => unescape host encodeHost
    end.

(** [parseAuthority]. *)
Definition parseAuthority (authority : string) : string + (option Userinfo * string) :=
  let i := LastIndex authority "@" in
  match parseHost (match i with
                   | None => authority
                   | Some i => drop_str (S i) authority
                   end) with
  | inl e => inl e
  | inr host =>
      match i with
      | None => inr (None, host)
      | Some i =>
          let userinfo := take_str i authority in
          if negb (validUserinfo userinfo) then inl "net/url: invalid userinfo"
          else if negb (contains_byte ":" userinfo) then
            match unescape userinfo encodeUserPassword with
            | inl e => inl e
            | inr u => inr (Some (mkUserinfo u "" false), host)
            end
          else
            let '(uname, pwd, _) := Cut userinfo ":" in
            match unescape uname encodeUserPassword with
            | inl e => inl e
            | inr uname =>
                match unescape pwd encodeUserPassword with
                | inl e => inl e
                | inr pwd => inr (Some (mkUserinfo uname pwd true), host)
                end
            end
      end
  end.

(** [URL.setPath]. *)
Definition setPath (u : URL) (p : string) : string + URL :=
  match unescape p encodePath with
  | inl e => inl e
  | inr path =>
      let raw := if String.eqb p (escape path encodePath) then "" else p in
      inr (mkURL (Scheme u) (Opaque u) (User u) (Host u) path raw (OmitHost u)
                 (ForceQuery u) (RawQuery u) (Fragment u) (RawFragment u))
  end.

(** [URL.setFragment]. *)
Definition setFragment (u : URL) (f : string) : string + URL :=
  match unescape f encodeFragment with
  | inl e => inl e
  | inr frag =>
      let raw := if String.eqb f (escape frag encodeFragment) then "" else f in
      inr (mkURL (Scheme u) (Opaque u) (User u) (Host u) (Path u) (RawPath u)
                 (OmitHost u) (ForceQuery u) (RawQuery u) frag raw)
  end.

(** [parse(rawURL, viaRequest)] with [viaRequest = false]. *)
Definition parse (rawURL : string) : string + URL :=
  if stringContainsCTLByte rawURL
  then inl "net/url: invalid control character in URL"
  else if String.eqb rawURL "*"
  then inr (mkURL "" "" None "" "*" "" false false "" "" "")
  else
  match getScheme rawURL with
  | inl e => inl e
  | inr (scheme, rest) =>
  let scheme := ToLower scheme in
  let '(rest, forceQuery, rawQuery) :=
    if HasSuffix1 rest "?" && Nat.eqb (Count rest "?") 1
    then (take_str (String.length rest - 1) rest, true, "")
    else let '(r, q, _) := Cut rest "?" in (r, false, q) in
  if negb (HasPrefix rest "/") && negb (String.eqb scheme "")
  then inr (mkURL scheme rest None "" "" "" false forceQuery rawQuery "" "")
  else if negb (HasPrefix rest "/")
          && contains_byte ":" (let '(segment, _, _) := Cut rest "/" in segment)
  then inl "first path segment in URL cannot contain colon"
  else
  let withAuthority :=
    (negb (String.eqb scheme "") || negb (HasPrefix rest "///")) && HasPrefix rest "//" in
  let authority_rest :=
    if withAuthority then
      let authority := drop_str 2 rest in
      match Index authority "/" with
      | Some i => (take_str i authority, drop_str i authority)
      | None => (authority, "")
      end
    else ("", rest) in
  match (if withAuthority then parseAuthority (fst authority_rest)
         else inr (None, "")) with
  | inl e => inl e
  | inr (user, host) =>
      let omitHost :=
        negb withAuthority && negb (String.eqb scheme "") && HasPrefix rest "/" in
      setPath (mkURL scheme "" user host "" "" omitHost forceQuery rawQuery "" "")
              (snd authority_rest)
  end
  end.

(** [url.Parse(rawURL)]. *)
Definition Parse (rawURL : string) : string + URL :=
  let '(u, frag, _) := Cut rawURL "#" in
  match parse u with
  | inl e => inl e
  | inr url => if String.eqb frag "" then inr url else setFragment url frag
  end.

(** [validEncoded(s, mode)]. *)
Fixpoint validEncoded (s : string) (mode : encoding) : bool :=
  match s with
  | EmptyString => true
  | String c rest =>
      (contains_byte c "!$&'()*+,;=:@[]%" || negb (shouldEscape c mode))
      && validEncoded rest mode
  end.

(** [URL.EscapedPath]. *)
Definition EscapedPath (u : URL) : string :=
  if negb (String.eqb (RawPath u) "") && validEncoded (RawPath u) encodePath
     && match unescape (RawPath u) encodePath with
        | inr p => String.eqb p (Path u)
        | inl _ => false
        end
  then RawPath u
  else if String.eqb (Path u) "*" then "*"
  else escape (Path u) encodePath.

(** [URL.EscapedFragment]. *)
Definition EscapedFragment (u : URL) : string :=
  if negb (String.eqb (RawFragment u) "") && validEncoded (RawFragment u) encodeFragment
     && match unescape (RawFragment u) encodeFragment with
        | inr f => String.eqb f (Fragment u)
        | inl _ => false
        end
  then RawFragment u
  else escape (Fragment u) encodeFragment.

(** [Userinfo.String]. *)
Definition Userinfo_String (u : Userinfo) : string :=
  escape (username u) encodeUserPassword
  +:+ (if passwordSet u then ":" +:+ escape (password u) encodeUserPassword else "").

(** [URL.String]. *)
Definition String_ (u : URL) : string :=
  let head := if String.eqb (Scheme u) "" then "" else Scheme u +:+ ":" in
  let body :=
    if negb (String.eqb (Opaque u) "") then head +:+ Opaque u
    else
      let hasUser := match User u with Some _ => true | None => false end in
      let auth :=
        if negb (String.eqb (Scheme u) "") || negb (String.eqb (Host u) "") || hasUser then
          if OmitHost u && String.eqb (Host u) "" && negb hasUser then ""
          else
            (if negb (String.eqb (Host u) "") || negb (String.eqb (Path u) "") || hasUser
             then "//" else "")
            +:+ (match User u with
                 | Some ui => Userinfo_String ui +:+ "@"
                 | None => ""
                 end)
            +:+ (if String.eqb (Host u) "" then "" else escape (Host u) encodeHost)
        else "" in
      let buf := head +:+ auth in
      let path := EscapedPath u in
      let buf :=
        if negb (String.eqb path "") && negb (HasPrefix path "/")
           && negb (String.eqb (Host u) "")
        then buf +:+ "/" else buf in
      let buf :=
        if String.eqb buf ""
           && contains_byte ":" (let '(segment, _, _) := Cut path "/" in segment)
        then buf +:+ "./" else buf in
      buf +:+ path in
  let body :=
    if ForceQuery u || negb (String.eqb (RawQuery u) "")
    then body +:+ "?" +:+ RawQuery u else body in
  if negb (String.eqb (Fragment u) "")
  then body +:+ "#" +:+ EscapedFragment u else body.

(** The loop of [resolvePath]: [dst] is the text written so far without its
    leading slash, [elems] the path elements still to come; returns the text
    and the last element seen. *)
Fixpoint resolvePath_loop (elems : list string) (dst : string) (first : bool)
  (last : string) : string * string :=
  match elems with
  | [] => (dst, last)
  | elem :: elems' =>
      if String.eqb elem "." then resolvePath_loop elems' dst false elem
      else if String.eqb elem ".." then
        match LastIndex dst "/" with
        | None => resolvePath_loop elems' "" true elem
        | Some index => resolvePath_loop elems' (take_str index dst) first elem
        end
      else
        resolvePath_loop elems' ((if first then dst else dst +:+ "/") +:+ elem) false elem
  end.

(** The pieces [strings.Cut(remaining, "/")] yields one after the other. *)
Fixpoint split_slash (s : string) (cur : string) : list string :=
  match s with
  | EmptyString => [rev_str cur EmptyString]
  | String c rest =>
      if Ascii.eqb c "/" then rev_str cur EmptyString :: split_slash rest EmptyString
      else split_slash rest (String c cur)
  end.

(** [resolvePath(base, ref)]. *)
Definition resolvePath (base ref : string) : string :=
  let full :=
    if String.eqb ref "" then base
    else if negb (HasPrefix ref "/") then
      match LastIndex base "/" with
      | Some i => take_str (S i) base +:+ ref
      | None => ref
      end
    else ref in
  if String.eqb full "" then ""
  else
    let '(dst, elem) := resolvePath_loop (split_slash full EmptyString) "" true "" in
    let dst := if String.eqb elem "." || String.eqb elem ".." then dst +:+ "/" else dst in
    let r := "/" +:+ dst in
    match r with
    | String _ (String "/" _ as r') => r'
    | _ => r
    end.

(** [setPath] with its error dropped, as [ResolveReference] calls it. *)
Definition setPath_ignore (u : URL) (p : string) : URL :=
  match setPath u p with
  | inr u' => u'
  | inl _ => u
  end.

(** [URL.ResolveReference]. *)
Definition ResolveReference (u ref : URL) : URL :=
  let url :=
    if String.eqb (Scheme ref) ""
    then mkURL (Scheme u) (Opaque ref) (User ref) (Host ref) (Path ref) (RawPath ref)
               (OmitHost ref) (ForceQuery ref) (RawQuery ref) (Fragment ref)
               (RawFragment ref)
    else ref in
  let hasUser := match User ref with Some _ => true | None => false end in
  if negb (String.eqb (Scheme ref) "") || negb (String.eqb (Host ref) "") || hasUser
  then setPath_ignore url (resolvePath (EscapedPath ref) "")
  else if negb (String.eqb (Opaque ref) "")
  then mkURL (Scheme url) (Opaque url) None "" "" (RawPath url) (OmitHost url)
             (ForceQuery url) (RawQuery url) (Fragment url) (RawFragment url)
  else
    let url :=
      if String.eqb (Path ref) "" && negb (ForceQuery ref) && String.eqb (RawQuery ref) ""
      then
        if String.eqb (Fragment ref) ""
        then mkURL (Scheme url) (Opaque url) (User url) (Host url) (Path url)
                   (RawPath url) (OmitHost url) (ForceQuery url) (RawQuery u)
                   (Fragment u) (RawFragment u)
        else mkURL (Scheme url) (Opaque url) (User url) (Host url) (Path url)
                   (RawPath url) (OmitHost url) (ForceQuery url) (RawQuery u)
                   (Fragment url) (RawFragment url)
      else url in
    if String.eqb (Path ref) "" && negb (String.eqb (Opaque u) "")
    then mkURL (Scheme url) (Opaque u) None "" "" (RawPath url) (OmitHost url)
               (ForceQuery url) (RawQuery url) (Fragment url) (RawFragment url)
    else
      setPath_ignore
        (mkURL (Scheme url) (Opaque url) (User u) (Host u) (Path url) (RawPath url)
               (OmitHost url) (ForceQuery url) (RawQuery url) (Fragment url)
               (RawFragment url))
        (resolvePath (EscapedPath u) (EscapedPath ref)).

End GoURL.

(* ===================================================================== *)
(** ** Package path *)
(* ===================================================================== *)

Module GoPath.
Import GoStrings.

(** The backtracking step of [Clean] on a ".." element: drop the last
    element written, down to (not including) position [dotdot]. *)
Fixpoint backtrack (fuel : nat) (out : string) (w dotdot : nat) : nat :=
  match fuel with
  | O => w
  | S fuel' =>
      if (Nat.ltb dotdot w)
         && negb (match at_ out w with Some c => Ascii.eqb c "/" | None => false end)
      then backtrack fuel' out (w - 1) dotdot
      else w
  end.

(** The segment up to the next slash, and what follows it. *)
Fixpoint span_segment (s : string) : string * string :=
  match s with
  | EmptyString => (EmptyString, EmptyString)
  | String c rest =>
      if Ascii.eqb c "/" then (EmptyString, s)
      else let '(seg, r) := span_segment rest in (String c seg, r)
  end.

(** The loop of [path.Clean]: [rest] is [path[r:]], [out] the buffer. *)
Fixpoint Clean_loop (fuel : nat) (rest : string) (rooted : bool) (out : string)
  (dotdot : nat) : string :=
  match fuel with
  | O => out
  | S fuel' =>
      match rest with
      | EmptyString => out
      | String "/" rest' => Clean_loop fuel' rest' rooted out dotdot
      | String "." EmptyString => Clean_loop fuel' EmptyString rooted out dotdot
      | String "." (String "/" _ as rest') => Clean_loop fuel' rest' rooted out dotdot
      | String "." (String "." EmptyString as rest')
      | String "." (String "." (String "/" _) as rest') =>
          let rest'' := drop_str 1 rest' in
          let w := String.length out in
          if Nat.ltb dotdot w then
            let w' := backtrack w out (w - 1) dotdot in
            Clean_loop fuel' rest'' rooted (take_str w' out) dotdot
          else if negb rooted then
            let out' := (if Nat.ltb 0 w then out +:+ "/" else out) +:+ ".." in
            Clean_loop fuel' rest'' rooted out' (String.length out')
          else Clean_loop fuel' rest'' rooted out dotdot
      | _ =>
          let w := String.length out in
          let out' :=
            if (rooted && negb (Nat.eqb w 1)) || (negb rooted && negb (Nat.eqb w 0))
            then out +:+ "/" else out in
          let '(seg, rest') := span_segment rest in
          Clean_loop fuel' rest' rooted (out' +:+ seg) dotdot
      end
  end.

(** [path.Clean]. *)
Definition Clean (path : string) : string :=
  match path with
  | EmptyString => "."
  | String c _ =>
      let rooted := Ascii.eqb c "/" in
      let out :=
        Clean_loop (S (String.length path)) (if rooted then drop_str 1 path else path)
                   rooted (if rooted then "/" else "") (if rooted then 1 else 0)%nat in
      if String.eqb out "" then "." else out
  end.

(** [path.Join(a, b)]. *)
Definition Join (a b : string) : string :=
  if String.eqb a "" && String.eqb b "" then ""
  else if String.eqb a "" then Clean b
  else if String.eqb b "" then Clean a
  else Clean (a +:+ "/" +:+ b).

(** [path.Base]. *)
Definition Base (path : string) : string :=
  if String.eqb path "" then "."
  else
    let path := TrimRight1 path "/" in
    let path :=
      match GoURL.LastIndex path "/" with
      | Some i => drop_str (S i) path
      | None => path
      end in
    if String.eqb path "" then "/" else path.

End GoPath.

(* ===================================================================== *)
(** ** Package encoding/xml: marshalling of the sitemap structures *)
(* ===================================================================== *)

Module GoXML.
Import GoStrings.

Definition quot : string := String "034"%char EmptyString.
Definition nl : string := String "010"%char EmptyString.

(** [xml.Header]. *)
Definition Header : string :=
  "<?xml version=" +:+ quot +:+ "1.0" +:+ quot +:+ " encoding=" +:+ quot
  +:+ "UTF-8" +:+ quot +:+ "?>" +:+ nl.

Definition RuneError : Z := 65533.

(** [utf8.DecodeRuneInString]: the first rune of [s] and its width in
    bytes; an ill-formed sequence decodes to [RuneError] with width 1. *)
Definition continuation (c : ascii) (lo hi : Z) : bool :=
  (lo <=? byte_of c) && (byte_of c <=? hi).

Definition DecodeRune (s : string) : Z * nat :=
  match s with
  | EmptyString => (RuneError, 0%nat)
  | String c0 rest =>
      let b0 := byte_of c0 in
      if b0 <? 128 then (b0, 1%nat)
      else if (b0 <? 194) || (244 <? b0) then (RuneError, 1%nat)
      else
        let sz := if b0 <? 224 then 2 else if b0 <? 240 then 3 else 4 in
        let lo := if b0 =? 224 then 160 else if b0 =? 240 then 144 else 128 in
        let hi := if b0 =? 237 then 159 else if b0 =? 244 then 143 else 191 in
        if len s <? sz then (RuneError, 1%nat)
        else
          match rest with
          | String c1 rest1 =>
              if negb (continuation c1 lo hi) then (RuneError, 1%nat)
              else if sz <=? 2
              then (Z.land b0 31 * 64 + Z.land (byte_of c1) 63, 2%nat)
              else
                match rest1 with
                | String c2 rest2 =>
                    if negb (continuation c2 128 191) then (RuneError, 1%nat)
                    else if sz <=? 3
                    then (Z.land b0 15 * 4096 + Z.land (byte_of c1) 63 * 64
                          + Z.land (byte_of c2) 63, 3%nat)
                    else
                      match rest2 with
                      | String c3 _ =>
                          if negb (continuation c3 128 191) then (RuneError, 1%nat)
                          else (Z.land b0 7 * 262144 + Z.land (byte_of c1) 63 * 4096
                                + Z.land (byte_of c2) 63 * 64 + Z.land (byte_of c3) 63,
                                4%nat)
                      | EmptyString => (RuneError, 1%nat)
                      end
                | EmptyString => (RuneError, 1%nat)
                end
          | EmptyString => (RuneError, 1%nat)
          end
  end.

(** [isInCharacterRange]: the characters XML 1.0 allows. *)
Definition isInCharacterRange (r : Z) : bool :=
  (r =? 9) || (r =? 10) || (r =? 13)
  || ((32 <=? r) && (r <=? 55295))
  || ((57344 <=? r) && (r <=? 65533))
  || ((65536 <=? r) && (r <=? 1114111)).

(** The replacement text of one rune, if it has to be escaped. *)
Definition escape_rune (r : Z) (width : nat) : option string :=
  if r =? 34 then Some "&#34;"
  else if r =? 39 then Some "&#39;"
  else if r =? 38 then Some "&amp;"
  else if r =? 60 then Some "&lt;"
  else if r =? 62 then Some "&gt;"
  else if r =? 9 then Some "&#x9;"
  else if r =? 10 then Some "&#xA;"
  else if r =? 13 then Some "&#xD;"
  else if negb (isInCharacterRange r) || ((r =? 65533) && Nat.eqb width 1)
  then Some (String "239"%char (String "191"%char (String "189"%char EmptyString)))
  else None.

(** [printer.EscapeString]: rune by rune. *)
Fixpoint EscapeString_fuel (fuel : nat) (s : string) : string :=
  match fuel with
  | O => EmptyString
  | S fuel' =>
      match s with
      | EmptyString => EmptyString
      | _ =>
          let '(r, width) := DecodeRune s in
          (match escape_rune r width with
           | Some esc => esc
           | None => take_str width s
           end) +:+ EscapeString_fuel fuel' (drop_str width s)
      end
  end.

Definition EscapeString (s : string) : string :=
  EscapeString_fuel (String.length s) s.

(** [printer.writeIndent] with an indent of two blanks and no prefix: a
    line feed and [depth] indents. *)
Fixpoint indent (depth : nat) : string :=
  match depth with
  | O => EmptyString
  | S d => "  " +:+ indent d
  end.

(** An element holding character data only, a field of a struct at
    [depth]; nothing at all for an empty [omitempty] field. *)
Definition text_element (depth : nat) (name value : string) (omitempty : bool) : string :=
  if omitempty && String.eqb value "" then EmptyString
  else nl +:+ indent depth +:+ "<" +:+ name +:+ ">" +:+ EscapeString value
       +:+ "</" +:+ name +:+ ">".

Definition concat_str (l : list string) : string :=
  fold_right String.append EmptyString l.

(** An element with child elements, each on a line of its own.  The first
    element of a document is not preceded by a line feed, an element
    without children closes on the line it opens. *)
Definition start_tag (top : bool) (depth : nat) (name attrs : string) : string :=
  (if top then EmptyString else nl +:+ indent depth) +:+ "<" +:+ name +:+ attrs +:+ ">".

Definition end_tag (depth : nat) (name : string) (children : string) : string :=
  (if String.eqb children "" then EmptyString else nl +:+ indent depth)
  +:+ "</" +:+ name +:+ ">".

End GoXML.

(* ===================================================================== *)
(** ** sitemap.go *)
(* ===================================================================== *)

Import GoStrings GoTime.

(** *** Machine integers *)

(** Go's [int] on the 64-bit platforms: arithmetic wraps around. *)
Definition wrap64 (z : Z) : Z := (z + 2 ^ 63) mod 2 ^ 64 - 2 ^ 63.

Definition int_add (a b : Z) : Z := wrap64 (a + b).
Definition int_sub (a b : Z) : Z := wrap64 (a - b).
Definition int_mul (a b : Z) : Z := wrap64 (a * b).

(** Integer division truncates towards zero and panics on a zero divisor. *)
Definition int_div (a b : Z) : option Z :=
  if b =? 0 then None else Some (wrap64 (Z.quot a b)).

(** *** Data *)

(** [SitemapURL].  The field [XMLName] only carries the element name
    "url", which the struct tag fixes; it holds no data of an entry. *)
Record SitemapURL : Type := mkSitemapURL {
  Loc : string;
  LastMod : string;
  ChangeFreq : string;
  Priority : string
}.

Record URLSet : Type := mkURLSet {
  us_Xmlns : string;
  us_URLs : list SitemapURL
}.

Record Sitemap : Type := mkSitemap {
  sm_Loc : string;
  sm_LastMod : string
}.

Record SitemapIndex : Type := mkSitemapIndex {
  ix_Xmlns : string;
  ix_Sitemaps : list Sitemap
}.

Record SitemapOptions : Type := mkSitemapOptions {
  MaxFileSize : Z;
  MaxURLs : Z;
  Dir : string;
  BaseURL : string;
  URLs : list SitemapURL;
  Stylesheet : string
}.

Definition set_Loc (u : SitemapURL) (v : string) : SitemapURL :=
  mkSitemapURL v (LastMod u) (ChangeFreq u) (Priority u).

Definition set_LastMod (u : SitemapURL) (v : string) : SitemapURL :=
  mkSitemapURL (Loc u) v (ChangeFreq u) (Priority u).

Definition set_URLs (s : SitemapOptions) (v : list SitemapURL) : SitemapOptions :=
  mkSitemapOptions (MaxFileSize s) (MaxURLs s) (Dir s) (BaseURL s) v (Stylesheet s).

Definition set_Stylesheet (s : SitemapOptions) (v : string) : SitemapOptions :=
  mkSitemapOptions (MaxFileSize s) (MaxURLs s) (Dir s) (BaseURL s) (URLs s) v.

Definition maxURLsPerSitemap : Z := 33333.

(** The two schema texts, [sitemapXSD] and [sitemapIndexXSD]; they are only
    handed to the schema parser. *)
Inductive schema_text : Type :=
| sitemapXSD
| sitemapIndexXSD.

(** *** Marshalling ([xml.MarshalIndent(v, "", "  ")]) *)

Definition marshal_SitemapURL (u : SitemapURL) : string :=
  let children :=
    GoXML.text_element 2 "loc" (Loc u) false
    +:+ GoXML.text_element 2 "lastmod" (LastMod u) true
    +:+ GoXML.text_element 2 "changefreq" (ChangeFreq u) true
    +:+ GoXML.text_element 2 "priority" (Priority u) true in
  GoXML.start_tag false 1 "url" "" +:+ children +:+ GoXML.end_tag 1 "url" children.

Definition xmlns_attr (v : string) : string :=
  " xmlns=" +:+ GoXML.quot +:+ GoXML.EscapeString v +:+ GoXML.quot.

Definition MarshalIndent_URLSet (v : URLSet) : string + string :=
  let children := GoXML.concat_str (map marshal_SitemapURL (us_URLs v)) in
  inr (GoXML.start_tag true 0 "urlset" (xmlns_attr (us_Xmlns v)) +:+ children
       +:+ GoXML.end_tag 0 "urlset" children).

Definition marshal_Sitemap (m : Sitemap) : string :=
  let children :=
    GoXML.text_element 2 "loc" (sm_Loc m) false
    +:+ GoXML.text_element 2 "lastmod" (sm_LastMod m) true in
  GoXML.start_tag false 1 "sitemap" "" +:+ children +:+ GoXML.end_tag 1 "sitemap" children.

Definition MarshalIndent_SitemapIndex (v : SitemapIndex) : string + string :=
  let children := GoXML.concat_str (map marshal_Sitemap (ix_Sitemaps v)) in
  inr (GoXML.start_tag true 0 "sitemapindex" (xmlns_attr (ix_Xmlns v)) +:+ children
       +:+ GoXML.end_tag 0 "sitemapindex" children).

(** *** Errors *)

(** The values of Go's [error] interface that can reach the caller, by the
    package that makes them; each keeps its message. *)
Inductive error : Type :=
| UrlError (msg : string)       (* net/url: a URL that does not parse *)
| PathError (msg : string)      (* os: a failed system call *)
| MarshalError (msg : string)   (* encoding/xml *)
| ErrorString (msg : string).   (* fmt.Errorf *)

(** [err.Error()], what the verb %v prints. *)
Definition error_text (e : error) : string :=
  match e with
  | UrlError m | PathError m | MarshalError m | ErrorString m => m
  end.

Definition is_UrlError (e : error) : bool :=
  match e with UrlError _ => true | _ => false end.

(** *** The world outside the program *)

(** The operating system: clock and file system.  Every call may change
    the world and may fail; a failure is the message of its error. *)
Class Runtime : Type := {
  World : Type;
  (** [time.Now().UTC()] *)
  time_Now : World -> Time * World;
  (** [os.Stat(name)] followed by [os.IsNotExist(err)] *)
  os_Stat_IsNotExist : string -> World -> bool * World;
  (** [os.MkdirAll(path, perm)] *)
  os_MkdirAll : string -> Z -> World -> option string * World;
  (** [os.WriteFile(name, data, perm)] *)
  os_WriteFile : string -> string -> Z -> World -> option string * World;
  (** [os.ReadFile(name)] *)
  os_ReadFile : string -> World -> (string + string) * World
}.

(** The XML tools the validator calls: libxml2 with its XSD module, and
    [xml.Unmarshal] into a [SitemapIndex]. *)
Class XMLTools : Type := {
  Schema : Type;
  Document : Type;
  xsd_Parse : schema_text -> string + Schema;
  libxml2_Parse : string -> string + Document;
  schema_Validate : Schema -> Document -> option string;
  xml_Unmarshal_SitemapIndex : string -> string + SitemapIndex
}.

(** What the program does to the world, in the order it does it. *)
Inductive event : Type :=
| EvNow (t : Time)
| EvStat (name : string) (notExist : bool)
| EvMkdirAll (path : string) (perm : Z) (err : option string)
| EvWriteFile (name : string) (data : string) (perm : Z) (err : option string)
| EvReadFile (name : string) (res : string + string).

(** A call returns or panics. *)
Inductive outcome (A : Type) : Type :=
| Done (a : A)
| Panic (msg : string).
Arguments Done {A} a.
Arguments Panic {A} msg.

Section Program.
Context {RT : Runtime} {XT : XMLTools}.

(** *** State and control *)

(** The receiver [s *SitemapOptions], the world, and the events so far. *)
Record St : Type := mkSt {
  this : SitemapOptions;
  world : World;
  log : list event
}.

Definition M (A : Type) : Type := St -> outcome A * St.

Definition ret {A : Type} (a : A) : M A := fun st => (Done a, st).

Definition bind {A B : Type} (m : M A) (k : A -> M B) : M B :=
  fun st =>
    match m st with
    | (Done a, st') => k a st'
    | (Panic msg, st') => (Panic msg, st')
    end.

Definition panic {A : Type} (msg : string) : M A := fun st => (Panic msg, st).

Definition get_this : M SitemapOptions := fun st => (Done (this st), st).

Definition set_this (s : SitemapOptions) : M unit :=
  fun st => (Done tt, mkSt s (world st) (log st)).

(** A call into the operating system, recorded in the log. *)
Definition syscall {A : Type} (f : World -> A * World) (ev : A -> event) : M A :=
  fun st =>
    let '(a, w) := f (world st) in
    (Done a, mkSt (this st) w (log st ++ [ev a])).

Definition Now : M Time := syscall time_Now EvNow.

Definition Stat_IsNotExist (name : string) : M bool :=
  syscall (os_Stat_IsNotExist name) (EvStat name).

Definition MkdirAll (path : string) (perm : Z) : M (option string) :=
  syscall (os_MkdirAll path perm) (EvMkdirAll path perm).

Definition WriteFile (name data : string) (perm : Z) : M (option string) :=
  syscall (os_WriteFile name data perm) (EvWriteFile name data perm).

Definition ReadFile (name : string) : M (string + string) :=
  syscall (os_ReadFile name) (EvReadFile name).

Notation "x <- m ;; k" := (bind m (fun x => k))
  (at level 100, m at level 99, k at level 200, right associativity).
Notation "m ;;; k" := (bind m (fun _ => k))
  (at level 100, k at level 200, right associativity).

(** *** The methods *)

(** [NewSitemapOptions]. *)
Definition NewSitemapOptions (dir baseURL : string) : SitemapOptions :=
  mkSitemapOptions 52428800 maxURLsPerSitemap dir (TrimRight1 baseURL "/") [] "".

(** [AddURL].  The argument is passed by value, so the caller's entry is
    not touched; the clock is read once for the comparison and once more
    for each date written. *)
Definition AddURL (url : SitemapURL) : M unit :=
  url' <- (if String.eqb (LastMod url) ""
           then now <- Now ;; ret (set_LastMod url (Format_date now))
           else
             match Parse_date (LastMod url) with
             | None => now <- Now ;; ret (set_LastMod url (Format_date now))
             | Some timeLastMod =>
                 now <- Now ;;
                 if After timeLastMod now
                 then now' <- Now ;; ret (set_LastMod url (Format_date now'))
                 else ret url
             end) ;;
  s <- get_this ;;
  set_this (set_URLs s (URLs s ++ [url'])).

(** [AddURLs]. *)
Fixpoint AddURLs (urls : list SitemapURL) : M unit :=
  match urls with
  | [] => ret tt
  | url :: urls' => AddURL url ;;; AddURLs urls'
  end.

(** [resolveURL]. *)
Definition resolveURL (s : SitemapOptions) (loc : string) : error + string :=
  match GoURL.Parse (BaseURL s) with
  | inl e => inl (UrlError e)
  | inr base =>
      match GoURL.Parse loc with
      | inl e => inl (UrlError e)
      | inr ref => inr (GoURL.String_ (GoURL.ResolveReference base ref))
      end
  end.

(** [resolveSitemapURL]. *)
Definition resolveSitemapURL (baseSitemapURL sitemapName : string) : error + string :=
  match GoURL.Parse (TrimRight1 baseSitemapURL "/" +:+ "/") with
  | inl e => inl (UrlError e)
  | inr base =>
      match GoURL.Parse sitemapName with
      | inl e => inl (UrlError e)
      | inr ref => inr (GoURL.String_ (GoURL.ResolveReference base ref))
      end
  end.

Definition sitemaps_xmlns : string := "http://www.sitemaps.org/schemas/sitemap/0.9".

(** The processing instruction [writeSitemapFile] and [writeSitemapIndex]
    print with [fmt.Sprintf] after the XML header. *)
Definition stylesheet_pi (href : string) : string :=
  "<?xml-stylesheet type=" +:+ GoXML.quot +:+ "text/xsl" +:+ GoXML.quot
  +:+ " href=" +:+ GoXML.quot +:+ href +:+ GoXML.quot +:+ "?>".

(** The buffer both writers fill: header, stylesheet line, data. *)
Definition document (stylesheet data : string) : string :=
  GoXML.Header
  +:+ (if negb (String.eqb stylesheet "") then stylesheet_pi stylesheet +:+ GoXML.nl
       else "")
  +:+ data.

(** [writeSitemapFile]. *)
Definition writeSitemapFile (filename : string) (urls : list SitemapURL)
  : M (option error) :=
  match MarshalIndent_URLSet (mkURLSet sitemaps_xmlns urls) with
  | inl e => ret (Some (MarshalError e))
  | inr data =>
      s <- get_this ;;
      r <- WriteFile (GoPath.Join (Dir s) filename) (document (Stylesheet s) data) 420 ;;
      ret (option_map PathError r)
  end.

(** [a[start:end]] panics unless [0 <= start <= end <= cap(a)]; the one
    slice expression of the program has [end <= len(a)]. *)
Definition slice {A : Type} (a : list A) (start end_ : Z) : option (list A) :=
  if (0 <=? start) && (start <=? end_) && (end_ <=? Z.of_nat (length a))
  then Some (firstn (Z.to_nat (end_ - start)) (skipn (Z.to_nat start) a))
  else None.

(** [fmt.Sprintf("sitemap_%d.xml", i+1)]. *)
Definition sitemapName (i : Z) : string :=
  "sitemap_" +:+ itoa (int_add i 1) +:+ ".xml".

(** The loop of [writeSitemapIndex]: [k] iterations to go from [i]. *)
Fixpoint writeShards (k : nat) (i : Z) (baseSitemapURL : string)
  (sitemaps : list Sitemap) : M (error + list Sitemap) :=
  match k with
  | O => ret (inr sitemaps)
  | S k' =>
      s <- get_this ;;
      let name := sitemapName i in
      let start := int_mul i (MaxURLs s) in
      let end_ := int_add start (MaxURLs s) in
      let end_ := if end_ >? Z.of_nat (length (URLs s))
                  then Z.of_nat (length (URLs s)) else end_ in
      match slice (URLs s) start end_ with
      | None => panic "slice bounds out of range"
      | Some urlsSlice =>
          err <- writeSitemapFile name urlsSlice ;;
          match err with
          | Some e => ret (inl e)
          | None =>
              match resolveSitemapURL baseSitemapURL name with
              | inl e => ret (inl e)
              | inr sitemapURL =>
                  now <- Now ;;
                  writeShards k' (int_add i 1) baseSitemapURL
                    (sitemaps ++ [mkSitemap sitemapURL (Format_date now)])
              end
          end
      end
  end.

(** [writeSitemapIndex]. *)
Definition writeSitemapIndex (baseSitemapURL : string) : M (option error) :=
  s <- get_this ;;
  match int_div (int_sub (int_add (Z.of_nat (length (URLs s))) (MaxURLs s)) 1)
                (MaxURLs s) with
  | None => panic "integer divide by zero"
  | Some fileCount =>
      r <- writeShards (Z.to_nat fileCount) 0 baseSitemapURL [] ;;
      match r with
      | inl e => ret (Some e)
      | inr sitemaps =>
          match MarshalIndent_SitemapIndex (mkSitemapIndex sitemaps_xmlns sitemaps) with
          | inl e => ret (Some (MarshalError e))
          | inr data =>
              r <- WriteFile (GoPath.Join (Dir s) "sitemap_index.xml")
                     (document (Stylesheet s) data) 420 ;;
              ret (option_map PathError r)
          end
      end
  end.

(** [validateXMLFile]. *)
Definition validateXMLFile (filePath : string) (isIndex : bool) : M (option error) :=
  r <- ReadFile filePath ;;
  match r with
  | inl e => ret (Some (ErrorString ("failed to read XML file for validation: " +:+ e)))
  | inr data =>
      match xsd_Parse (if isIndex then sitemapIndexXSD else sitemapXSD) with
      | inl e => ret (Some (ErrorString ("failed to parse schema: " +:+ e)))
      | inr schema =>
          match libxml2_Parse data with
          | inl e => ret (Some (ErrorString ("failed to parse XML: " +:+ e)))
          | inr doc =>
              match schema_Validate schema doc with
              | Some e =>
                  ret (Some (ErrorString ("XML validation against schema failed: " +:+ e)))
              | None => ret None
              end
          end
      end
  end.

(** The loop of [validateSitemapIndexAndFiles] over the index entries. *)
Fixpoint validateShards (sitemaps : list Sitemap) : M (option error) :=
  match sitemaps with
  | [] => ret None
  | sitemap :: rest =>
      match GoURL.Parse (sm_Loc sitemap) with
      | inl e =>
          ret (Some (ErrorString ("invalid sitemap URL '" +:+ sm_Loc sitemap
                                  +:+ "': " +:+ e)))
      | inr sitemapURL =>
          s <- get_this ;;
          err <- validateXMLFile (GoPath.Join (Dir s) (GoPath.Base (GoURL.Path sitemapURL)))
                   false ;;
          match err with
          | Some e => ret (Some e)
          | None => validateShards rest
          end
      end
  end.

(** [validateSitemapIndexAndFiles]. *)
Definition validateSitemapIndexAndFiles : M (option error) :=
  s <- get_this ;;
  let indexFilePath := GoPath.Join (Dir s) "sitemap_index.xml" in
  err <- validateXMLFile indexFilePath true ;;
  match err with
  | Some e => ret (Some e)
  | None =>
      r <- ReadFile indexFilePath ;;
      match r with
      | inl e =>
          ret (Some (ErrorString ("failed to read sitemap index for validation: " +:+ e)))
      | inr indexData =>
          match xml_Unmarshal_SitemapIndex indexData with
          | inl e =>
              ret (Some (ErrorString ("XML unmarshalling failed for sitemap index: " +:+ e)))
          | inr index => validateShards (ix_Sitemaps index)
          end
      end
  end.

(** The loop "Prepare URLs" of [Write]: [k] iterations to go from [i]. *)
Fixpoint prepareURLs (k : nat) (i : nat) : M (option error) :=
  match k with
  | O => ret None
  | S k' =>
      s <- get_this ;;
      match URLs s !! i with
      | None => panic "index out of range"
      | Some u =>
          match resolveURL s (Loc u) with
          | inl e => ret (Some e)
          | inr fullURL =>
              set_this (set_URLs s (<[i := set_Loc u fullURL]> (URLs s))) ;;;
              prepareURLs k' (S i)
          end
      end
  end.

(** [Write]. *)
Definition Write (baseSitemapURL stylesheetURL : string) : M (option error) :=
  s <- get_this ;;
  set_this (set_Stylesheet s stylesheetURL) ;;;
  notExist <- Stat_IsNotExist (Dir s) ;;
  mk <- (if notExist : bool then MkdirAll (Dir s) 493 else ret None) ;;
  match mk with
  | Some e => ret (Some (PathError e))
  | None =>
      s <- get_this ;;
      err <- prepareURLs (length (URLs s)) 0 ;;
      match err with
      | Some e => ret (Some e)
      | None =>
          s <- get_this ;;
          if Z.of_nat (length (URLs s)) <=? MaxURLs s then
            err <- writeSitemapFile "sitemap.xml" (URLs s) ;;
            match err with
            | Some e => ret (Some e)
            | None => validateXMLFile (GoPath.Join (Dir s) "sitemap.xml") false
            end
          else
            err <- writeSitemapIndex baseSitemapURL ;;
            match err with
            | Some e => ret (Some e)
            | None => validateSitemapIndexAndFiles
            end
      end
  end.

End Program.

Notation "x <- m ;; k" := (bind m (fun x => k))
  (at level 100, m at level 99, k at level 200, right associativity).
Notation "m ;;; k" := (bind m (fun _ => k))
  (at level 100, k at level 200, right associativity).

(* ===================================================================== *)
(** ** A world in memory *)
(* ===================================================================== *)

(** A file system held in memory and a scripted clock, to run the program
    on examples: [mw_clock] lists the coming clock readings (then the clock
    stays at [mw_now]); writing below a path of [mw_readonly] fails. *)
Module Mem.

Record MemWorld : Type := mkMemWorld {
  mw_clock : list Time;
  mw_now : Time;
  mw_dirs : list string;
  mw_files : list (string * string);
  mw_readonly : list string
}.

Definition mem (name : string) (l : list string) : bool :=
  existsb (String.eqb name) l.

Definition lookup_file (name : string) (fs : list (string * string)) : option string :=
  option_map snd (find (fun kv => String.eqb name (fst kv)) fs).

Definition store_file (name data : string) (fs : list (string * string))
  : list (string * string) :=
  filter (fun kv => negb (String.eqb name (fst kv))) fs ++ [(name, data)].

Definition mem_Now (w : MemWorld) : Time * MemWorld :=
  match mw_clock w with
  | t :: rest => (t, mkMemWorld rest t (mw_dirs w) (mw_files w) (mw_readonly w))
  | [] => (mw_now w, w)
  end.

Definition mem_Stat_IsNotExist (name : string) (w : MemWorld) : bool * MemWorld :=
  (negb (mem name (mw_dirs w)), w).

Definition mem_MkdirAll (path : string) (perm : Z) (w : MemWorld)
  : option string * MemWorld :=
  if mem path (mw_readonly w) then (Some ("mkdir " +:+ path +:+ ": permission denied"), w)
  else (None, mkMemWorld (mw_clock w) (mw_now w) (path :: mw_dirs w) (mw_files w)
                         (mw_readonly w)).

Definition mem_WriteFile (name data : string) (perm : Z) (w : MemWorld)
  : option string * MemWorld :=
  if mem name (mw_readonly w) then (Some ("open " +:+ name +:+ ": permission denied"), w)
  else (None, mkMemWorld (mw_clock w) (mw_now w) (mw_dirs w)
                         (store_file name data (mw_files w)) (mw_readonly w)).

Definition mem_ReadFile (name : string) (w : MemWorld) : (string + string) * MemWorld :=
  match lookup_file name (mw_files w) with
  | Some data => (inr data, w)
  | None => (inl ("open " +:+ name +:+ ": no such file or directory"), w)
  end.

#[export] Instance mem_runtime : Runtime := {|
  World := MemWorld;
  time_Now := mem_Now;
  os_Stat_IsNotExist := mem_Stat_IsNotExist;
  os_MkdirAll := mem_MkdirAll;
  os_WriteFile := mem_WriteFile;
  os_ReadFile := mem_ReadFile
|}.

(** Stand-ins for the XML tools: a document is its text, it is valid for a
    schema when it holds the root element and one child element of that
    schema, and the index is read back by collecting the text of its [loc]
    elements. *)
Fixpoint text_upto (c : ascii) (s : string) : string :=
  match s with
  | EmptyString => EmptyString
  | String d rest => if Ascii.eqb c d then EmptyString else String d (text_upto c rest)
  end.

Fixpoint collect_locs (s : string) : list string :=
  match s with
  | EmptyString => []
  | String _ rest =>
      if HasPrefix s "<loc>" then text_upto "<" (drop_str 5 s) :: collect_locs rest
      else collect_locs rest
  end.

Definition toy_Validate (k : schema_text) (doc : string) : option string :=
  match k with
  | sitemapXSD =>
      if Contains doc "<urlset" && Contains doc "<url>" then None
      else Some "Element 'urlset': Missing child element(s)."
  | sitemapIndexXSD =>
      if Contains doc "<sitemapindex" && Contains doc "<sitemap>" then None
      else Some "Element 'sitemapindex': Missing child element(s)."
  end.

#[export] Instance toy_xml : XMLTools := {|
  Schema := schema_text;
  Document := string;
  xsd_Parse := fun k => inr k;
  libxml2_Parse := fun data =>
    if HasPrefix data "<?xml" then inr data else inl "malformed XML document";
  schema_Validate := toy_Validate;
  xml_Unmarshal_SitemapIndex := fun data =>
    inr (mkSitemapIndex sitemaps_xmlns
           (map (fun l => mkSitemap l "") (collect_locs data)))
|}.

Definition day1 : Time := mkTime 2026 11 1 43200000000000.

Definition world0 : MemWorld := mkMemWorld [] day1 [] [] [].

Definition start (s : SitemapOptions) (w : MemWorld) : St := mkSt s w [].

Definition entry (loc lastmod : string) : SitemapURL :=
  mkSitemapURL loc lastmod "weekly" "0.5".

Definition five : list SitemapURL :=
  [entry "/" "2023-10-25"; entry "/about" "invalid-date"; entry "/page/0" "";
   entry "/page/1" "2030-01-01"; entry "https://other.org/x" "2026-11-01"].

Definition opts2 : SitemapOptions :=
  mkSitemapOptions 52428800 2 "out" "https://www.example.com" [] "".

Definition run5 (maxURLs : Z) (stylesheet : string) : outcome (option error) * St :=
  bind (AddURLs five)
       (fun _ => Write "https://cdn.example.com/maps/" stylesheet)
       (start (mkSitemapOptions 52428800 maxURLs "out" "https://www.example.com" [] "")
              world0).

(** The receiver after the five entries were added, with a limit of
    [maxURLs] entries per file. *)
Definition added5 (maxURLs : Z) : St :=
  snd (AddURLs five
         (start (mkSitemapOptions 52428800 maxURLs "out" "https://www.example.com" [] "")
                world0)).

(** A receiver with a location that does not parse. *)
Definition added_bad : St :=
  snd (AddURLs [entry "/" "2023-10-25"; entry ":" "2023-10-26"; entry "/about" ""]
         (start (NewSitemapOptions "out" "https://www.example.com/") world0)).

(** A fresh receiver whose base URL does not parse. *)
Definition fresh_bad_base : St :=
  start (NewSitemapOptions "out" ":") world0.

Definition fresh : St :=
  start (NewSitemapOptions "out" "https://www.example.com/") world0.


End Mem.

(* ===================================================================== *)
(** ** Notions the properties are stated with *)
(* ===================================================================== *)

(** *** Calendar dates as text *)

Definition digits2 (a b : ascii) : Z := 10 * digit_val a + digit_val b.

Definition digits4 (a b c d : ascii) : Z :=
  1000 * digit_val a + 100 * digit_val b + 10 * digit_val c + digit_val d.

Definition date_chars (c0 c1 c2 c3 c5 c6 c8 c9 : ascii) : string :=
  String c0 (String c1 (String c2 (String c3 (String "-"
    (String c5 (String c6 (String "-" (String c8 (String c9 EmptyString))))))))).

(** [s] is the text YYYY-MM-DD of the calendar day [d] of month [m] of
    year [y]: four digits, two digits, two digits, a month of the year and
    a day of that month. *)
Definition is_calendar_date (s : string) (y m d : Z) : Prop :=
  exists c0 c1 c2 c3 c5 c6 c8 c9,
    s = date_chars c0 c1 c2 c3 c5 c6 c8 c9
    /\ forallb is_digit_byte [c0; c1; c2; c3; c5; c6; c8; c9] = true
    /\ y = digits4 c0 c1 c2 c3 /\ m = digits2 c5 c6 /\ d = digits2 c8 c9
    /\ 1 <= m <= 12 /\ 1 <= d <= daysIn m y.

(** The entry [AddURL] appended last. *)
Definition stored_last (s : SitemapOptions) : option SitemapURL := last (URLs s).

(** [appendInt] prints the numbers of a date as digits: checked for every
    year of four digits and every number of two digits. *)
Definition prints4 (y : Z) : bool :=
  match appendInt y 4 with
  | String c0 (String c1 (String c2 (String c3 EmptyString))) =>
      forallb is_digit_byte [c0; c1; c2; c3] && (digits4 c0 c1 c2 c3 =? y)
  | _ => false
  end.

Definition prints2 (m : Z) : bool :=
  match appendInt m 2 with
  | String c0 (String c1 EmptyString) =>
      forallb is_digit_byte [c0; c1] && (digits2 c0 c1 =? m)
  | _ => false
  end.

(** An entry whose [LastMod] is the text of a calendar day. *)
Definition dated (u : SitemapURL) : Prop :=
  exists y m d, is_calendar_date (LastMod u) y m d.

(** Every clock reading among the events shows a real day of the years
    0..9999. *)
Definition clock_civil (evs : list event) : Prop :=
  Forall (fun ev => match ev with EvNow t => civil t | _ => True end) evs.

(** The calls a program makes to fill a [SitemapOptions]. *)
Inductive call : Type :=
| CallAddURL (url : SitemapURL)
| CallAddURLs (urls : list SitemapURL).

Definition call_entries (c : call) : list SitemapURL :=
  match c with
  | CallAddURL url => [url]
  | CallAddURLs urls => urls
  end.

(** *** Documents *)




Section Notions.
Context {RT : Runtime} {XT : XMLTools}.

(** The next clock readings of a world: [reading 0 w] is what the next
    call of [time.Now] shows, [reading 1 w] the call after it. *)
Fixpoint reading (k : nat) (w : World) : Time :=
  match k with
  | O => fst (time_Now w)
  | S k' => reading k' (snd (time_Now w))
  end.

(** The clock reading [t] falls on the calendar day [D] of month [M] of
    year [Y]. *)
Definition on_day (Y M D : Z) (t : Time) : Prop :=
  year t = Y /\ month t = M /\ day t = D.

(** The value [AddURL] stores for a [LastMod] in a given world. *)
Definition defaulted_LastMod (lastMod : string) (w : World) : string :=
  if String.eqb lastMod "" then Format_date (reading 0 w)
  else match Parse_date lastMod with
       | None => Format_date (reading 0 w)
       | Some timeLastMod =>
           if After timeLastMod (reading 0 w) then Format_date (reading 1 w)
           else lastMod
       end.

(** *** The phases of [Write] *)

(** The first lines of [Write]: keep the stylesheet, make sure the
    directory exists.  The result is the error of [os.MkdirAll], if any. *)
Definition ensure_dir (stylesheetURL : string) : M (option string) :=
  s <- get_this ;;
  set_this (set_Stylesheet s stylesheetURL) ;;;
  notExist <- Stat_IsNotExist (Dir s) ;;
  if notExist : bool then MkdirAll (Dir s) 493 else ret None.

(** The loop "Prepare URLs". *)
Definition prepare_phase : M (option error) :=
  s <- get_this ;;
  prepareURLs (length (URLs s)) 0.

(** The rest of [Write]: write the files, then validate them. *)
Definition emit_phase (baseSitemapURL : string) : M (option error) :=
  s <- get_this ;;
  if Z.of_nat (length (URLs s)) <=? MaxURLs s then
    err <- writeSitemapFile "sitemap.xml" (URLs s) ;;
    match err with
    | Some e => ret (Some e)
    | None => validateXMLFile (GoPath.Join (Dir s) "sitemap.xml") false
    end
  else
    err <- writeSitemapIndex baseSitemapURL ;;
    match err with
    | Some e => ret (Some e)
    | None => validateSitemapIndexAndFiles
    end.

(** What the loop "Prepare URLs" makes of a list of entries: every entry
    gets its [Loc] resolved, up to the first one that does not resolve. *)
Fixpoint resolve_entries (s : SitemapOptions) (l : list SitemapURL)
  : list SitemapURL * option error :=
  match l with
  | [] => ([], None)
  | u :: l' =>
      match resolveURL s (Loc u) with
      | inl e => (l, Some e)
      | inr fullURL =>
          let '(l'', r) := resolve_entries s l' in (set_Loc u fullURL :: l'', r)
      end
  end.

(** An entry with its location resolved against the base URL; left
    alone if the location does not resolve. *)
Definition resolved_entry (s : SitemapOptions) (u : SitemapURL) : SitemapURL :=
  match resolveURL s (Loc u) with
  | inr fullURL => set_Loc u fullURL
  | inl _ => u
  end.

Definition resolvable (s : SitemapOptions) (u : SitemapURL) : Prop :=
  exists fullURL, resolveURL s (Loc u) = inr fullURL.

(** *** Files *)

(** The files an event sequence wrote: name and content of every
    [os.WriteFile] that succeeded, in order. *)
Definition written (evs : list event) : list (string * string) :=
  flat_map (fun ev => match ev with
                      | EvWriteFile name data _ None => [(name, data)]
                      | _ => []
                      end) evs.

(** The calls of [os.WriteFile] in an event sequence, failed ones too. *)
Definition write_calls (evs : list event) : list string :=
  flat_map (fun ev => match ev with
                      | EvWriteFile name _ _ _ => [name]
                      | _ => []
                      end) evs.

(** The files an event sequence read, in order. *)
Definition read_calls (evs : list event) : list string :=
  flat_map (fun ev => match ev with
                      | EvReadFile name _ => [name]
                      | _ => []
                      end) evs.

(** The document of a list of entries. *)
Definition urlset_data (urls : list SitemapURL) : string :=
  match MarshalIndent_URLSet (mkURLSet sitemaps_xmlns urls) with
  | inr data => data
  | inl _ => ""
  end.

Definition sitemapindex_data (sitemaps : list Sitemap) : string :=
  match MarshalIndent_SitemapIndex (mkSitemapIndex sitemaps_xmlns sitemaps) with
  | inr data => data
  | inl _ => ""
  end.

(** The entries of a list at the positions [a], [a+1], ... below [b]. *)
Definition entries_between {A : Type} (l : list A) (a b : Z) : list A :=
  firstn (Z.to_nat (b - a)) (skipn (Z.to_nat a) l).

(** [Write] got as far as validating what it wrote: it returned no error,
    or an error of the validation. *)
Definition emitted (r : outcome (option error)) : Prop :=
  match r with
  | Done None => True
  | Done (Some (ErrorString _)) => True
  | _ => False
  end.

(** *** Shards *)

(** The entries of shard [i] (counting from 0): those at the positions
    [i * MaxURLs] up to [min((i+1) * MaxURLs, n)]. *)
Definition shard_entries (s : SitemapOptions) (i : Z) : list SitemapURL :=
  entries_between (URLs s) (i * MaxURLs s)
    (Z.min ((i + 1) * MaxURLs s) (Z.of_nat (length (URLs s)))).

(** Name and content of the file of shard [i]. *)
Definition shard_file (s : SitemapOptions) (i : Z) : string * string :=
  (GoPath.Join (Dir s) (sitemapName i),
   document (Stylesheet s) (urlset_data (shard_entries s i))).

(** The index entry of shard [i]: the resolved name of its file, dated
    with a clock reading. *)
Definition index_entry (baseSitemapURL : string) (i : Z) (m : Sitemap) : Prop :=
  resolveSitemapURL baseSitemapURL (sitemapName i) = inr (sm_Loc m)
  /\ exists t : Time, sm_LastMod m = Format_date t.

(** What [Write] hands to [os.WriteFile] is a document: the XML header,
    the stylesheet line if there is a stylesheet, and marshalled data. *)
Definition marshalled (data : string) : Prop :=
  (exists urls, data = urlset_data urls) \/ (exists sitemaps, data = sitemapindex_data sitemaps).

Definition doc_event (stylesheet : string) (ev : event) : Prop :=
  match ev with
  | EvWriteFile _ data _ _ => exists d, data = document stylesheet d /\ marshalled d
  | _ => True
  end.

(** An error that does not come from the validation. *)
Definition not_validation (e : error) : Prop :=
  match e with
  | ErrorString _ => False
  | _ => True
  end.

(** *** Validation *)

(** What [validateXMLFile] makes of the result of reading the file. *)
Definition check_read (res : string + string) (isIndex : bool) : option error :=
  match res with
  | inl e => Some (ErrorString ("failed to read XML file for validation: " +:+ e))
  | inr data =>
      match xsd_Parse (if isIndex then sitemapIndexXSD else sitemapXSD) with
      | inl e => Some (ErrorString ("failed to parse schema: " +:+ e))
      | inr schema =>
          match libxml2_Parse data with
          | inl e => Some (ErrorString ("failed to parse XML: " +:+ e))
          | inr doc =>
              match schema_Validate schema doc with
              | Some e => Some (ErrorString ("XML validation against schema failed: " +:+ e))
              | None => None
              end
          end
      end
  end.

(** The verdict on the file a read event shows, as a shard file. *)
Definition shard_verdict (ev : event) : option error :=
  match ev with
  | EvReadFile _ res => check_read res false
  | _ => None
  end.

Definition index_path (s : SitemapOptions) : string :=
  GoPath.Join (Dir s) "sitemap_index.xml".

(** The file an index entry refers to: the base name of the path of its
    URL, in the output directory. *)
Definition shard_path (s : SitemapOptions) (m : Sitemap) : option string :=
  match GoURL.Parse (sm_Loc m) with
  | inr u => Some (GoPath.Join (Dir s) (GoPath.Base (GoURL.Path u)))
  | inl _ => None
  end.

(** The event [ev] is the reading of the file of the index entry [m]. *)
Definition reads_shard (s : SitemapOptions) (m : Sitemap) (ev : event) : Prop :=
  exists res, ev = EvReadFile (default "" (shard_path s m)) res
              /\ shard_path s m <> None.

(** How the validation of the shards of an index went: the files of the
    first [k] entries were read, in the order of the index; all but the
    last one read passed; the result is the verdict on the last one read,
    unless all passed and either the index is exhausted or its next entry
    has no URL. *)
Definition shards_validated (s : SitemapOptions) (sitemaps : list Sitemap)
  (evs : list event) (r : option error) : Prop :=
  exists k : nat,
    (k <= length sitemaps)%nat
    /\ Forall2 (reads_shard s) (firstn k sitemaps) evs
    /\ Forall (fun ev => shard_verdict ev = None) (removelast evs)
    /\ match r with
       | None => k = length sitemaps /\ Forall (fun ev => shard_verdict ev = None) evs
       | Some e =>
           (exists ev, last evs = Some ev /\ shard_verdict ev = Some e)
           \/ (Forall (fun ev => shard_verdict ev = None) evs
               /\ exists m, sitemaps !! k = Some m /\ shard_path s m = None
                            /\ exists msg, e = ErrorString msg)
       end.

(** *** Sequences of calls *)

Definition run_call (c : call) : M unit :=
  match c with
  | CallAddURL url => AddURL url
  | CallAddURLs urls => AddURLs urls
  end.

Fixpoint run_calls (cs : list call) : M unit :=
  match cs with
  | [] => ret tt
  | c :: cs' => run_call c ;;; run_calls cs'
  end.

(** The invariant of the entry list under a sequence of calls. *)
Definition entries_kept (added : list SitemapURL) (st st' : St) (evs : list event) : Prop :=
  log st' = log st ++ evs
  /\ (clock_civil evs ->
      Forall dated (URLs (this st)) -> Forall dated (URLs (this st')))
  /\ map Loc (URLs (this st')) = map Loc (URLs (this st)) ++ map Loc added
  /\ map ChangeFreq (URLs (this st')) = map ChangeFreq (URLs (this st)) ++ map ChangeFreq added
  /\ map Priority (URLs (this st')) = map Priority (URLs (this st)) ++ map Priority added.

(** What the specification asks of a stored entry when [Write] is called:
    a location that is not empty and resolves, and a [LastMod] that is a
    calendar date. *)
Definition entry_ready (s : SitemapOptions) (u : SitemapURL) : Prop :=
  Loc u <> "" /\ resolvable s u /\ dated u.

End Notions.

(* ===================================================================== *)
(** ** Further notions *)
(* ===================================================================== *)

(** A run of [k] slashes. *)
Fixpoint slashes (k : nat) : string :=
  match k with
  | O => EmptyString
  | S k' => String "/" (slashes k')
  end.

(** *** Events by kind *)

Definition is_clock_read (ev : event) : Prop :=
  match ev with EvNow _ => True | _ => False end.

Definition is_file_read (ev : event) : Prop :=
  match ev with EvReadFile _ _ => True | _ => False end.

(** The clock readings in an event sequence, in order. *)
Definition clock_reads (evs : list event) : list Time :=
  flat_map (fun ev => match ev with EvNow t => [t] | _ => [] end) evs.

(** The entry [a] is the entry [u] as [AddURL] stores it: the same but
    for the [LastMod], which is the one given or the date of one of the
    clock readings [ts]. *)
Definition stored_as (ts : list Time) (u a : SitemapURL) : Prop :=
  Loc a = Loc u /\ ChangeFreq a = ChangeFreq u /\ Priority a = Priority u
  /\ (LastMod a = LastMod u \/ exists t, In t ts /\ LastMod a = Format_date t).

(** The settings of a receiver: all fields but the entries and the
    stylesheet. *)
Definition same_settings (s s' : SitemapOptions) : Prop :=
  MaxFileSize s' = MaxFileSize s /\ MaxURLs s' = MaxURLs s
  /\ Dir s' = Dir s /\ BaseURL s' = BaseURL s.

(** The number a text of decimal digits stands for, after [acc]. *)
Fixpoint digits_value (s : string) (acc : Z) : Z :=
  match s with
  | EmptyString => acc
  | String c s' => digits_value s' (10 * acc + digit_val c)
  end.

(** A step of the writing phase: a call of [os.WriteFile] with mode 0644,
    or a clock reading. *)
Definition is_write_step (ev : event) : Prop :=
  match ev with
  | EvWriteFile _ _ perm _ => perm = 420
  | EvNow _ => True
  | _ => False
  end.

(** Not a failed call of [os.WriteFile]. *)
Definition write_succeeded (ev : event) : Prop :=
  match ev with
  | EvWriteFile _ _ _ (Some _) => False
  | _ => True
  end.

(** *** The same run with another [MaxFileSize] *)

Definition set_MaxFileSize (s : SitemapOptions) (v : Z) : SitemapOptions :=
  mkSitemapOptions v (MaxURLs s) (Dir s) (BaseURL s) (URLs s) (Stylesheet s).

Section OtherMaxFileSize.
Context {RT : Runtime} {XT : XMLTools}.

Definition with_MaxFileSize (v : Z) (st : St) : St :=
  mkSt (set_MaxFileSize (this st) v) (world st) (log st).

(** [m'] does with the other [MaxFileSize] what [m] does with the given
    one: the same result, the same calls, the same receiver but for that
    field. *)
Definition same_run {A : Type} (v : Z) (m m' : M A) : Prop :=
  forall st : St,
    m' (with_MaxFileSize v st) = (fst (m st), with_MaxFileSize v (snd (m st))).

End OtherMaxFileSize.

(** *** Markup *)

(** How often the byte [c] occurs in [s]. *)
Fixpoint count_byte (c : ascii) (s : string) : nat :=
  match s with
  | EmptyString => O
  | String d s' => ((if Ascii.eqb c d then 1 else 0) + count_byte c s')%nat
  end.

(** The optional fields of an entry that are not empty. *)
Definition filled_fields (l : list string) : nat :=
  length (List.filter (fun v => negb (String.eqb v "")) l).

(** The tags of the element of an entry: those of [url] and [loc], and
    those of the optional fields that are not empty. *)
Definition url_tags (u : SitemapURL) : nat :=
  (4 + 2 * filled_fields [LastMod u; ChangeFreq u; Priority u])%nat.

Definition sitemap_tags (m : Sitemap) : nat :=
  (4 + 2 * filled_fields [sm_LastMod m])%nat.

Definition sum_nat (l : list nat) : nat := fold_right Nat.add O l.

(** *** More runs in the world in memory *)

Module MemFaults.
Import Mem.

(** A world in which the output directory is missing and cannot be made. *)
Definition world_no_dir : MemWorld := mkMemWorld [] day1 [] [] ["out"].

Definition fresh_no_dir : St :=
  start (NewSitemapOptions "out" "https://www.example.com") world_no_dir.

(** A world in which the second shard cannot be written. *)
Definition world_shard2_locked : MemWorld :=
  mkMemWorld [] day1 [] [] ["out/sitemap_2.xml"].

Definition added5_shard2_locked : St :=
  snd (AddURLs five (start opts2 world_shard2_locked)).

End MemFaults.

(* ===================================================================== *)
(** ** The earlier version of the package (part_000) *)
(* ===================================================================== *)

(** The earlier sitemap.go: no stylesheet, no validation, an index without
    dates whose locations are resolved against the base URL of the site.
    [SitemapURL] and [URLSet] are as they are now. *)
Module Legacy.

Declare Scope legacy_scope.

Record Sitemap : Type := mkSitemap {
  sm_Loc : string
}.

Record SitemapIndex : Type := mkSitemapIndex {
  ix_Xmlns : string;
  ix_Sitemaps : list Sitemap
}.

Record SitemapOptions : Type := mkSitemapOptions {
  MaxFileSize : Z;
  MaxURLs : Z;
  Dir : string;
  BaseURL : string;
  URLs : list SitemapURL
}.

Definition set_URLs (s : SitemapOptions) (v : list SitemapURL) : SitemapOptions :=
  mkSitemapOptions (MaxFileSize s) (MaxURLs s) (Dir s) (BaseURL s) v.

Definition marshal_Sitemap (m : Sitemap) : string :=
  let children := GoXML.text_element 2 "loc" (sm_Loc m) false in
  GoXML.start_tag false 1 "sitemap" "" +:+ children +:+ GoXML.end_tag 1 "sitemap" children.

Definition MarshalIndent_SitemapIndex (v : SitemapIndex) : string + string :=
  let children := GoXML.concat_str (map marshal_Sitemap (ix_Sitemaps v)) in
  inr (GoXML.start_tag true 0 "sitemapindex" (xmlns_attr (ix_Xmlns v)) +:+ children
       +:+ GoXML.end_tag 0 "sitemapindex" children).

Section Program.
Context {RT : Runtime}.

Record St : Type := mkSt {
  this : SitemapOptions;
  world : World;
  log : list event
}.

Definition M (A : Type) : Type := St -> outcome A * St.

Definition ret {A : Type} (a : A) : M A := fun st => (Done a, st).

Definition bind {A B : Type} (m : M A) (k : A -> M B) : M B :=
  fun st =>
    match m st with
    | (Done a, st') => k a st'
    | (Panic msg, st') => (Panic msg, st')
    end.

Definition panic {A : Type} (msg : string) : M A := fun st => (Panic msg, st).

Definition get_this : M SitemapOptions := fun st => (Done (this st), st).

Definition set_this (s : SitemapOptions) : M unit :=
  fun st => (Done tt, mkSt s (world st) (log st)).

Definition syscall {A : Type} (f : World -> A * World) (ev : A -> event) : M A :=
  fun st =>
    let '(a, w) := f (world st) in
    (Done a, mkSt (this st) w (log st ++ [ev a])).

Definition Now : M Time := syscall time_Now EvNow.

Definition Stat_IsNotExist (name : string) : M bool :=
  syscall (os_Stat_IsNotExist name) (EvStat name).

Definition MkdirAll (path : string) (perm : Z) : M (option string) :=
  syscall (os_MkdirAll path perm) (EvMkdirAll path perm).

Definition WriteFile (name data : string) (perm : Z) : M (option string) :=
  syscall (os_WriteFile name data perm) (EvWriteFile name data perm).

Notation "x <- m ;; k" := (bind m (fun x => k))
  (at level 100, m at level 99, k at level 200, right associativity) : legacy_scope.
Notation "m ;;; k" := (bind m (fun _ => k))
  (at level 100, k at level 200, right associativity) : legacy_scope.
Local Open Scope legacy_scope.

(** [NewSitemapOptions]: 50000 entries per file. *)
Definition NewSitemapOptions (dir baseURL : string) : SitemapOptions :=
  mkSitemapOptions 52428800 50000 dir (TrimRight1 baseURL "/") [].

(** [AddURL]. *)
Definition AddURL (url : SitemapURL) : M unit :=
  url' <- (if String.eqb (LastMod url) ""
           then now <- Now ;; ret (set_LastMod url (Format_date now))
           else
             match Parse_date (LastMod url) with
             | None => now <- Now ;; ret (set_LastMod url (Format_date now))
             | Some timeLastMod =>
                 now <- Now ;;
                 if After timeLastMod now
                 then now' <- Now ;; ret (set_LastMod url (Format_date now'))
                 else ret url
             end) ;;
  s <- get_this ;;
  set_this (set_URLs s (URLs s ++ [url'])).

(** [AddURLs]. *)
Fixpoint AddURLs (urls : list SitemapURL) : M unit :=
  match urls with
  | [] => ret tt
  | url :: urls' => AddURL url ;;; AddURLs urls'
  end.

(** [resolveURL]. *)
Definition resolveURL (s : SitemapOptions) (loc : string) : error + string :=
  match GoURL.Parse (BaseURL s) with
  | inl e => inl (UrlError e)
  | inr base =>
      match GoURL.Parse loc with
      | inl e => inl (UrlError e)
      | inr ref => inr (GoURL.String_ (GoURL.ResolveReference base ref))
      end
  end.

(** [writeSitemapFile]: the XML header, then the data. *)
Definition writeSitemapFile (filename : string) (urls : list SitemapURL)
  : M (option error) :=
  match MarshalIndent_URLSet (mkURLSet sitemaps_xmlns urls) with
  | inl e => ret (Some (MarshalError e))
  | inr data =>
      s <- get_this ;;
      r <- WriteFile (GoPath.Join (Dir s) filename) (GoXML.Header +:+ data) 420 ;;
      ret (option_map PathError r)
  end.

(** The loop of [writeSitemapIndex]: [k] iterations to go from [i]. *)
Fixpoint writeShards (k : nat) (i : Z) (sitemaps : list Sitemap)
  : M (error + list Sitemap) :=
  match k with
  | O => ret (inr sitemaps)
  | S k' =>
      s <- get_this ;;
      let name := sitemapName i in
      let start := int_mul i (MaxURLs s) in
      let end_ := int_add start (MaxURLs s) in
      let end_ := if end_ >? Z.of_nat (length (URLs s))
                  then Z.of_nat (length (URLs s)) else end_ in
      match slice (URLs s) start end_ with
      | None => panic "slice bounds out of range"
      | Some urlsSlice =>
          err <- writeSitemapFile name urlsSlice ;;
          match err with
          | Some e => ret (inl e)
          | None =>
              match resolveURL s ("/" +:+ name) with
              | inl e => ret (inl e)
              | inr sitemapURL =>
                  writeShards k' (int_add i 1) (sitemaps ++ [mkSitemap sitemapURL])
              end
          end
      end
  end.

(** [writeSitemapIndex]. *)
Definition writeSitemapIndex : M (option error) :=
  s <- get_this ;;
  match int_div (int_sub (int_add (Z.of_nat (length (URLs s))) (MaxURLs s)) 1)
                (MaxURLs s) with
  | None => panic "integer divide by zero"
  | Some fileCount =>
      r <- writeShards (Z.to_nat fileCount) 0 [] ;;
      match r with
      | inl e => ret (Some e)
      | inr sitemaps =>
          match MarshalIndent_SitemapIndex (mkSitemapIndex sitemaps_xmlns sitemaps) with
          | inl e => ret (Some (MarshalError e))
          | inr data =>
              r <- WriteFile (GoPath.Join (Dir s) "sitemap_index.xml")
                     (GoXML.Header +:+ data) 420 ;;
              ret (option_map PathError r)
          end
      end
  end.

(** The loop "Prepare URLs" of [Write]. *)
Fixpoint prepareURLs (k : nat) (i : nat) : M (option error) :=
  match k with
  | O => ret None
  | S k' =>
      s <- get_this ;;
      match URLs s !! i with
      | None => panic "index out of range"
      | Some u =>
          match resolveURL s (Loc u) with
          | inl e => ret (Some e)
          | inr fullURL =>
              set_this (set_URLs s (<[i := set_Loc u fullURL]> (URLs s))) ;;;
              prepareURLs k' (S i)
          end
      end
  end.

(** [Write]. *)
Definition Write : M (option error) :=
  s <- get_this ;;
  notExist <- Stat_IsNotExist (Dir s) ;;
  mk <- (if notExist : bool then MkdirAll (Dir s) 493 else ret None) ;;
  match mk with
  | Some e => ret (Some (PathError e))
  | None =>
      s <- get_this ;;
      err <- prepareURLs (length (URLs s)) 0 ;;
      match err with
      | Some e => ret (Some e)
      | None =>
          s <- get_this ;;
          if Z.of_nat (length (URLs s)) <=? MaxURLs s then
            writeSitemapFile "sitemap.xml" (URLs s)
          else
            writeSitemapIndex
      end
  end.

End Program.

End Legacy.

Section LegacyNotions.
Context {RT : Runtime}.

(** The receiver of the earlier version as the present version has it:
    the same fields, and no stylesheet. *)
Definition upgrade (s : Legacy.SitemapOptions) : SitemapOptions :=
  mkSitemapOptions (Legacy.MaxFileSize s) (Legacy.MaxURLs s) (Legacy.Dir s)
    (Legacy.BaseURL s) (Legacy.URLs s) "".

Definition upgrade_state (st : Legacy.St) : St :=
  mkSt (upgrade (Legacy.this st)) (Legacy.world st) (Legacy.log st).

(** A call of [os.WriteFile] with mode 0644. *)
Definition is_file_write (ev : event) : Prop :=
  match ev with
  | EvWriteFile _ _ perm _ => perm = 420
  | _ => False
  end.

End LegacyNotions.

Module MemLegacy.
Import Mem.

(** The receiver of the earlier version after the five entries were
    added. *)
Definition added5 : Legacy.St :=
  snd (Legacy.AddURLs five
         (Legacy.mkSt (Legacy.NewSitemapOptions "out" "https://www.example.com/")
                      world0 [])).

End MemLegacy.

(* ===================================================================== *)
(** * Properties *)
(* ===================================================================== *)

(** ** Dates *)

Lemma digit_val_range (c : ascii) :
  is_digit_byte c = true -> 0 <= digit_val c <= 9.
Proof.
  unfold is_digit_byte, digit_val. intros H.
  apply andb_prop in H as [H1 H2]. lia.
Qed.

Lemma digit_not_sign (c : ascii) :
  is_digit_byte c = true -> c <> "-"%char /\ c <> "+"%char.
Proof.
  intros H. split; intros ->; vm_compute in H; discriminate.
Qed.

Lemma atoi_unsigned (c : ascii) (s : string) :
  c <> "-"%char -> c <> "+"%char ->
  atoi (String c s) =
  match leadingInt (String c s) with
  | Some (q, EmptyString) => Some q
  | _ => None
  end.
Proof.
  intros Hm Hp. unfold atoi.
  destruct c as [[] [] [] [] [] [] [] []]; try reflexivity; congruence.
Qed.

Lemma atoi_four (c0 c1 c2 c3 : ascii) :
  is_digit_byte c0 = true ->
  atoi (String c0 (String c1 (String c2 (String c3 EmptyString)))) =
  if is_digit_byte c1 && is_digit_byte c2 && is_digit_byte c3
  then Some (digits4 c0 c1 c2 c3) else None.
Proof.
  intros H0. destruct (digit_not_sign _ H0) as [Hm Hp].
  rewrite atoi_unsigned by assumption.
  unfold leadingInt. cbn [leadingInt_from]. rewrite H0. cbn [negb].
  pose proof (digit_val_range _ H0) as R0.
  change (2 ^ 63 / 10) with 922337203685477580.
  change (2 ^ 63) with 9223372036854775808.
  repeat match goal with
  | |- context [?a >? ?b] =>
      let E := fresh in
      destruct (Z.gtb_spec a b) as [E | E]; [exfalso; lia |]
  | |- context [is_digit_byte ?c] =>
      let E := fresh "D" in
      destruct (is_digit_byte c) eqn:E;
      [ pose proof (digit_val_range _ E) | ];
      cbn [negb andb]
  end; try reflexivity.
  unfold digits4. f_equal. lia.
Qed.

Lemma getnum_fixed (s : string) (v : Z) (rest : string) :
  getnum s true = Some (v, rest) <->
  exists a b, s = String a (String b rest)
              /\ is_digit_byte a = true /\ is_digit_byte b = true
              /\ v = digits2 a b.
Proof.
  unfold getnum, isDigit, at_. split.
  - destruct s as [| a [| b r]]; cbn; try discriminate.
    + destruct (is_digit_byte a); cbn; discriminate.
    + destruct (is_digit_byte a) eqn:Da; cbn; try discriminate.
      destruct (is_digit_byte b) eqn:Db; cbn; try discriminate.
      intros [= <- <-]. exists a, b. unfold digits2. repeat split; auto; lia.
  - intros (a & b & -> & Da & Db & ->). cbn. rewrite Da, Db. cbn.
    unfold digits2. do 2 f_equal. lia.
Qed.

Lemma skip_dash (s rest : string) :
  skip s "-" = Some rest <-> s = String "-" rest.
Proof.
  destruct s as [| c r]; cbn; [split; discriminate |].
  destruct (Ascii.eqb_spec c "-") as [-> | Hne].
  - split; intros [= ->]; reflexivity.
  - split; [discriminate | intros [= E _]; contradiction].
Qed.

(** [time.Parse] with the layout "2006-01-02" accepts the texts
    YYYY-MM-DD of calendar days, and nothing else; the time it returns is
    the midnight that begins the day. *)
Lemma Parse_date_spec (s : string) (t : Time) :
  Parse_date s = Some t <->
  is_calendar_date s (year t) (month t) (day t) /\ nsec_of_day t = 0%N.
Proof.
  split.
  - unfold Parse_date.
    destruct ((len s <? 4) || negb (isDigit s 0)) eqn:E0; [discriminate |].
    apply orb_false_elim in E0 as [Hlen Hd0].
    apply negb_false_iff in Hd0.
    destruct s as [| c0 [| c1 [| c2 [| c3 s4]]]]; try (vm_compute in Hlen; discriminate).
    change (isDigit _ 0) with (is_digit_byte c0) in Hd0.
    change (take_str 4 _) with (String c0 (String c1 (String c2 (String c3 EmptyString)))).
    change (drop_str 4 _) with s4.
    rewrite atoi_four by assumption.
    destruct (is_digit_byte c1 && is_digit_byte c2 && is_digit_byte c3) eqn:E1;
      [| discriminate].
    apply andb_prop in E1 as [E1 D3]. apply andb_prop in E1 as [D1 D2].
    destruct (skip s4 "-") as [s5 |] eqn:K1; [| discriminate].
    apply skip_dash in K1 as ->.
    destruct (getnum s5 true) as [[m s7] |] eqn:G1; [| discriminate].
    apply getnum_fixed in G1 as (c5 & c6 & -> & D5 & D6 & ->).
    destruct ((digits2 c5 c6 <=? 0) || (12 <? digits2 c5 c6)) eqn:Rm; [discriminate |].
    apply orb_false_elim in Rm as [Rm1 Rm2].
    destruct (skip s7 "-") as [s8 |] eqn:K2; [| discriminate].
    apply skip_dash in K2 as ->.
    destruct (getnum s8 true) as [[d s10] |] eqn:G2; [| discriminate].
    apply getnum_fixed in G2 as (c8 & c9 & -> & D8 & D9 & ->).
    destruct (negb (len s10 =? 0)) eqn:L; [discriminate |].
    apply negb_false_iff in L.
    apply Z.eqb_eq in L. unfold len in L.
    destruct s10; [| cbn [String.length] in L; lia].
    destruct ((digits2 c8 c9 <? 1) || (digits2 c8 c9 >? daysIn (digits2 c5 c6)
                (digits4 c0 c1 c2 c3))) eqn:Rd; [discriminate |].
    apply orb_false_elim in Rd as [Rd1 Rd2].
    intros [= <-]. cbn [year month day nsec_of_day]. split; [| reflexivity].
    exists c0, c1, c2, c3, c5, c6, c8, c9. cbn [forallb].
    rewrite Hd0, D1, D2, D3, D5, D6, D8, D9. repeat split; lia.
  - intros [(c0 & c1 & c2 & c3 & c5 & c6 & c8 & c9 & -> & Hd & Hy & Hm & Hdd & Rm & Rd) Hn].
    cbn [forallb] in Hd.
    repeat (apply andb_prop in Hd as [?D Hd]).
    unfold Parse_date, date_chars.
    change (len _ <? 4) with false.
    change (isDigit _ 0) with (is_digit_byte c0). rewrite D. cbn [negb orb].
    change (take_str 4 _) with (String c0 (String c1 (String c2 (String c3 EmptyString)))).
    rewrite atoi_four by assumption. rewrite D0, D1, D2. cbn [andb].
    cbn [drop_str].
    replace (skip _ "-") with
      (Some (String c5 (String c6 (String "-" (String c8 (String c9 EmptyString))))))
      by (symmetry; apply skip_dash; reflexivity).
    replace (getnum _ true) with
      (Some (digits2 c5 c6, String "-" (String c8 (String c9 EmptyString))))
      by (symmetry; apply getnum_fixed; eauto 10).
    rewrite <- Hm.
    replace ((month t <=? 0) || (12 <? month t)) with false
      by (symmetry; apply orb_false_intro; lia).
    replace (skip _ "-") with (Some (String c8 (String c9 EmptyString)))
      by (symmetry; apply skip_dash; reflexivity).
    replace (getnum _ true) with (Some (digits2 c8 c9, EmptyString))
      by (symmetry; apply getnum_fixed; eauto 10).
    change (negb (len EmptyString =? 0)) with false. cbv iota.
    rewrite <- Hdd, <- Hy.
    replace ((day t <? 1) || (day t >? daysIn (month t) (year t))) with false
      by (symmetry; apply orb_false_intro; lia).
    destruct t as [y m d n]. cbn in *. subst n. reflexivity.
Qed.

Lemma N_ltb_0 (n : N) : (n <? 0)%N = false.
Proof. apply N.ltb_ge. lia. Qed.

(** A parsed date is after a moment exactly when its calendar day is
    after the day of that moment. *)
Lemma After_midnight (d t : Time) :
  nsec_of_day d = 0%N ->
  After d t = date_ltb (year t) (month t) (day t) (year d) (month d) (day d).
Proof.
  intros Hn. unfold After. rewrite Hn, N_ltb_0, andb_false_r, orb_false_r.
  reflexivity.
Qed.

Lemma Format_date_on_day (Y M D : Z) (t u : Time) :
  year t = Y /\ month t = M /\ day t = D ->
  year u = Y /\ month u = M /\ day u = D ->
  Format_date t = Format_date u.
Proof.
  intros (T1 & T2 & T3) (E1 & E2 & E3). unfold Format_date. congruence.
Qed.

Lemma set_LastMod_same (u : SitemapURL) : set_LastMod u (LastMod u) = u.
Proof. destruct u; reflexivity. Qed.

Lemma last_snoc {A : Type} (l : list A) (x : A) : last (l ++ [x]) = Some x.
Proof. apply last_snoc. Qed.

Section DateProperties.
Context {RT : Runtime} {XT : XMLTools}.

(** [AddURL] never fails; it appends one entry, the argument with its
    [LastMod] defaulted, and leaves the other entries alone. *)
Lemma AddURL_run (url : SitemapURL) (st : St) :
  fst (AddURL url st) = Done tt
  /\ this (snd (AddURL url st)) =
     set_URLs (this st)
       (URLs (this st) ++ [set_LastMod url (defaulted_LastMod (LastMod url) (world st))]).
Proof.
  unfold defaulted_LastMod. cbn [reading].
  destruct (time_Now (world st)) as [t1 w1] eqn:E1. cbn [fst snd].
  destruct (time_Now w1) as [t2 w2] eqn:E2. cbn [fst snd].
  unfold AddURL, bind, Now, syscall, ret, get_this, set_this.
  destruct (String.eqb (LastMod url) ""); [rewrite E1; cbn; auto |].
  destruct (Parse_date (LastMod url)) as [d |]; rewrite E1; cbn; auto.
  destruct (After d t1); cbn; [rewrite E2; cbn; auto |].
  rewrite set_LastMod_same. auto.
Qed.

(** C3.  For every entry passed to [AddURL]: an empty [LastMod] is set to
    the date the clock shows (UTC); a [LastMod] that is not the text
    YYYY-MM-DD of a calendar day, or that is one of a day strictly after
    the day the clock shows, is replaced by the date the clock shows; any
    other [LastMod] is stored as the caller gave it. *)
Theorem AddURL_date_defaulting (url : SitemapURL) (st : St) :
  let today := reading 0 (world st) in
  exists v : string,
    fst (AddURL url st) = Done tt
    /\ URLs (this (snd (AddURL url st))) = URLs (this st) ++ [set_LastMod url v]
    /\ (LastMod url = "" -> v = Format_date today)
    /\ ((forall y m d, ~ is_calendar_date (LastMod url) y m d) -> v = Format_date today)
    /\ (forall y m d, is_calendar_date (LastMod url) y m d ->
          if date_ltb (year today) (month today) (day today) y m d
          then v = Format_date (reading 1 (world st))
          else v = LastMod url).
Proof.
  intros today. exists (defaulted_LastMod (LastMod url) (world st)).
  destruct (AddURL_run url st) as [Hr Hs]. rewrite Hs.
  split; [exact Hr |]. split; [reflexivity |].
  unfold defaulted_LastMod. fold today.
  split; [| split].
  - intros ->. reflexivity.
  - intros Hno. destruct (String.eqb (LastMod url) ""); [reflexivity |].
    destruct (Parse_date (LastMod url)) as [t |] eqn:P; [| reflexivity].
    apply Parse_date_spec in P as [P _]. exfalso. exact (Hno _ _ _ P).
  - intros y m d Hc.
    assert (P : Parse_date (LastMod url) = Some (mkTime y m d 0))
      by (apply Parse_date_spec; split; [exact Hc | reflexivity]).
    rewrite P.
    destruct (String.eqb_spec (LastMod url) "") as [E | _].
    { rewrite E in P. discriminate P. }
    rewrite After_midnight by reflexivity. cbn [year month day].
    destruct (date_ltb _ _ _ y m d); reflexivity.
Qed.

(** C4.  The date defaulting of [AddURL] is idempotent: adding the entry
    that [AddURL] stored once more, while the clock still shows the same
    UTC day, stores it unchanged; and an entry with the date of a calendar
    day that is not after that day is stored as given, every time. *)
Theorem AddURL_defaulting_idempotent (url : SitemapURL) (st st' : St) (Y M D : Z) :
  on_day Y M D (reading 0 (world st)) ->
  on_day Y M D (reading 1 (world st)) ->
  on_day Y M D (reading 0 (world st')) ->
  on_day Y M D (reading 1 (world st')) ->
  exists url1 : SitemapURL,
    stored_last (this (snd (AddURL url st))) = Some url1
    /\ stored_last (this (snd (AddURL url1 st'))) = Some url1
    /\ (forall y m d, is_calendar_date (LastMod url) y m d ->
          date_ltb Y M D y m d = false -> url1 = url).
Proof.
  intros H0 H1 H0' H1'.
  destruct (AddURL_run url st) as [_ Hs].
  exists (set_LastMod url (defaulted_LastMod (LastMod url) (world st))).
  rewrite Hs. unfold stored_last. cbn [URLs set_URLs]. rewrite last_snoc.
  split; [reflexivity |].
  destruct (AddURL_run (set_LastMod url (defaulted_LastMod (LastMod url) (world st))) st')
    as [_ Hs'].
  rewrite Hs'. cbn [URLs set_URLs LastMod set_LastMod]. rewrite last_snoc.
  assert (F : forall t u, on_day Y M D t -> on_day Y M D u -> Format_date t = Format_date u)
    by (intros t u; apply Format_date_on_day).
  assert (A : forall d t u, nsec_of_day d = 0%N -> on_day Y M D t -> on_day Y M D u ->
                            After d t = After d u).
  { intros d t u Hn (T1 & T2 & T3) (E1 & E2 & E3).
    rewrite !After_midnight by assumption. congruence. }
  assert (Again : forall t, on_day Y M D t ->
            defaulted_LastMod (Format_date t) (world st') = Format_date t).
  { intros t Ht. unfold defaulted_LastMod.
    destruct (String.eqb (Format_date t) ""); [apply F; assumption |].
    destruct (Parse_date (Format_date t)) as [d |]; [| apply F; assumption].
    destruct (After d (reading 0 (world st'))); [apply F; assumption | reflexivity]. }
  split.
  - f_equal. unfold set_LastMod. cbn. f_equal.
    set (v1 := defaulted_LastMod (LastMod url) (world st)).
    assert (Hv : (exists t, on_day Y M D t /\ v1 = Format_date t)
                 \/ (v1 = LastMod url /\ LastMod url <> ""
                     /\ exists d, Parse_date (LastMod url) = Some d
                                  /\ After d (reading 0 (world st)) = false)).
    { subst v1. unfold defaulted_LastMod.
      destruct (String.eqb_spec (LastMod url) "") as [E | NE]; [eauto |].
      destruct (Parse_date (LastMod url)) as [d |] eqn:P; [| eauto].
      destruct (After d (reading 0 (world st))) eqn:Aft; [eauto |].
      right. eauto 6. }
    destruct Hv as [(t & Ht & ->) | (-> & NE & d & P & Aft)].
    + apply Again. exact Ht.
    + unfold defaulted_LastMod. rewrite P.
      destruct (String.eqb_spec (LastMod url) ""); [contradiction |].
      apply Parse_date_spec in P as [_ Hn].
      rewrite (A d _ (reading 0 (world st)) Hn H0' H0), Aft. reflexivity.
  - intros y m d Hc Hlt.
    assert (P : Parse_date (LastMod url) = Some (mkTime y m d 0))
      by (apply Parse_date_spec; split; [exact Hc | reflexivity]).
    unfold defaulted_LastMod. rewrite P.
    destruct (String.eqb_spec (LastMod url) "") as [E | _].
    { rewrite E in P. discriminate P. }
    rewrite After_midnight by reflexivity. cbn [year month day].
    destruct H0 as (T1 & T2 & T3). rewrite T1, T2, T3, Hlt. apply set_LastMod_same.
Qed.

End DateProperties.

(** ** The phases of [Write] *)

Section WritePhases.
Context {RT : Runtime} {XT : XMLTools}.

Lemma set_URLs_same (s : SitemapOptions) : set_URLs s (URLs s) = s.
Proof. destruct s; reflexivity. Qed.

Lemma St_eta (st : St) : mkSt (this st) (world st) (log st) = st.
Proof. destruct st; reflexivity. Qed.

Lemma resolve_entries_set_URLs (s : SitemapOptions) (l l' : list SitemapURL) :
  resolve_entries (set_URLs s l') l = resolve_entries s l.
Proof.
  induction l as [| u l IH]; [reflexivity |].
  cbn [resolve_entries]. rewrite IH. reflexivity.
Qed.

Lemma resolve_entries_length (s : SitemapOptions) (l : list SitemapURL) :
  length (fst (resolve_entries s l)) = length l.
Proof.
  induction l as [| u l IH]; [reflexivity |].
  cbn [resolve_entries]. destruct (resolveURL s (Loc u)); [reflexivity |].
  destruct (resolve_entries s l) as [l'' r]. cbn in *. congruence.
Qed.

(** The loop "Prepare URLs" rewrites the entries in place, one after the
    other, and stops at the first location that does not resolve. *)
Lemma prepareURLs_spec (todo done : list SitemapURL) (st : St) :
  URLs (this st) = done ++ todo ->
  prepareURLs (length todo) (length done) st =
  (Done (snd (resolve_entries (this st) todo)),
   mkSt (set_URLs (this st) (done ++ fst (resolve_entries (this st) todo)))
        (world st) (log st)).
Proof.
  revert done st. induction todo as [| u todo IH]; intros done st Hst.
  - cbn. rewrite <- Hst, set_URLs_same, St_eta. reflexivity.
  - cbn [length prepareURLs resolve_entries]. unfold bind at 1, get_this at 1.
    rewrite Hst, list_lookup_middle by reflexivity.
    destruct (resolveURL (this st) (Loc u)) as [e | fullURL] eqn:R.
    + cbn. rewrite <- Hst, set_URLs_same, St_eta. reflexivity.
    + unfold bind, set_this. cbn [fst snd].
      set (st1 := mkSt _ (world st) (log st)).
      assert (H1 : URLs (this st1) = (done ++ [set_Loc u fullURL]) ++ todo).
      { subst st1. cbn. rewrite <- app_assoc. cbn.
        rewrite insert_app_r_alt by lia. rewrite Nat.sub_diag. reflexivity. }
      specialize (IH (done ++ [set_Loc u fullURL]) st1 H1).
      rewrite length_app in IH. cbn [length] in IH.
      rewrite Nat.add_1_r in IH. rewrite IH.
      subst st1. cbn [this world log]. rewrite resolve_entries_set_URLs.
      destruct (resolve_entries (this st) todo) as [l'' r]. cbn.
      rewrite <- app_assoc. reflexivity.
Qed.

Lemma prepare_phase_run (st : St) :
  prepare_phase st =
  (Done (snd (resolve_entries (this st) (URLs (this st)))),
   mkSt (set_URLs (this st) (fst (resolve_entries (this st) (URLs (this st)))))
        (world st) (log st)).
Proof.
  unfold prepare_phase, bind, get_this.
  apply (prepareURLs_spec (URLs (this st)) [] st). reflexivity.
Qed.

(** [Write] is its three phases, one after the other. *)
Lemma Write_phases (baseSitemapURL stylesheetURL : string) (st : St) :
  Write baseSitemapURL stylesheetURL st =
  match ensure_dir stylesheetURL st with
  | (Done (Some e), st1) => (Done (Some (PathError e)), st1)
  | (Done None, st1) =>
      match prepare_phase st1 with
      | (Done (Some e), st2) => (Done (Some e), st2)
      | (Done None, st2) => emit_phase baseSitemapURL st2
      | (Panic msg, st2) => (Panic msg, st2)
      end
  | (Panic msg, st1) => (Panic msg, st1)
  end.
Proof.
  unfold Write, ensure_dir, prepare_phase, emit_phase, bind, get_this, set_this,
    Stat_IsNotExist, MkdirAll, syscall, ret.
  cbn [this world log].
  destruct (os_Stat_IsNotExist (Dir (this st)) (world st)) as [[] w1];
    cbn [this world log].
  - destruct (os_MkdirAll (Dir (this st)) 493 w1) as [[e |] w2]; [reflexivity |].
    cbn [this world log].
    destruct (prepareURLs _ 0 _) as [[[e |] | msg] st2]; reflexivity.
  - destruct (prepareURLs _ 0 _) as [[[e |] | msg] st2]; reflexivity.
Qed.

(** The directory step keeps the entries, stores the stylesheet, and
    touches no file. *)
Lemma ensure_dir_run (stylesheetURL : string) (st : St) :
  exists (r : option string) (w : World) (evs : list event),
    ensure_dir stylesheetURL st =
      (Done r, mkSt (set_Stylesheet (this st) stylesheetURL) w (log st ++ evs))
    /\ write_calls evs = [] /\ read_calls evs = []
    /\ Forall (fun ev => match ev with EvNow _ => False | _ => True end) evs.
Proof.
  unfold ensure_dir, bind, get_this, set_this, Stat_IsNotExist, MkdirAll, syscall, ret.
  cbn [this world log].
  destruct (os_Stat_IsNotExist (Dir (this st)) (world st)) as [[] w1];
    cbn [this world log].
  - destruct (os_MkdirAll (Dir (this st)) 493 w1) as [r w2].
    exists r, w2, [EvStat (Dir (this st)) true; EvMkdirAll (Dir (this st)) 493 r].
    cbn. rewrite <- app_assoc. repeat split; auto.
  - exists None, w1, [EvStat (Dir (this st)) false]. cbn. repeat split; auto.
Qed.

End WritePhases.

(** ** Writing the files *)

Lemma wrap64_id (z : Z) : - 2 ^ 63 <= z < 2 ^ 63 -> wrap64 z = z.
Proof.
  intros H. unfold wrap64. rewrite Z.mod_small; lia.
Qed.

Section Emission.
Context {RT : Runtime} {XT : XMLTools}.

Lemma writeSitemapFile_run (filename : string) (urls : list SitemapURL) (st : St) :
  exists (r : option string) (w : World),
    os_WriteFile (GoPath.Join (Dir (this st)) filename)
      (document (Stylesheet (this st)) (urlset_data urls)) 420 (world st) = (r, w)
    /\ writeSitemapFile filename urls st =
       (Done (option_map PathError r),
        mkSt (this st) w
          (log st ++ [EvWriteFile (GoPath.Join (Dir (this st)) filename)
                        (document (Stylesheet (this st)) (urlset_data urls)) 420 r])).
Proof.
  unfold writeSitemapFile, urlset_data, MarshalIndent_URLSet, bind, get_this, WriteFile,
    syscall, ret.
  destruct (os_WriteFile _ _ 420 (world st)) as [r w]. eauto.
Qed.

(** The loop of [writeSitemapIndex] writes the shard files one after the
    other, in order, each holding its slice of the entries, and stops at
    the first error. *)
Lemma writeShards_run (baseSitemapURL : string) (k : nat) :
  forall (i : Z) (sitemaps : list Sitemap) (st : St),
    0 < MaxURLs (this st) < 2 ^ 62 ->
    Z.of_nat (length (URLs (this st))) < 2 ^ 62 ->
    0 <= i ->
    (i + Z.of_nat k) * MaxURLs (this st) < Z.of_nat (length (URLs (this st))) + MaxURLs (this st) ->
    exists (r : error + list Sitemap) (w : World) (evs : list event) (j : nat),
      writeShards k i baseSitemapURL sitemaps st =
        (Done r, mkSt (this st) w (log st ++ evs))
      /\ (j <= k)%nat
      /\ written evs = map (shard_file (this st)) (seqZ i (Z.of_nat j))
      /\ read_calls evs = []
      /\ Forall (doc_event (Stylesheet (this st))) evs
      /\ match r with
         | inr sitemaps' =>
             j = k
             /\ write_calls evs = map fst (map (shard_file (this st)) (seqZ i (Z.of_nat k)))
             /\ exists new, sitemaps' = sitemaps ++ new
                            /\ Forall2 (index_entry baseSitemapURL) (seqZ i (Z.of_nat k)) new
         | inl e => not_validation e
         end.
Proof.
  induction k as [| k IH]; intros i sitemaps st HM Hn Hi Hk.
  - exists (inr sitemaps), (world st), [], 0%nat. cbn.
    rewrite app_nil_r, St_eta. repeat split; auto.
    exists []. rewrite app_nil_r. split; [reflexivity | constructor].
  - cbn [writeShards]. unfold bind at 1, get_this at 1.
    set (s := this st) in *. set (M := MaxURLs s) in *.
    set (n := Z.of_nat (length (URLs s))) in *.
    assert (HiM : 0 <= i * M < n) by nia.
    assert (Hi62 : i < 2 ^ 62) by nia.
    unfold int_mul, int_add. rewrite (wrap64_id (i * M)) by lia.
    rewrite (wrap64_id (i * M + M)) by lia.
    assert (Hend : (if i * M + M >? n then n else i * M + M) = Z.min ((i + 1) * M) n).
    { destruct (Z.gtb_spec (i * M + M) n); lia. }
    rewrite Hend.
    assert (Hslice : slice (URLs s) (i * M) (Z.min ((i + 1) * M) n) = Some (shard_entries s i)).
    { unfold slice, shard_entries, entries_between. fold M n.
      replace ((0 <=? i * M) && (i * M <=? Z.min ((i + 1) * M) n)
               && (Z.min ((i + 1) * M) n <=? n)) with true; [reflexivity |].
      symmetry. rewrite !andb_true_iff. repeat split; apply Z.leb_le; lia. }
    rewrite Hslice. unfold bind at 1.
    destruct (writeSitemapFile_run (sitemapName i) (shard_entries s i) st)
      as (r & w & Hw & ->).
    fold s.
    assert (Hdoc : doc_event (Stylesheet s)
              (EvWriteFile (GoPath.Join (Dir s) (sitemapName i))
                 (document (Stylesheet s) (urlset_data (shard_entries s i))) 420 r)).
    { cbn. eexists. split; [reflexivity |]. left. eauto. }
    destruct r as [e |]; cbn [option_map].
    + exists (inl (PathError e)), w, [EvWriteFile (GoPath.Join (Dir s) (sitemapName i))
                (document (Stylesheet s) (urlset_data (shard_entries s i))) 420 (Some e)],
        0%nat.
      cbn. repeat split; auto. lia.
    + destruct (resolveSitemapURL baseSitemapURL (sitemapName i)) as [e | sitemapURL] eqn:R.
      * exists (inl e), w, [EvWriteFile (GoPath.Join (Dir s) (sitemapName i))
                (document (Stylesheet s) (urlset_data (shard_entries s i))) 420 None],
          1%nat.
        cbn. repeat split; auto; [lia |].
        unfold resolveSitemapURL in R.
        destruct (GoURL.Parse _); [injection R as <-; exact I |].
        destruct (GoURL.Parse _); [injection R as <-; exact I | discriminate].
      * unfold bind at 1, Now at 1, syscall at 1. cbn [this world log].
        destruct (time_Now w) as [t w'].
        rewrite (wrap64_id (i + 1)) by lia.
        set (st1 := mkSt s w' _).
        destruct (IH (i + 1) (sitemaps ++ [mkSitemap sitemapURL (Format_date t)]) st1)
          as (r' & w'' & evs' & j' & Hrun & Hj & Hwr & Hrd & Hdocs & Hr); subst st1;
          cbn [this]; fold s M n; try lia.
        rewrite Hrun. cbn [this world log].
        exists r', w'',
          ([EvWriteFile (GoPath.Join (Dir s) (sitemapName i))
              (document (Stylesheet s) (urlset_data (shard_entries s i))) 420 None;
            EvNow t] ++ evs'), (S j').
        rewrite <- !app_assoc. cbn [app].
        assert (Hseq : forall m : nat, seqZ i (Z.of_nat (S m)) = i :: seqZ (i + 1) (Z.of_nat m)).
        { intros m. rewrite seqZ_cons by lia. f_equal. f_equal; lia. }
        split; [reflexivity |]. split; [lia |].
        split; [cbn [written flat_map app]; fold (written evs'); rewrite Hwr, Hseq;
                reflexivity |].
        split; [cbn [read_calls flat_map app]; exact Hrd |].
        split; [repeat constructor; auto |].
        destruct r' as [e | sitemaps']; [exact Hr |].
        destruct Hr as (-> & Hwc & new & -> & Hnew).
        split; [reflexivity |].
        split; [cbn [write_calls flat_map app]; fold (write_calls evs');
                rewrite Hwc, Hseq; reflexivity |].
        exists (mkSitemap sitemapURL (Format_date t) :: new).
        rewrite <- app_assoc. split; [reflexivity |].
        rewrite Hseq. constructor; [| exact Hnew].
        split; [exact R | eexists; reflexivity].
Qed.

End Emission.

(** ** Validation *)

Section Validation.
Context {RT : Runtime} {XT : XMLTools}.

Lemma check_read_ErrorString (res : string + string) (isIndex : bool) (e : error) :
  check_read res isIndex = Some e -> exists msg, e = ErrorString msg.
Proof.
  unfold check_read. intros H.
  repeat match type of H with
         | match ?x with _ => _ end = _ => destruct x
         end; inversion H; eauto.
Qed.

Lemma validateXMLFile_run (filePath : string) (isIndex : bool) (st : St) :
  exists (res : string + string) (w : World),
    os_ReadFile filePath (world st) = (res, w)
    /\ validateXMLFile filePath isIndex st =
       (Done (check_read res isIndex),
        mkSt (this st) w (log st ++ [EvReadFile filePath res])).
Proof.
  unfold validateXMLFile, check_read, bind, ReadFile, syscall, ret.
  destruct (os_ReadFile filePath (world st)) as [res w].
  exists res, w. split; [reflexivity |].
  destruct res as [e | data]; [reflexivity |].
  destruct (xsd_Parse _); [reflexivity |].
  destruct (libxml2_Parse data); [reflexivity |].
  destruct (schema_Validate _ _); reflexivity.
Qed.

Lemma removelast_cons2 {A : Type} (x y : A) (l : list A) :
  removelast (x :: y :: l) = x :: removelast (y :: l).
Proof. reflexivity. Qed.

(** The shards are validated in the order of the index, up to the first
    one that fails. *)
Lemma validateShards_run (sitemaps : list Sitemap) :
  forall st : St,
    exists (r : option error) (w : World) (evs : list event),
      validateShards sitemaps st = (Done r, mkSt (this st) w (log st ++ evs))
      /\ shards_validated (this st) sitemaps evs r.
Proof.
  induction sitemaps as [| m sitemaps IH]; intros st.
  - exists None, (world st), []. cbn. rewrite app_nil_r, St_eta.
    split; [reflexivity |]. exists 0%nat. cbn. repeat split; auto.
  - cbn [validateShards].
    destruct (GoURL.Parse (sm_Loc m)) as [e | sitemapURL] eqn:P.
    + eexists _, (world st), []. unfold ret. rewrite app_nil_r, St_eta.
      split; [reflexivity |]. exists 0%nat. cbn. repeat split; auto with arith.
      right. split; [constructor |]. exists m. unfold shard_path. rewrite P. eauto.
    + unfold bind at 1, get_this at 1. unfold bind at 1.
      destruct (validateXMLFile_run
                  (GoPath.Join (Dir (this st)) (GoPath.Base (GoURL.Path sitemapURL)))
                  false st) as (res & w & Hread & ->).
      set (ev := EvReadFile _ res).
      assert (Hev : reads_shard (this st) m ev).
      { exists res. unfold shard_path. rewrite P. split; [reflexivity | discriminate]. }
      destruct (check_read res false) as [e |] eqn:C.
      * exists (Some e), w, [ev]. split; [reflexivity |]. exists 1%nat. cbn.
        repeat split; auto with arith. left. exists ev. auto.
      * destruct (IH (mkSt (this st) w (log st ++ [ev]))) as (r & w' & evs & Hrun & k & Hk & Hreads & Hpass & Hr).
        cbn [this world log] in *. rewrite Hrun.
        exists r, w', (ev :: evs). rewrite <- app_assoc. split; [reflexivity |].
        exists (S k). cbn [length firstn]. split; [lia |].
        split; [constructor; assumption |].
        assert (Hpass' : Forall (fun ev => shard_verdict ev = None) (removelast (ev :: evs))).
        { destruct evs as [| ev' evs]; [constructor |].
          rewrite removelast_cons2. constructor; assumption. }
        split; [exact Hpass' |].
        destruct r as [e |].
        -- destruct Hr as [(ev' & Hlast & Hv) | (Hall & m' & Hm' & Hp' & Hmsg)].
           ++ left. exists ev'. split; [| exact Hv].
              destruct evs; [discriminate | exact Hlast].
           ++ right. split; [constructor; assumption |]. exists m'. auto.
        -- destruct Hr as [-> Hall]. split; [reflexivity | constructor; assumption].
Qed.

(** The index file is read and validated first, read once more to be
    parsed back, and then the shards follow. *)
Lemma validateSitemapIndexAndFiles_run (st : St) :
  exists (r : option error) (w : World) (res0 : string + string) (rest : list event),
    validateSitemapIndexAndFiles st =
      (Done r, mkSt (this st) w (log st ++ EvReadFile (index_path (this st)) res0 :: rest))
    /\ match check_read res0 true with
       | Some e => r = Some e /\ rest = []
       | None =>
           exists (res1 : string + string) (shard_evs : list event),
             rest = EvReadFile (index_path (this st)) res1 :: shard_evs
             /\ match res1 with
                | inl e => (exists msg, r = Some (ErrorString msg)) /\ shard_evs = []
                | inr indexData =>
                    match xml_Unmarshal_SitemapIndex indexData with
                    | inl e => (exists msg, r = Some (ErrorString msg)) /\ shard_evs = []
                    | inr index =>
                        shards_validated (this st) (ix_Sitemaps index) shard_evs r
                    end
                end
       end.
Proof.
  unfold validateSitemapIndexAndFiles. unfold bind at 1, get_this at 1. unfold bind at 1.
  destruct (validateXMLFile_run (GoPath.Join (Dir (this st)) "sitemap_index.xml") true st)
    as (res0 & w0 & _ & ->).
  fold (index_path (this st)).
  destruct (check_read res0 true) as [e |] eqn:C0.
  - exists (Some e), w0, res0, []. rewrite C0. auto.
  - unfold bind at 1, ReadFile at 1, syscall at 1. cbn [this world log].
    destruct (os_ReadFile (index_path (this st)) w0) as [res1 w1].
    destruct res1 as [e | indexData].
    + eexists _, w1, res0, _. rewrite <- app_assoc. split; [reflexivity |].
      rewrite C0. eexists (inl e), []. split; [reflexivity |]. eauto.
    + destruct (xml_Unmarshal_SitemapIndex indexData) as [e | index] eqn:U.
      * eexists _, w1, res0, _. rewrite <- app_assoc. split; [reflexivity |].
        rewrite C0. eexists (inr indexData), []. split; [reflexivity |].
        rewrite U. eauto.
      * destruct (validateShards_run (ix_Sitemaps index)
                    (mkSt (this st) w1
                       (log st ++ [EvReadFile (index_path (this st)) res0]
                        ++ [EvReadFile (index_path (this st)) (inr indexData)])))
          as (r & w & evs & Hrun & Hsh).
        cbn [this world log] in *. rewrite <- app_assoc. rewrite Hrun.
        exists r, w, res0, (EvReadFile (index_path (this st)) (inr indexData) :: evs).
        rewrite <- !app_assoc. split; [reflexivity |].
        rewrite C0. exists (inr indexData), evs. split; [reflexivity |].
        rewrite U. exact Hsh.
Qed.

(** C8.  In the indexed layout the index file is validated first, then
    the shard files in the order the index lists them; the first failure
    (of a validation, of reading the index back, of parsing it back) is
    returned at once, and no further file is looked at. *)
Theorem validation_order_fail_fast (st : St) :
  exists (r : option error) (w : World) (res0 : string + string) (rest : list event),
    validateSitemapIndexAndFiles st =
      (Done r, mkSt (this st) w (log st ++ EvReadFile (index_path (this st)) res0 :: rest))
    /\ match check_read res0 true with
       | Some e => r = Some e /\ rest = []
       | None =>
           exists (res1 : string + string) (shard_evs : list event),
             rest = EvReadFile (index_path (this st)) res1 :: shard_evs
             /\ match res1 with
                | inl e => (exists msg, r = Some (ErrorString msg)) /\ shard_evs = []
                | inr indexData =>
                    match xml_Unmarshal_SitemapIndex indexData with
                    | inl e => (exists msg, r = Some (ErrorString msg)) /\ shard_evs = []
                    | inr index =>
                        shards_validated (this st) (ix_Sitemaps index) shard_evs r
                    end
                end
       end.
Proof. exact (validateSitemapIndexAndFiles_run st). Qed.

Lemma shards_validated_emitted (s : SitemapOptions) (sitemaps : list Sitemap)
  (evs : list event) (r : option error) :
  shards_validated s sitemaps evs r ->
  emitted (Done r) /\ write_calls evs = [] /\ written evs = []
  /\ Forall (fun ev => match ev with EvReadFile _ _ => True | _ => False end) evs.
Proof.
  intros (k & _ & Hreads & _ & Hr).
  assert (Hall : Forall (fun ev => match ev with EvReadFile _ _ => True | _ => False end) evs).
  { clear Hr. induction Hreads as [| m ev ms evs' (res & -> & _) _ IH]; constructor; auto. }
  split.
  - destruct r as [e |]; [| exact I].
    destruct Hr as [(ev & _ & Hv) | (_ & _ & _ & _ & msg & ->)]; [| exact I].
    destruct ev; try discriminate. apply check_read_ErrorString in Hv as [msg ->]. exact I.
  - split; [| split; [| exact Hall]].
    + clear Hr Hreads. induction Hall as [| ev evs' Hev _ IH]; [reflexivity |].
      destruct ev; try contradiction. exact IH.
    + clear Hr Hreads. induction Hall as [| ev evs' Hev _ IH]; [reflexivity |].
      destruct ev; try contradiction. exact IH.
Qed.

(** Validation only reads: its events are readings of files, its result
    is no error or a validation error, the receiver is left alone. *)
Lemma validateSitemapIndexAndFiles_reads (st : St) :
  exists (r : option error) (w : World) (evs : list event),
    validateSitemapIndexAndFiles st = (Done r, mkSt (this st) w (log st ++ evs))
    /\ emitted (Done r) /\ write_calls evs = [] /\ written evs = []
    /\ Forall (fun ev => match ev with EvReadFile _ _ => True | _ => False end) evs.
Proof.
  destruct (validateSitemapIndexAndFiles_run st) as (r & w & res0 & rest & Hrun & H).
  exists r, w, (EvReadFile (index_path (this st)) res0 :: rest).
  split; [exact Hrun |].
  destruct (check_read res0 true) as [e |] eqn:C0.
  - destruct H as [-> ->]. apply check_read_ErrorString in C0 as [msg ->].
    cbn. repeat split; auto.
  - destruct H as (res1 & shard_evs & -> & H).
    assert (Hsh : emitted (Done r) /\ write_calls shard_evs = [] /\ written shard_evs = []
                  /\ Forall (fun ev => match ev with EvReadFile _ _ => True | _ => False end)
                       shard_evs).
    { destruct res1 as [e | indexData].
      - destruct H as [[msg ->] ->]. cbn. auto.
      - destruct (xml_Unmarshal_SitemapIndex indexData) as [e | index].
        + destruct H as [[msg ->] ->]. cbn. auto.
        + eapply shards_validated_emitted. exact H. }
    destruct Hsh as (He & Hw & Hwr & Hall). cbn. repeat split; auto.
Qed.

End Validation.

(** ** The emission phase *)

Section EmitPhase.
Context {RT : Runtime} {XT : XMLTools}.

Lemma fileCount_value (n M : Z) :
  0 < M < 2 ^ 62 -> 0 <= n < 2 ^ 62 ->
  int_div (int_sub (int_add n M) 1) M = Some ((n + M - 1) / M).
Proof.
  intros HM Hn. unfold int_div, int_sub, int_add.
  destruct (Z.eqb_spec M 0); [lia |].
  rewrite (wrap64_id (n + M)) by lia.
  rewrite (wrap64_id (n + M - 1)) by lia.
  rewrite Z.quot_div_nonneg by lia.
  rewrite wrap64_id; [reflexivity |].
  assert (0 <= (n + M - 1) / M) by (apply Z.div_pos; lia).
  assert ((n + M - 1) / M <= n + M - 1) by (apply Z.div_le_upper_bound; nia).
  lia.
Qed.

Lemma ceil_bounds (n M : Z) :
  0 < M -> 0 <= n ->
  ((n + M - 1) / M - 1) * M < n <= (n + M - 1) / M * M.
Proof.
  intros HM Hn.
  pose proof (Z.div_mod (n + M - 1) M ltac:(lia)) as E.
  pose proof (Z.mod_pos_bound (n + M - 1) M HM) as B. nia.
Qed.

(** [writeSitemapIndex] writes the shard files, then the index file. *)
Lemma writeSitemapIndex_run (baseSitemapURL : string) (st : St) :
  0 < MaxURLs (this st) < 2 ^ 62 ->
  Z.of_nat (length (URLs (this st))) < 2 ^ 62 ->
  let s := this st in
  let N := (Z.of_nat (length (URLs s)) + MaxURLs s - 1) / MaxURLs s in
  exists (r : option error) (w : World) (evs : list event),
    writeSitemapIndex baseSitemapURL st = (Done r, mkSt s w (log st ++ evs))
    /\ read_calls evs = []
    /\ Forall (doc_event (Stylesheet s)) evs
    /\ match r with
       | None =>
           exists sitemaps,
             Forall2 (index_entry baseSitemapURL) (seqZ 0 N) sitemaps
             /\ written evs =
                map (shard_file s) (seqZ 0 N)
                ++ [(index_path s, document (Stylesheet s) (sitemapindex_data sitemaps))]
             /\ write_calls evs = map fst (written evs)
       | Some e => not_validation e
       end.
Proof.
  intros HM Hn s N. subst s.
  unfold writeSitemapIndex. unfold bind at 1, get_this at 1.
  rewrite fileCount_value by lia. fold N.
  assert (HN : 0 <= N) by (apply Z.div_pos; lia).
  pose proof (ceil_bounds (Z.of_nat (length (URLs (this st)))) (MaxURLs (this st))
                ltac:(lia) ltac:(lia)) as HB.
  fold N in HB.
  destruct (writeShards_run baseSitemapURL (Z.to_nat N) 0 [] st)
    as (r & w & evs & j & Hrun & Hj & Hwr & Hrd & Hdocs & Hr); try lia.
  unfold bind at 1. rewrite Hrun.
  destruct r as [e | sitemaps].
  - exists (Some e), w, evs. repeat split; auto.
  - destruct Hr as (-> & Hwc & new & -> & Hnew). rewrite Z2Nat.id in * by lia.
    cbn [app] in *.
    unfold MarshalIndent_SitemapIndex, bind, WriteFile, syscall, ret.
    cbn [this world log].
    fold (index_path (this st)).
    match goal with
    | |- context [os_WriteFile ?p ?d 420 w] =>
        destruct (os_WriteFile p d 420 w) as [r w'] eqn:Hw;
        change d with (document (Stylesheet (this st)) (sitemapindex_data new)) in *
    end.
    exists (option_map PathError r), w',
      (evs ++ [EvWriteFile (index_path (this st))
                 (document (Stylesheet (this st)) (sitemapindex_data new)) 420 r]).
    rewrite <- app_assoc. split; [reflexivity |].
    split.
    { unfold read_calls in *. rewrite flat_map_app, Hrd. reflexivity. }
    split.
    { apply Forall_app. split; [exact Hdocs |]. constructor; [| constructor].
      cbn. eexists. split; [reflexivity |]. right. eauto. }
    destruct r as [e |]; cbn [option_map]; [exact I |].
    exists new. split; [exact Hnew |].
    unfold written, write_calls in *. rewrite !flat_map_app, Hwr, Hwc. cbn.
    split; [reflexivity |]. rewrite map_app. reflexivity.
Qed.

(** The emission phase: one file for a list within the limit, shards and
    an index otherwise; then validation, which only reads. *)
Lemma emit_phase_run (baseSitemapURL : string) (st : St) :
  0 < MaxURLs (this st) ->
  Z.of_nat (length (URLs (this st))) < 2 ^ 62 ->
  let s := this st in
  let n := Z.of_nat (length (URLs s)) in
  let N := (n + MaxURLs s - 1) / MaxURLs s in
  exists (r : option error) (w : World) (evs : list event),
    emit_phase baseSitemapURL st = (Done r, mkSt s w (log st ++ evs))
    /\ Forall (doc_event (Stylesheet s)) evs
    /\ (emitted (Done r) ->
        write_calls evs = map fst (written evs)
        /\ if n <=? MaxURLs s
           then written evs =
                [(GoPath.Join (Dir s) "sitemap.xml",
                  document (Stylesheet s) (urlset_data (URLs s)))]
           else exists sitemaps,
                  Forall2 (index_entry baseSitemapURL) (seqZ 0 N) sitemaps
                  /\ written evs =
                     map (shard_file s) (seqZ 0 N)
                     ++ [(index_path s,
                          document (Stylesheet s) (sitemapindex_data sitemaps))]).
Proof.
  intros HM Hn s n N. subst N n s.
  unfold emit_phase. unfold bind at 1, get_this at 1.
  destruct (Z.leb_spec (Z.of_nat (length (URLs (this st)))) (MaxURLs (this st)))
    as [Hle | Hgt].
  - unfold bind at 1.
    destruct (writeSitemapFile_run "sitemap.xml" (URLs (this st)) st)
      as (r & w & Hw & ->).
    set (ev := EvWriteFile _ _ 420 r).
    assert (Hdoc : doc_event (Stylesheet (this st)) ev).
    { cbn. eexists. split; [reflexivity |]. left. eauto. }
    destruct r as [e |]; cbn [option_map].
    + exists (Some (PathError e)), w, [ev]. split; [reflexivity |].
      split; [repeat constructor; exact Hdoc |]. intros [].
    + destruct (validateXMLFile_run (GoPath.Join (Dir (this st)) "sitemap.xml") false
                  (mkSt (this st) w (log st ++ [ev]))) as (res & w' & _ & Hrun).
      rewrite Hrun. cbn [this world log]. rewrite <- app_assoc.
      eexists _, w', _. split; [reflexivity |].
      split; [repeat constructor; exact Hdoc |].
      intros _. cbn. auto.
  - unfold bind at 1.
    destruct (writeSitemapIndex_run baseSitemapURL st)
      as (r & w & evs & Hrun & Hrd & Hdocs & Hr); try lia.
    rewrite Hrun.
    destruct r as [e |]; cbv beta iota.
    + exists (Some e), w, evs. split; [reflexivity |]. split; [exact Hdocs |].
      intros He. destruct e; cbn in *; contradiction.
    + destruct Hr as (sitemaps & Hnew & Hwr & Hwc).
      destruct (validateSitemapIndexAndFiles_reads (mkSt (this st) w (log st ++ evs)))
        as (r & w' & evs' & Hrun' & He & Hwc' & Hwr' & Hall).
      rewrite Hrun'. cbn [this world log]. rewrite <- app_assoc.
      exists r, w', (evs ++ evs'). split; [reflexivity |].
      split.
      { apply Forall_app. split; [exact Hdocs |].
        eapply Forall_impl; [exact Hall |]. intros [] H; try contradiction. exact I. }
      intros _. unfold written, write_calls in *.
      rewrite !flat_map_app, Hwc, Hwc', Hwr', !app_nil_r.
      split; [reflexivity |]. exists sitemaps. auto.
Qed.

End EmitPhase.

(** ** [Write] as a whole *)

Section WriteProperties.
Context {RT : Runtime} {XT : XMLTools}.

Lemma resolve_entries_set_Stylesheet (s : SitemapOptions) (sh : string)
  (l : list SitemapURL) :
  resolve_entries (set_Stylesheet s sh) l = resolve_entries s l.
Proof.
  induction l as [| u l IH]; [reflexivity |].
  cbn [resolve_entries]. rewrite IH. reflexivity.
Qed.

(** The state in which the emission phase starts. *)
Lemma Write_run (baseSitemapURL stylesheetURL : string) (st : St) :
  exists (dir_err : option string) (w1 : World) (evs1 : list event),
    ensure_dir stylesheetURL st =
      (Done dir_err, mkSt (set_Stylesheet (this st) stylesheetURL) w1 (log st ++ evs1))
    /\ write_calls evs1 = [] /\ read_calls evs1 = []
    /\ Write baseSitemapURL stylesheetURL st =
       match dir_err with
       | Some e =>
           (Done (Some (PathError e)),
            mkSt (set_Stylesheet (this st) stylesheetURL) w1 (log st ++ evs1))
       | None =>
           let st2 :=
             mkSt (set_URLs (set_Stylesheet (this st) stylesheetURL)
                     (fst (resolve_entries (this st) (URLs (this st)))))
                  w1 (log st ++ evs1) in
           match snd (resolve_entries (this st) (URLs (this st))) with
           | Some e => (Done (Some e), st2)
           | None => emit_phase baseSitemapURL st2
           end
       end.
Proof.
  destruct (ensure_dir_run stylesheetURL st) as (r & w & evs & Hdir & Hw & Hr & _).
  exists r, w, evs. split; [exact Hdir |]. split; [exact Hw |]. split; [exact Hr |].
  rewrite Write_phases, Hdir.
  destruct r as [e |]; [reflexivity |].
  rewrite prepare_phase_run. cbn [this world log URLs set_Stylesheet].
  rewrite resolve_entries_set_Stylesheet.
  destruct (snd (resolve_entries (this st) (URLs (this st)))); reflexivity.
Qed.

Lemma resolveURL_error (s : SitemapOptions) (loc : string) (e : error) :
  resolveURL s loc = inl e -> exists msg, e = UrlError msg.
Proof.
  unfold resolveURL. destruct (GoURL.Parse (BaseURL s)); [intros [= <-]; eauto |].
  destruct (GoURL.Parse loc); [intros [= <-]; eauto | discriminate].
Qed.

Lemma resolve_entries_all (s : SitemapOptions) (l : list SitemapURL) :
  Forall (resolvable s) l ->
  resolve_entries s l = (map (resolved_entry s) l, None).
Proof.
  induction 1 as [| u l [fullURL Hu] _ IH]; [reflexivity |].
  cbn [resolve_entries map]. unfold resolved_entry at 1. rewrite Hu, IH. reflexivity.
Qed.

Lemma resolve_entries_fails (s : SitemapOptions) (l : list SitemapURL) :
  Exists (fun u => ~ resolvable s u) l ->
  exists msg, snd (resolve_entries s l) = Some (UrlError msg).
Proof.
  induction l as [| u l IH]; intros H; [inversion H |].
  cbn [resolve_entries].
  destruct (resolveURL s (Loc u)) as [e | fullURL] eqn:R.
  - apply resolveURL_error in R as [msg ->]. eauto.
  - destruct (resolve_entries s l) as [l'' r] eqn:E. cbn in *.
    apply IH. inversion H as [? ? Hu | ? ? Hl]; subst; [| exact Hl].
    exfalso. apply Hu. exists fullURL. exact R.
Qed.

(** The emission phase leaves the receiver alone, whatever happens. *)
Lemma writeShards_this (baseSitemapURL : string) (k : nat) :
  forall (i : Z) (sitemaps : list Sitemap) (st : St),
    exists r w evs,
      writeShards k i baseSitemapURL sitemaps st = (r, mkSt (this st) w (log st ++ evs))
      /\ Forall (doc_event (Stylesheet (this st))) evs.
Proof.
  induction k as [| k IH]; intros i sitemaps st.
  - exists (Done (inr sitemaps)), (world st), []. cbn.
    rewrite app_nil_r, St_eta. auto.
  - cbn [writeShards]. unfold bind at 1, get_this at 1.
    destruct (slice _ _ _) as [urlsSlice |]; cycle 1.
    { exists (Panic "slice bounds out of range"), (world st), []. unfold panic.
      rewrite app_nil_r, St_eta. auto. }
    unfold bind at 1.
    destruct (writeSitemapFile_run (sitemapName i) urlsSlice st) as (r & w & _ & ->).
    set (ev := EvWriteFile _ _ 420 r).
    assert (Hdoc : doc_event (Stylesheet (this st)) ev).
    { cbn. eexists. split; [reflexivity |]. left. eauto. }
    destruct r as [e |]; cbn [option_map].
    + eexists _, w, [ev]. split; [reflexivity | auto].
    + destruct (resolveSitemapURL baseSitemapURL (sitemapName i)) as [e | sitemapURL].
      * eexists _, w, [ev]. split; [reflexivity | auto].
      * unfold bind at 1, Now at 1, syscall at 1. cbn [this world log].
        destruct (time_Now w) as [t w'].
        destruct (IH (int_add i 1) (sitemaps ++ [mkSitemap sitemapURL (Format_date t)])
                    (mkSt (this st) w' ((log st ++ [ev]) ++ [EvNow t])))
          as (r' & w'' & evs' & Hrun & Hdocs).
        cbn [this world log] in *. rewrite Hrun.
        exists r', w'', ([ev; EvNow t] ++ evs'). rewrite <- !app_assoc.
        split; [reflexivity |]. repeat constructor; auto.
Qed.

Lemma emit_phase_docs (baseSitemapURL : string) (st : St) :
  exists r w evs,
    emit_phase baseSitemapURL st = (r, mkSt (this st) w (log st ++ evs))
    /\ Forall (doc_event (Stylesheet (this st))) evs.
Proof.
  unfold emit_phase. unfold bind at 1, get_this at 1.
  destruct (_ <=? _).
  - unfold bind at 1.
    destruct (writeSitemapFile_run "sitemap.xml" (URLs (this st)) st) as (r & w & _ & ->).
    set (ev := EvWriteFile _ _ 420 r).
    assert (Hdoc : doc_event (Stylesheet (this st)) ev).
    { cbn. eexists. split; [reflexivity |]. left. eauto. }
    destruct r as [e |]; cbn [option_map].
    + eexists _, w, [ev]. split; [reflexivity | auto].
    + destruct (validateXMLFile_run (GoPath.Join (Dir (this st)) "sitemap.xml") false
                  (mkSt (this st) w (log st ++ [ev]))) as (res & w' & _ & Hrun).
      rewrite Hrun. cbn [this world log]. rewrite <- app_assoc.
      eexists _, w', _. split; [reflexivity |]. repeat constructor. exact Hdoc.
  - unfold bind at 1, writeSitemapIndex at 1. unfold bind at 1, get_this at 1.
    destruct (int_div _ _) as [fileCount |]; cycle 1.
    { exists (Panic "integer divide by zero"), (world st), []. unfold panic.
      rewrite app_nil_r, St_eta. auto. }
    unfold bind at 1.
    destruct (writeShards_this baseSitemapURL (Z.to_nat fileCount) 0 [] st)
      as (r & w & evs & -> & Hdocs).
    destruct r as [[e | sitemaps] | msg].
    + eexists _, w, evs. split; [reflexivity | exact Hdocs].
    + unfold MarshalIndent_SitemapIndex, bind, WriteFile, syscall, ret.
      cbn [this world log].
      destruct (os_WriteFile _ _ 420 w) as [r w'] eqn:Hw.
      match type of Hw with
      | os_WriteFile ?p ?d 420 w = _ => set (ev := EvWriteFile p d 420 r)
      end.
      assert (Hdoc : doc_event (Stylesheet (this st)) ev).
      { cbn. eexists. split; [reflexivity |]. right. eexists. reflexivity. }
      destruct r as [e |]; cbn [option_map].
      * eexists _, w', (evs ++ [ev]). rewrite <- app_assoc. split; [reflexivity |].
        apply Forall_app. auto.
      * destruct (validateSitemapIndexAndFiles_reads
                    (mkSt (this st) w' ((log st ++ evs) ++ [ev])))
          as (r & w'' & evs' & Hrun' & _ & _ & _ & Hall).
        rewrite Hrun'. cbn [this world log]. rewrite <- !app_assoc.
        eexists _, w'', (evs ++ [ev] ++ evs'). split; [reflexivity |].
        apply Forall_app. split; [exact Hdocs |]. constructor; [exact Hdoc |].
        eapply Forall_impl; [exact Hall |]. intros [] H; try contradiction. exact I.
    + eexists _, w, evs. split; [reflexivity | exact Hdocs].
Qed.

(** The entries of the receiver when [Write] returns, if the directory
    step went through. *)
Lemma Write_URLs (baseSitemapURL stylesheetURL : string) (st : St) :
  fst (ensure_dir stylesheetURL st) = Done None ->
  this (snd (Write baseSitemapURL stylesheetURL st)) =
  set_URLs (set_Stylesheet (this st) stylesheetURL)
    (fst (resolve_entries (this st) (URLs (this st)))).
Proof.
  intros Hdir.
  destruct (Write_run baseSitemapURL stylesheetURL st)
    as (dir_err & w1 & evs1 & Hens & _ & _ & ->).
  rewrite Hens in Hdir. cbn in Hdir. injection Hdir as ->. cbv zeta.
  destruct (snd (resolve_entries (this st) (URLs (this st)))); [reflexivity |].
  match goal with
  | |- context [emit_phase _ ?st2] =>
      destruct (emit_phase_docs baseSitemapURL st2) as (r & w & evs & -> & _)
  end.
  reflexivity.
Qed.

End WriteProperties.

(** ** Locations *)

Section Locations.
Context {RT : Runtime} {XT : XMLTools}.

Lemma resolved_entry_frame (s : SitemapOptions) (u : SitemapURL) :
  resolvable s u ->
  resolveURL s (Loc u) = inr (Loc (resolved_entry s u))
  /\ LastMod (resolved_entry s u) = LastMod u
  /\ ChangeFreq (resolved_entry s u) = ChangeFreq u
  /\ Priority (resolved_entry s u) = Priority u.
Proof.
  intros [fullURL Hu]. unfold resolved_entry. rewrite Hu. cbn. auto.
Qed.

(** C10.  [Write] rewrites the stored entries in place: when it gets to
    resolving them and they all resolve, every entry has its [Loc]
    replaced by the location resolved against the base URL, and keeps its
    [LastMod], [ChangeFreq] and [Priority]; a second [Write] on the same
    receiver therefore resolves the locations the first one stored, not
    the ones the caller added. *)
Theorem Write_resolves_in_place (baseSitemapURL stylesheetURL : string)
  (baseSitemapURL2 stylesheetURL2 : string) (st : St) :
  let st1 := snd (Write baseSitemapURL stylesheetURL st) in
  let st2 := snd (Write baseSitemapURL2 stylesheetURL2 st1) in
  fst (ensure_dir stylesheetURL st) = Done None ->
  Forall (resolvable (this st)) (URLs (this st)) ->
  URLs (this st1) = map (resolved_entry (this st)) (URLs (this st))
  /\ Forall2 (fun u u' =>
                resolveURL (this st) (Loc u) = inr (Loc u')
                /\ LastMod u' = LastMod u
                /\ ChangeFreq u' = ChangeFreq u
                /\ Priority u' = Priority u)
             (URLs (this st)) (URLs (this st1))
  /\ (fst (ensure_dir stylesheetURL2 st1) = Done None ->
      Forall (resolvable (this st1)) (URLs (this st1)) ->
      URLs (this st2) = map (resolved_entry (this st1)) (URLs (this st1))).
Proof.
  intros st1 st2 Hdir Hall.
  assert (H1 : URLs (this st1) = map (resolved_entry (this st)) (URLs (this st))).
  { subst st1. rewrite Write_URLs by exact Hdir.
    rewrite resolve_entries_all by exact Hall. reflexivity. }
  split; [exact H1 |]. split.
  - rewrite H1. clear H1. induction Hall as [| u l Hu _ IH]; constructor; [| exact IH].
    apply resolved_entry_frame. exact Hu.
  - intros Hdir2 Hall2. subst st2. rewrite Write_URLs by exact Hdir2.
    rewrite resolve_entries_all by exact Hall2. reflexivity.
Qed.

(** C6, as the code has it.  When the directory step went through and
    there is an entry to resolve, an unparseable base URL or an
    unparseable location makes [Write] return the error of [url.Parse],
    before any call of [os.WriteFile]. *)
Theorem Write_unparseable_aborts (baseSitemapURL stylesheetURL : string) (st : St) :
  fst (ensure_dir stylesheetURL st) = Done None ->
  URLs (this st) <> [] ->
  (exists e, GoURL.Parse (BaseURL (this st)) = inl e)
  \/ Exists (fun u => exists e, GoURL.Parse (Loc u) = inl e) (URLs (this st)) ->
  exists (msg : string) (evs : list event),
    fst (Write baseSitemapURL stylesheetURL st) = Done (Some (UrlError msg))
    /\ log (snd (Write baseSitemapURL stylesheetURL st)) = log st ++ evs
    /\ write_calls evs = [].
Proof.
  intros Hdir Hne Hbad.
  assert (Hex : Exists (fun u => ~ resolvable (this st) u) (URLs (this st))).
  { destruct Hbad as [[e He] | Hbad].
    - destruct (URLs (this st)) as [| u l]; [contradiction |].
      left. intros [fullURL Hu]. unfold resolveURL in Hu. rewrite He in Hu. discriminate.
    - eapply Exists_impl; [exact Hbad |].
      intros u [e He] [fullURL Hu]. unfold resolveURL in Hu. rewrite He in Hu.
      destruct (GoURL.Parse (BaseURL (this st))); discriminate. }
  apply resolve_entries_fails in Hex as [msg Hmsg].
  destruct (Write_run baseSitemapURL stylesheetURL st)
    as (dir_err & w1 & evs1 & Hens & Hw & _ & ->).
  rewrite Hens in Hdir. cbn in Hdir. injection Hdir as ->. cbv zeta.
  rewrite Hmsg. exists msg, evs1. cbn. auto.
Qed.

End Locations.

(** ** The layout of the output *)





Lemma sitemapName_small (i : Z) :
  0 <= i < 2 ^ 62 -> sitemapName i = "sitemap_" +:+ itoa (i + 1) +:+ ".xml".
Proof.
  intros H. unfold sitemapName, int_add. rewrite wrap64_id by lia. reflexivity.
Qed.

Lemma seqZ_shift (N : Z) : seqZ 1 N = map (Z.add 1) (seqZ 0 N).
Proof. symmetry. apply (fmap_add_seqZ 1 0 N). Qed.

Section Layout.
Context {RT : Runtime} {XT : XMLTools}.

(** What [Write] wrote when it got as far as validating. *)
Lemma Write_emitted (baseSitemapURL stylesheetURL : string) (st : St) :
  0 < MaxURLs (this st) ->
  Z.of_nat (length (URLs (this st))) < 2 ^ 62 ->
  emitted (fst (Write baseSitemapURL stylesheetURL st)) ->
  let n := Z.of_nat (length (URLs (this st))) in
  let M := MaxURLs (this st) in
  let N := (n + M - 1) / M in
  exists (s' : SitemapOptions) (w : World) (evs : list event),
    snd (Write baseSitemapURL stylesheetURL st) = mkSt s' w (log st ++ evs)
    /\ s' = set_URLs (set_Stylesheet (this st) stylesheetURL)
              (fst (resolve_entries (this st) (URLs (this st))))
    /\ write_calls evs = map fst (written evs)
    /\ if n <=? M
       then written evs =
            [(GoPath.Join (Dir s') "sitemap.xml",
              document stylesheetURL (urlset_data (URLs s')))]
       else exists sitemaps,
              Forall2 (index_entry baseSitemapURL) (seqZ 0 N) sitemaps
              /\ written evs =
                 map (shard_file s') (seqZ 0 N)
                 ++ [(index_path s', document stylesheetURL (sitemapindex_data sitemaps))].
Proof.
  intros HM Hn Hem n M N.
  destruct (Write_run baseSitemapURL stylesheetURL st)
    as (dir_err & w1 & evs1 & Hens & Hw1 & _ & HW).
  rewrite HW in Hem |- *. clear HW.
  destruct dir_err as [e |]; [cbn in Hem; contradiction |].
  cbv zeta in Hem |- *.
  destruct (snd (resolve_entries (this st) (URLs (this st)))) as [e |] eqn:R.
  { exfalso. cbn in Hem.
    assert (exists msg, e = UrlError msg) as [msg ->]; [| exact Hem].
    clear - R. revert e R. induction (URLs (this st)) as [| u l IH]; intros e R.
    - discriminate R.
    - cbn [resolve_entries] in R.
      destruct (resolveURL (this st) (Loc u)) as [e' | fullURL] eqn:Ru.
      + cbn in R. injection R as <-. eapply resolveURL_error; eauto.
      + destruct (resolve_entries (this st) l). cbn in *. eauto. }
  set (s2 := set_URLs _ _) in *.
  destruct (emit_phase_run baseSitemapURL (mkSt s2 w1 (log st ++ evs1)))
    as (r & w & evs & Hrun & _ & Hfiles).
  { exact HM. }
  { cbn [this]. subst s2. cbn [URLs set_URLs]. rewrite resolve_entries_length. exact Hn. }
  cbn [this world log] in Hrun, Hfiles. rewrite Hrun in Hem |- *. cbn [fst snd] in *.
  destruct (Hfiles Hem) as [Hwc Hwr]. clear Hfiles.
  assert (Hlen : Z.of_nat (length (URLs s2)) = n).
  { subst s2. cbn [URLs set_URLs]. rewrite resolve_entries_length. reflexivity. }
  rewrite Hlen in Hwr. change (MaxURLs s2) with M in Hwr. fold N in Hwr.
  change (Stylesheet s2) with stylesheetURL in Hwr.
  exists s2, w, (evs1 ++ evs). rewrite <- app_assoc.
  split; [reflexivity |]. split; [reflexivity |].
  unfold written, write_calls in *. rewrite !flat_map_app, Hw1, Hwc.
  assert (Hw1' : flat_map (fun ev => match ev with
                                     | EvWriteFile name data _ None => [(name, data)]
                                     | _ => []
                                     end) evs1 = []).
  { clear - Hw1. induction evs1 as [| ev evs1 IH]; [reflexivity |].
    destruct ev; cbn in *; try (apply IH; assumption). discriminate. }
  rewrite Hw1'. cbn [app]. split; [reflexivity | exact Hwr].
Qed.



End Layout.

(** ** Documents *)

Lemma append_cons (c : ascii) (a b : string) : String c a +:+ b = String c (a +:+ b).
Proof. reflexivity. Qed.


Lemma str_app_nil_r (a : string) : a +:+ EmptyString = a.
Proof.
  induction a as [| c a IH]; [reflexivity |]. rewrite append_cons, IH. reflexivity.
Qed.

Lemma str_app_assoc (a b c : string) : (a +:+ b) +:+ c = a +:+ (b +:+ c).
Proof.
  induction a as [| d a IH]; [reflexivity |]. rewrite !append_cons, IH. reflexivity.
Qed.

Lemma contains_byte_app (c : ascii) (a b : string) :
  contains_byte c (a +:+ b) = contains_byte c a || contains_byte c b.
Proof.
  induction a as [| d a IH]; [reflexivity |].
  rewrite append_cons. cbn [contains_byte]. rewrite IH. apply orb_assoc.
Qed.

Lemma rev_str_app (s acc t : string) : rev_str s acc +:+ t = rev_str s (acc +:+ t).
Proof.
  revert acc. induction s as [| c s IH]; intros acc; [reflexivity |].
  cbn [rev_str]. rewrite IH. reflexivity.
Qed.






(** *** No processing instruction in marshalled data *)

Lemma HasSuffix1_cons (c d : ascii) (s : string) :
  GoURL.HasSuffix1 (String c s) d =
  match s with
  | EmptyString => Ascii.eqb c d
  | _ => GoURL.HasSuffix1 s d
  end.
Proof. destruct s; reflexivity. Qed.




Lemma byte_not_lt (c : ascii) : byte_of c <> 60 -> Ascii.eqb "<" c = false.
Proof.
  intros H. destruct (Ascii.eqb_spec "<" c) as [<- |]; [| reflexivity].
  exfalso. apply H. reflexivity.
Qed.

(** What [DecodeRune] returns: a byte below 128 as it is, the error rune
    with width 1, or a rune of several bytes, none of which is "<". *)
Lemma DecodeRune_cases (c0 : ascii) (rest : string) :
  let s := String c0 rest in
  (GoXML.DecodeRune s = (byte_of c0, 1%nat))
  \/ (GoXML.DecodeRune s = (GoXML.RuneError, 1%nat))
  \/ (contains_byte "<" (take_str (snd (GoXML.DecodeRune s)) s) = false).
Proof.
  cbv zeta. unfold GoXML.DecodeRune.
  destruct (byte_of c0 <? 128) eqn:B0; [left; reflexivity |].
  apply Z.ltb_ge in B0.
  destruct ((byte_of c0 <? 194) || (244 <? byte_of c0)); [right; left; reflexivity |].
  destruct (len (String c0 rest) <? _); [right; left; reflexivity |].
  assert (Hc : forall c lo hi, 128 <= lo -> GoXML.continuation c lo hi = true ->
                               Ascii.eqb "<" c = false).
  { intros c lo hi Hlo H. unfold GoXML.continuation in H.
    apply andb_prop in H as [H _]. apply Z.leb_le in H. apply byte_not_lt. lia. }
  assert (H0 : Ascii.eqb "<" c0 = false) by (apply byte_not_lt; lia).
  set (lo := if byte_of c0 =? 224 then 160 else if byte_of c0 =? 240 then 144 else 128).
  assert (Hlo : 128 <= lo)
    by (subst lo; destruct (byte_of c0 =? 224), (byte_of c0 =? 240); lia).
  destruct rest as [| c1 rest1]; [right; left; reflexivity |].
  destruct (GoXML.continuation c1 lo _) eqn:C1; cbn [negb]; [| right; left; reflexivity].
  apply (Hc _ _ _ Hlo) in C1.
  destruct (_ <=? 2).
  { right. right. cbn [snd take_str contains_byte]. rewrite H0, C1. reflexivity. }
  destruct rest1 as [| c2 rest2]; [right; left; reflexivity |].
  destruct (GoXML.continuation c2 128 191) eqn:C2; cbn [negb]; [| right; left; reflexivity].
  apply (Hc c2 128 191) in C2; [| lia].
  destruct (_ <=? 3).
  { right. right. cbn [snd take_str contains_byte]. rewrite H0, C1, C2. reflexivity. }
  destruct rest2 as [| c3 rest3]; [right; left; reflexivity |].
  destruct (GoXML.continuation c3 128 191) eqn:C3; cbn [negb]; [| right; left; reflexivity].
  apply (Hc c3 128 191) in C3; [| lia].
  right. right. cbn [snd take_str contains_byte]. rewrite H0, C1, C2, C3. reflexivity.
Qed.

Lemma escape_rune_no_lt (r : Z) (width : nat) (esc : string) :
  GoXML.escape_rune r width = Some esc -> contains_byte "<" esc = false.
Proof.
  unfold GoXML.escape_rune. intros E.
  repeat match type of E with
         | (if ?b then _ else _) = _ => destruct b
         end; inversion E; reflexivity.
Qed.

Lemma escape_rune_lt (r : Z) (width : nat) :
  GoXML.escape_rune r width = None -> r <> 60.
Proof.
  unfold GoXML.escape_rune. intros E ->. discriminate E.
Qed.

(** [EscapeString] never puts out a "<". *)
Lemma EscapeString_fuel_no_lt (fuel : nat) :
  forall s : string, contains_byte "<" (GoXML.EscapeString_fuel fuel s) = false.
Proof.
  induction fuel as [| fuel IH]; intros s; [reflexivity |].
  cbn [GoXML.EscapeString_fuel].
  destruct s as [| c0 rest]; [reflexivity |].
  destruct (GoXML.DecodeRune (String c0 rest)) as [r width] eqn:D.
  rewrite contains_byte_app, IH, orb_false_r.
  destruct (GoXML.escape_rune r width) as [esc |] eqn:E.
  - eapply escape_rune_no_lt. exact E.
  - destruct (DecodeRune_cases c0 rest) as [H | [H | H]]; cbv zeta in H.
    + rewrite H in D. injection D as <- <-.
      apply escape_rune_lt in E. cbn [take_str contains_byte].
      rewrite byte_not_lt by exact E. reflexivity.
    + rewrite H in D. injection D as <- <-. discriminate E.
    + rewrite D in H. exact H.
Qed.











Section Stylesheet.
Context {RT : Runtime} {XT : XMLTools}.



End Stylesheet.

(** ** The stored entries *)

Lemma prints4_all : forallb prints4 (seqZ 0 10000) = true.
Proof. vm_compute. reflexivity. Qed.

Lemma prints2_all : forallb prints2 (seqZ 0 100) = true.
Proof. vm_compute. reflexivity. Qed.

(** The date of a real day of the years 0..9999 prints as the text
    YYYY-MM-DD of that day. *)
Lemma Format_date_calendar (t : Time) :
  civil t -> is_calendar_date (Format_date t) (year t) (month t) (day t).
Proof.
  intros (Hy & Hm & Hd).
  assert (Hd' : day t <= 31).
  { unfold daysIn in Hd.
    repeat match type of Hd with
           | context [if ?b then _ else _] => destruct b
           end; lia. }
  assert (P4 : prints4 (year t) = true).
  { pose proof prints4_all as H. rewrite forallb_forall in H. apply H.
    apply list_elem_of_In, elem_of_seqZ. lia. }
  assert (P2 : forall v, 0 <= v < 100 -> prints2 v = true).
  { intros v Hv. pose proof prints2_all as H. rewrite forallb_forall in H. apply H.
    apply list_elem_of_In, elem_of_seqZ. lia. }
  pose proof (P2 (month t) ltac:(lia)) as Pm.
  pose proof (P2 (day t) ltac:(lia)) as Pd.
  unfold prints4 in P4. unfold prints2 in Pm, Pd. unfold Format_date.
  destruct (appendInt (year t) 4) as [| c0 [| c1 [| c2 [| c3 [| ? ?]]]]]; try discriminate.
  destruct (appendInt (month t) 2) as [| c5 [| c6 [| ? ?]]]; try discriminate.
  destruct (appendInt (day t) 2) as [| c8 [| c9 [| ? ?]]]; try discriminate.
  apply andb_prop in P4 as [D4 E4]. apply andb_prop in Pm as [Dm Em].
  apply andb_prop in Pd as [Dd Ed].
  apply Z.eqb_eq in E4, Em, Ed.
  exists c0, c1, c2, c3, c5, c6, c8, c9.
  split; [reflexivity |].
  split.
  { cbn [forallb] in *.
    repeat match goal with
           | H : _ && _ = true |- _ => apply andb_prop in H as [? ?]
           end.
    repeat match goal with
           | H : is_digit_byte _ = true |- _ => rewrite H; clear H
           end.
    reflexivity. }
  rewrite E4, Em, Ed. repeat split; lia.
Qed.

Lemma skipn_app_length {A : Type} (l evs : list A) : skipn (length l) (l ++ evs) = evs.
Proof. rewrite drop_app_length. reflexivity. Qed.

Section StoredEntries.
Context {RT : Runtime} {XT : XMLTools}.

(** What one [AddURL] does: one entry more, whose [LastMod] is a date the
    clock showed during the call, or the one given if that is the text of
    a calendar day; the rest of the entry is kept. *)
Lemma AddURL_effect (url : SitemapURL) (st : St) :
  exists (v : string) (w : World) (evs : list event),
    AddURL url st =
      (Done tt, mkSt (set_URLs (this st) (URLs (this st) ++ [set_LastMod url v])) w
                     (log st ++ evs))
    /\ ((exists t, In (EvNow t) evs /\ v = Format_date t)
        \/ (exists y m d, is_calendar_date v y m d)).
Proof.
  destruct (time_Now (world st)) as [t1 w1] eqn:E1.
  destruct (time_Now w1) as [t2 w2] eqn:E2.
  unfold AddURL, bind, Now, syscall, ret, get_this, set_this.
  destruct (String.eqb (LastMod url) "").
  - rewrite E1. cbv beta iota. cbn [this world log].
    exists (Format_date t1), w1, [EvNow t1]. split; [reflexivity |].
    left. exists t1. split; [left; reflexivity | reflexivity].
  - destruct (Parse_date (LastMod url)) as [d |] eqn:P.
    + rewrite E1. cbv beta iota. cbn [this world log].
      destruct (After d t1).
      * cbn [this world log]. rewrite E2. cbv beta iota. cbn [this world log].
        exists (Format_date t2), w2, [EvNow t1; EvNow t2].
        split; [rewrite <- app_assoc; reflexivity |].
        left. exists t2. split; [right; left; reflexivity | reflexivity].
      * exists (LastMod url), w1, [EvNow t1]. rewrite set_LastMod_same.
        split; [reflexivity |]. right.
        apply Parse_date_spec in P as [P _]. eauto.
    + rewrite E1. cbv beta iota. cbn [this world log].
      exists (Format_date t1), w1, [EvNow t1]. split; [reflexivity |].
      left. exists t1. split; [left; reflexivity | reflexivity].
Qed.

Lemma entries_kept_refl (st : St) : entries_kept [] st st [].
Proof.
  unfold entries_kept. cbn [map]. rewrite !app_nil_r. repeat split; auto.
Qed.

Lemma entries_kept_trans (a1 a2 : list SitemapURL) (st0 st1 st2 : St)
  (evs1 evs2 : list event) :
  entries_kept a1 st0 st1 evs1 -> entries_kept a2 st1 st2 evs2 ->
  entries_kept (a1 ++ a2) st0 st2 (evs1 ++ evs2).
Proof.
  intros (L1 & D1 & Lo1 & C1 & P1) (L2 & D2 & Lo2 & C2 & P2).
  unfold entries_kept. rewrite L2, L1, Lo2, Lo1, C2, C1, P2, P1, !map_app, <- !app_assoc.
  repeat split; auto.
  intros Hc Hd. apply Forall_app in Hc as [Hc1 Hc2]. auto.
Qed.

Lemma AddURL_kept (url : SitemapURL) (st : St) :
  exists evs,
    fst (AddURL url st) = Done tt
    /\ entries_kept [url] st (snd (AddURL url st)) evs.
Proof.
  destruct (AddURL_effect url st) as (v & w & evs & -> & Hv).
  exists evs. split; [reflexivity |]. unfold entries_kept. cbn [fst snd this log URLs set_URLs].
  rewrite !map_app. cbn [map Loc ChangeFreq Priority set_LastMod].
  repeat split; auto.
  intros Hc Hd. apply Forall_app. split; [exact Hd |]. constructor; [| constructor].
  destruct Hv as [(t & Hin & ->) | Hv].
  - unfold clock_civil in Hc. rewrite Forall_forall in Hc.
    apply list_elem_of_In in Hin. specialize (Hc _ Hin). cbn in Hc.
    exists (year t), (month t), (day t). cbn [LastMod set_LastMod].
    apply Format_date_calendar. exact Hc.
  - exact Hv.
Qed.

Lemma AddURLs_kept (urls : list SitemapURL) :
  forall st : St,
    exists evs,
      fst (AddURLs urls st) = Done tt
      /\ entries_kept urls st (snd (AddURLs urls st)) evs.
Proof.
  induction urls as [| url urls IH]; intros st.
  - exists []. split; [reflexivity |]. apply entries_kept_refl.
  - cbn [AddURLs]. unfold bind.
    destruct (AddURL_kept url st) as (evs1 & H1 & K1).
    destruct (AddURL url st) as [r1 st1]. cbn [fst snd] in *. subst r1.
    destruct (IH st1) as (evs2 & H2 & K2).
    exists (evs1 ++ evs2). split; [exact H2 |].
    exact (entries_kept_trans [url] urls _ _ _ _ _ K1 K2).
Qed.

Lemma run_calls_kept (cs : list call) :
  forall st : St,
    exists evs,
      fst (run_calls cs st) = Done tt
      /\ entries_kept (flat_map call_entries cs) st (snd (run_calls cs st)) evs.
Proof.
  induction cs as [| c cs IH]; intros st.
  - exists []. split; [reflexivity |]. apply entries_kept_refl.
  - cbn [run_calls flat_map]. unfold bind.
    assert (H : exists evs, fst (run_call c st) = Done tt
                            /\ entries_kept (call_entries c) st (snd (run_call c st)) evs).
    { destruct c as [url | urls]; [apply AddURL_kept | apply AddURLs_kept]. }
    destruct H as (evs1 & H1 & K1).
    destruct (run_call c st) as [r1 st1]. cbn [fst snd] in *. subst r1.
    destruct (IH st1) as (evs2 & H2 & K2).
    exists (evs1 ++ evs2). split; [exact H2 |].
    exact (entries_kept_trans _ _ _ _ _ _ _ K1 K2).
Qed.

(** C9, as the code has it.  After any sequence of [AddURL] and [AddURLs]
    calls, while the clock shows real days of the years 0..9999, every
    stored entry has a [LastMod] that is the text of a calendar day; the
    locations, like the other fields, are stored as the caller gave them,
    unchecked. *)
Theorem entries_dated_after_calls (cs : list call) (st : St) :
  let st' := snd (run_calls cs st) in
  Forall dated (URLs (this st)) ->
  clock_civil (skipn (length (log st)) (log st')) ->
  fst (run_calls cs st) = Done tt
  /\ Forall dated (URLs (this st'))
  /\ map Loc (URLs (this st')) =
     map Loc (URLs (this st)) ++ map Loc (flat_map call_entries cs)
  /\ map ChangeFreq (URLs (this st')) =
     map ChangeFreq (URLs (this st)) ++ map ChangeFreq (flat_map call_entries cs)
  /\ map Priority (URLs (this st')) =
     map Priority (URLs (this st)) ++ map Priority (flat_map call_entries cs).
Proof.
  intros st' Hd Hc. subst st'.
  destruct (run_calls_kept cs st) as (evs & Hr & Hlog & Hdated & Hloc & Hcf & Hp).
  rewrite Hlog, skipn_app_length in Hc. auto.
Qed.

End StoredEntries.

(** ** Resolution of locations *)


(* ===================================================================== *)
(** * Further properties *)
(* ===================================================================== *)

(** ** Trailing slashes *)


Lemma rev_str_acc (s acc : string) : rev_str s acc = rev_str s EmptyString +:+ acc.
Proof. rewrite rev_str_app. reflexivity. Qed.

Lemma rev_str_append (a b acc : string) :
  rev_str (a +:+ b) acc = rev_str b (rev_str a acc).
Proof.
  revert acc. induction a as [| c a IH]; intros acc; [reflexivity |].
  rewrite append_cons. cbn [rev_str]. apply IH.
Qed.

Lemma rev_str_involutive (s : string) :
  rev_str (rev_str s EmptyString) EmptyString = s.
Proof.
  induction s as [| c s IH]; [reflexivity |].
  cbn [rev_str]. rewrite (rev_str_acc s), rev_str_append, IH. reflexivity.
Qed.

Lemma rev_str_slashes (k : nat) (acc : string) :
  rev_str (slashes k) acc = slashes k +:+ acc.
Proof.
  revert acc. induction k as [| k IH]; intros acc; [reflexivity |].
  cbn [slashes rev_str]. rewrite IH.
  clear IH. induction k as [| k IH]; [reflexivity |].
  cbn [slashes]. rewrite !append_cons, IH. reflexivity.
Qed.

Lemma drop_leading_slashes (s : string) :
  exists k, s = slashes k +:+ drop_leading "/" s
            /\ HasPrefix (drop_leading "/" s) "/" = false.
Proof.
  induction s as [| c s (k & E & H)].
  - exists O. split; reflexivity.
  - cbn [drop_leading]. destruct (Ascii.eqb_spec "/" c) as [<- | Hc].
    + exists (S k). split; [| exact H]. cbn [slashes]. rewrite append_cons, <- E. reflexivity.
    + exists O. split; [reflexivity |]. cbn [HasPrefix].
      apply Ascii.eqb_neq in Hc. rewrite Hc. reflexivity.
Qed.

Lemma HasSuffix1_rev (s : string) (c : ascii) :
  GoURL.HasSuffix1 (rev_str s EmptyString) c = HasPrefix s (String c EmptyString).
Proof.
  destruct s as [| d s]; [reflexivity |].
  cbn [rev_str HasPrefix]. rewrite andb_true_r.
  rewrite rev_str_acc. generalize (rev_str s EmptyString). intros r.
  induction r as [| e r IH].
  - cbn. apply Ascii.eqb_sym.
  - rewrite append_cons, HasSuffix1_cons. rewrite IH.
    destruct r; reflexivity.
Qed.

Lemma TrimRight1_slashes (s : string) :
  exists k, s = TrimRight1 s "/" +:+ slashes k
            /\ GoURL.HasSuffix1 (TrimRight1 s "/") "/" = false.
Proof.
  unfold TrimRight1.
  destruct (drop_leading_slashes (rev_str s EmptyString)) as (k & E & H).
  exists k. split.
  - rewrite <- (rev_str_involutive s) at 1. rewrite E at 1.
    rewrite rev_str_append, rev_str_slashes, str_app_nil_r.
    rewrite rev_str_acc. reflexivity.
  - rewrite HasSuffix1_rev. exact H.
Qed.

Lemma drop_leading_fixed (s : string) :
  HasPrefix s "/" = false -> drop_leading "/" s = s.
Proof.
  destruct s as [| c s]; [reflexivity |]. cbn [HasPrefix drop_leading].
  rewrite andb_true_r. intros ->. reflexivity.
Qed.

Lemma TrimRight1_app_slashes (s : string) (k : nat) :
  TrimRight1 (s +:+ slashes k) "/" = TrimRight1 s "/".
Proof.
  unfold TrimRight1. rewrite rev_str_append, rev_str_slashes.
  f_equal. induction k as [| k IH]; [reflexivity |].
  cbn [slashes]. rewrite append_cons. cbn [drop_leading Ascii.eqb].
  exact IH.
Qed.

Lemma TrimRight1_fixed (s : string) :
  GoURL.HasSuffix1 s "/" = false -> TrimRight1 s "/" = s.
Proof.
  intros H. unfold TrimRight1.
  rewrite <- (rev_str_involutive s) in H. rewrite HasSuffix1_rev in H.
  rewrite drop_leading_fixed by exact H. apply rev_str_involutive.
Qed.

(** X1.  [NewSitemapOptions] keeps the base URL without its trailing slashes,
    however many there are, and fills in the defaults: 33333 entries per
    file, no entries, no stylesheet.  Built again from its own base URL it
    gives the same value. *)
Theorem NewSitemapOptions_trims_base (dir baseURL : string) :
  let s := NewSitemapOptions dir baseURL in
  (exists k, baseURL = BaseURL s +:+ slashes k)
  /\ GoURL.HasSuffix1 (BaseURL s) "/" = false
  /\ NewSitemapOptions dir (BaseURL s) = s
  /\ (forall k, NewSitemapOptions dir (baseURL +:+ slashes k) = s)
  /\ Dir s = dir /\ MaxURLs s = 33333 /\ MaxFileSize s = 52428800
  /\ URLs s = [] /\ Stylesheet s = "".
Proof.
  intros s. subst s. unfold NewSitemapOptions. cbn [BaseURL Dir MaxURLs MaxFileSize URLs Stylesheet].
  destruct (TrimRight1_slashes baseURL) as (k & E & H).
  split; [exists k; exact E |]. split; [exact H |].
  split; [rewrite TrimRight1_fixed by exact H; reflexivity |].
  split; [intros k'; rewrite TrimRight1_app_slashes; reflexivity |].
  repeat split.
Qed.

(** ** Adding entries *)

Section Adding.
Context {RT : Runtime} {XT : XMLTools}.

(** One [AddURL]: one entry more, one or two clock readings, nothing else. *)
Lemma AddURL_clock (url : SitemapURL) (st : St) :
  exists (v : string) (w : World) (evs : list event),
    AddURL url st =
      (Done tt, mkSt (set_URLs (this st) (URLs (this st) ++ [set_LastMod url v])) w
                     (log st ++ evs))
    /\ Forall is_clock_read evs
    /\ (1 <= length evs <= 2)%nat
    /\ (v = LastMod url \/ exists t, In t (clock_reads evs) /\ v = Format_date t).
Proof.
  destruct (time_Now (world st)) as [t1 w1] eqn:E1.
  destruct (time_Now w1) as [t2 w2] eqn:E2.
  unfold AddURL, bind, Now, syscall, ret, get_this, set_this.
  destruct (String.eqb (LastMod url) "").
  - rewrite E1. cbv beta iota. cbn [this world log].
    exists (Format_date t1), w1, [EvNow t1]. split; [reflexivity |].
    split; [repeat constructor |]. split; [cbn; lia |].
    right. exists t1. split; [left; reflexivity | reflexivity].
  - destruct (Parse_date (LastMod url)) as [d |] eqn:P.
    + rewrite E1. cbv beta iota. cbn [this world log].
      destruct (After d t1).
      * cbn [this world log]. rewrite E2. cbv beta iota. cbn [this world log].
        exists (Format_date t2), w2, [EvNow t1; EvNow t2].
        split; [rewrite <- app_assoc; reflexivity |].
        split; [repeat constructor |]. split; [cbn; lia |].
        right. exists t2. split; [right; left; reflexivity | reflexivity].
      * exists (LastMod url), w1, [EvNow t1]. rewrite set_LastMod_same.
        split; [reflexivity |]. split; [repeat constructor |]. split; [cbn; lia |].
        left. reflexivity.
    + rewrite E1. cbv beta iota. cbn [this world log].
      exists (Format_date t1), w1, [EvNow t1]. split; [reflexivity |].
      split; [repeat constructor |]. split; [cbn; lia |].
      right. exists t1. split; [left; reflexivity | reflexivity].
Qed.

Lemma set_URLs_set_URLs (s : SitemapOptions) (l l' : list SitemapURL) :
  set_URLs (set_URLs s l) l' = set_URLs s l'.
Proof. reflexivity. Qed.

Lemma clock_reads_app (a b : list event) :
  clock_reads (a ++ b) = clock_reads a ++ clock_reads b.
Proof. unfold clock_reads. apply flat_map_app. Qed.

Lemma AddURLs_clock (urls : list SitemapURL) :
  forall st : St,
    exists (added : list SitemapURL) (w : World) (evs : list event),
      AddURLs urls st =
        (Done tt, mkSt (set_URLs (this st) (URLs (this st) ++ added)) w (log st ++ evs))
      /\ Forall2 (stored_as (clock_reads evs)) urls added
      /\ Forall is_clock_read evs
      /\ (length urls <= length evs <= 2 * length urls)%nat.
Proof.
  induction urls as [| url urls IH]; intros st.
  - exists [], (world st), []. cbn [AddURLs]. unfold ret.
    rewrite !app_nil_r, set_URLs_same, St_eta.
    split; [reflexivity |]. split; [constructor |]. split; [constructor | cbn; lia].
  - cbn [AddURLs]. unfold bind.
    destruct (AddURL_clock url st) as (v & w1 & evs1 & -> & Hc1 & Hn1 & Hv).
    destruct (IH (mkSt (set_URLs (this st) (URLs (this st) ++ [set_LastMod url v])) w1
                       (log st ++ evs1)))
      as (added & w2 & evs2 & -> & Hadd & Hc2 & Hn2).
    cbn [this world log URLs set_URLs].
    exists (set_LastMod url v :: added), w2, (evs1 ++ evs2).
    rewrite <- !app_assoc. cbn [app].
    split; [reflexivity |].
    split.
    { rewrite clock_reads_app. constructor.
      - unfold stored_as. cbn [Loc LastMod ChangeFreq Priority set_LastMod].
        split; [reflexivity |]. split; [reflexivity |]. split; [reflexivity |].
        destruct Hv as [-> | (t & Ht & ->)]; [left; reflexivity |].
        right. exists t. split; [apply in_or_app; left; exact Ht | reflexivity].
      - eapply Forall2_impl; [exact Hadd |].
        intros u a (HL & HC & HP & Hd). unfold stored_as.
        split; [exact HL |]. split; [exact HC |]. split; [exact HP |].
        destruct Hd as [Hd | (t & Ht & Hd)]; [left; exact Hd |].
        right. exists t. split; [apply in_or_app; right; exact Ht | exact Hd]. }
    split; [apply Forall_app; auto |].
    rewrite length_app. cbn [length]. lia.
Qed.

(** X2.  [AddURLs] over a list put together from two is [AddURLs] over the
    first and then over the second; over a list of one entry it is
    [AddURL]. *)
Theorem AddURLs_app (l1 l2 : list SitemapURL) (url : SitemapURL) (st : St) :
  AddURLs (l1 ++ l2) st = AddURLs l2 (snd (AddURLs l1 st))
  /\ AddURLs [url] st = AddURL url st.
Proof.
  split.
  - revert st. induction l1 as [| u l1 IH]; intros st; [reflexivity |].
    cbn [app AddURLs]. unfold bind.
    destruct (AddURL_clock u st) as (v & w1 & evs1 & -> & _). apply IH.
  - cbn [AddURLs]. unfold bind, ret.
    destruct (AddURL_clock url st) as (v & w1 & evs1 & -> & _). reflexivity.
Qed.

(** X3.  [AddURLs] never fails and touches nothing but the clock, which it
    reads once or twice per entry.  It keeps the settings and the entries
    stored before, and stores one entry per entry given, in the order
    given: location, change frequency and priority as given, the
    [LastMod] as given or the date of one of the clock readings. *)
Theorem AddURLs_reads_clock_only (urls : list SitemapURL) (st : St) :
  let st' := snd (AddURLs urls st) in
  exists (added : list SitemapURL) (evs : list event),
    fst (AddURLs urls st) = Done tt
    /\ this st' = set_URLs (this st) (URLs (this st) ++ added)
    /\ Forall2 (stored_as (clock_reads evs)) urls added
    /\ log st' = log st ++ evs
    /\ Forall is_clock_read evs
    /\ (length urls <= length evs <= 2 * length urls)%nat.
Proof.
  intros st'. subst st'.
  destruct (AddURLs_clock urls st) as (added & w & evs & -> & Hadd & Hc & Hn).
  exists added, evs. cbn [fst snd this log].
  split; [reflexivity |]. split; [reflexivity |]. split; [exact Hadd |].
  split; [reflexivity |]. split; [exact Hc | exact Hn].
Qed.

End Adding.

(** ** The steps of [Write] at the edges *)

Section WriteEdges.
Context {RT : Runtime} {XT : XMLTools}.

(** [Write] up to the emission phase, when every location resolves. *)
Lemma Write_resolved (baseSitemapURL stylesheetURL : string) (st : St) :
  fst (ensure_dir stylesheetURL st) = Done None ->
  Forall (resolvable (this st)) (URLs (this st)) ->
  exists (w1 : World) (evs1 : list event),
    write_calls evs1 = [] /\ read_calls evs1 = []
    /\ Forall (fun ev => match ev with EvNow _ => False | _ => True end) evs1
    /\ Write baseSitemapURL stylesheetURL st =
       emit_phase baseSitemapURL
         (mkSt (set_URLs (set_Stylesheet (this st) stylesheetURL)
                  (map (resolved_entry (this st)) (URLs (this st))))
               w1 (log st ++ evs1)).
Proof.
  intros Hdir Hall.
  destruct (ensure_dir_run stylesheetURL st) as (r & w1 & evs1 & Hens & Hw & Hr & Hn).
  rewrite Hens in Hdir. cbn [fst] in Hdir. injection Hdir as ->.
  exists w1, evs1. split; [exact Hw |]. split; [exact Hr |]. split; [exact Hn |].
  rewrite Write_phases, Hens, prepare_phase_run. cbn [this world log URLs set_Stylesheet].
  rewrite resolve_entries_set_Stylesheet, resolve_entries_all by exact Hall.
  reflexivity.
Qed.

(** X4.  [Write] changes the entries and the stylesheet of the receiver and
    nothing else: the settings stay, the stylesheet is the one given, and
    there are as many entries as before, whether it returns an error,
    panics or succeeds. *)
Theorem Write_keeps_settings (baseSitemapURL stylesheetURL : string) (st : St) :
  let s' := this (snd (Write baseSitemapURL stylesheetURL st)) in
  same_settings (this st) s'
  /\ Stylesheet s' = stylesheetURL
  /\ length (URLs s') = length (URLs (this st)).
Proof.
  intros s'. subst s'.
  destruct (Write_run baseSitemapURL stylesheetURL st)
    as (dir_err & w1 & evs1 & _ & _ & _ & ->).
  destruct dir_err as [e |].
  { cbn. unfold same_settings. auto. }
  cbv zeta.
  assert (H : forall s2 : SitemapOptions,
             s2 = set_URLs (set_Stylesheet (this st) stylesheetURL)
                    (fst (resolve_entries (this st) (URLs (this st)))) ->
             same_settings (this st) s2 /\ Stylesheet s2 = stylesheetURL
             /\ length (URLs s2) = length (URLs (this st))).
  { intros s2 ->. unfold same_settings. cbn [MaxFileSize MaxURLs Dir BaseURL Stylesheet URLs
                                             set_URLs set_Stylesheet].
    rewrite resolve_entries_length. auto 10. }
  destruct (snd (resolve_entries (this st) (URLs (this st)))).
  { cbn [snd this]. apply H. reflexivity. }
  match goal with
  | |- context [emit_phase _ ?st2] =>
      destruct (emit_phase_docs baseSitemapURL st2) as (r & w & evs & -> & _)
  end.
  cbn [snd this]. apply H. reflexivity.
Qed.

Lemma resolve_entries_stop (s : SitemapOptions) (l1 l2 : list SitemapURL)
  (u : SitemapURL) (e : error) :
  Forall (resolvable s) l1 ->
  resolveURL s (Loc u) = inl e ->
  resolve_entries s (l1 ++ u :: l2) = (map (resolved_entry s) l1 ++ u :: l2, Some e).
Proof.
  intros Hall Hu. induction Hall as [| x l1 [full Hx] _ IH].
  - cbn [app map resolve_entries]. rewrite Hu. reflexivity.
  - cbn [app map resolve_entries]. rewrite Hx, IH.
    unfold resolved_entry. rewrite Hx. reflexivity.
Qed.

(** X7.  When the location of an entry does not resolve, [Write] returns the
    error of that entry and leaves the list half done: the entries before
    it carry their resolved locations, the entry itself and those after
    it are as they were. *)
Theorem Write_stops_at_first_bad_location (baseSitemapURL stylesheetURL : string)
  (st : St) (l1 l2 : list SitemapURL) (u : SitemapURL) (e : error) :
  fst (ensure_dir stylesheetURL st) = Done None ->
  URLs (this st) = l1 ++ u :: l2 ->
  Forall (resolvable (this st)) l1 ->
  resolveURL (this st) (Loc u) = inl e ->
  fst (Write baseSitemapURL stylesheetURL st) = Done (Some e)
  /\ URLs (this (snd (Write baseSitemapURL stylesheetURL st))) =
     map (resolved_entry (this st)) l1 ++ u :: l2
  /\ Forall2 (fun x x' => resolveURL (this st) (Loc x) = inr (Loc x'))
             l1 (map (resolved_entry (this st)) l1).
Proof.
  intros Hdir HU Hall Hu.
  destruct (Write_run baseSitemapURL stylesheetURL st)
    as (dir_err & w1 & evs1 & Hens & _ & _ & ->).
  rewrite Hens in Hdir. cbn [fst] in Hdir. injection Hdir as ->. cbv zeta.
  rewrite HU, (resolve_entries_stop _ _ _ _ _ Hall Hu). cbn [fst snd this URLs set_URLs].
  split; [reflexivity |]. split; [reflexivity |].
  clear HU. induction Hall as [| x l Hx _ IH]; constructor; [| exact IH].
  apply resolved_entry_frame. exact Hx.
Qed.

Lemma emit_phase_zero (baseSitemapURL : string) (st : St) :
  MaxURLs (this st) = 0 ->
  URLs (this st) <> [] ->
  emit_phase baseSitemapURL st = (Panic "integer divide by zero", st).
Proof.
  intros HM Hne. unfold emit_phase, bind, get_this. rewrite HM.
  destruct (Z.leb_spec (Z.of_nat (length (URLs (this st)))) 0) as [Hle | _].
  { destruct (URLs (this st)); [contradiction | cbn [length] in Hle; lia]. }
  unfold writeSitemapIndex, bind, get_this. rewrite HM. reflexivity.
Qed.

(** X16.  With [MaxURLs] zero and an entry to write, [Write] panics on the
    division that counts the files, after it has resolved the locations
    and before it writes anything. *)
Theorem Write_zero_MaxURLs_panics (baseSitemapURL stylesheetURL : string) (st : St) :
  fst (ensure_dir stylesheetURL st) = Done None ->
  Forall (resolvable (this st)) (URLs (this st)) ->
  URLs (this st) <> [] ->
  MaxURLs (this st) = 0 ->
  let st' := snd (Write baseSitemapURL stylesheetURL st) in
  exists evs : list event,
    fst (Write baseSitemapURL stylesheetURL st) = Panic "integer divide by zero"
    /\ log st' = log st ++ evs
    /\ write_calls evs = []
    /\ URLs (this st') = map (resolved_entry (this st)) (URLs (this st)).
Proof.
  intros Hdir Hall Hne HM st'. subst st'.
  destruct (Write_resolved baseSitemapURL stylesheetURL st Hdir Hall)
    as (w1 & evs1 & Hw & _ & _ & ->).
  rewrite emit_phase_zero; cycle 1.
  { exact HM. }
  { cbn [this URLs set_URLs]. destruct (URLs (this st)); [contradiction | discriminate]. }
  cbn [fst snd this log URLs set_URLs].
  exists evs1. split; [reflexivity |]. split; [reflexivity |].
  split; [exact Hw | reflexivity].
Qed.

Lemma emit_phase_single (b1 b2 : string) (st : St) :
  Z.of_nat (length (URLs (this st))) <= MaxURLs (this st) ->
  emit_phase b1 st = emit_phase b2 st.
Proof.
  intros Hle. unfold emit_phase, bind, get_this.
  destruct (Z.leb_spec (Z.of_nat (length (URLs (this st)))) (MaxURLs (this st)));
    [reflexivity | lia].
Qed.

(** X9.  With at most [MaxURLs] entries [Write] never looks at
    [baseSitemapURL]: the run is the same whatever it is. *)
Theorem Write_single_file_ignores_base (b1 b2 stylesheetURL : string) (st : St) :
  Z.of_nat (length (URLs (this st))) <= MaxURLs (this st) ->
  Write b1 stylesheetURL st = Write b2 stylesheetURL st.
Proof.
  intros Hle.
  destruct (Write_run b1 stylesheetURL st) as (d1 & w1 & evs1 & Hens1 & _ & _ & ->).
  destruct (Write_run b2 stylesheetURL st) as (d2 & w2 & evs2 & Hens2 & _ & _ & ->).
  rewrite Hens1 in Hens2. injection Hens2 as <- <- E.
  apply app_inv_head in E. subst evs2.
  destruct d1; [reflexivity |]. cbv zeta.
  destruct (snd (resolve_entries (this st) (URLs (this st)))); [reflexivity |].
  apply emit_phase_single.
  cbn [this URLs MaxURLs set_URLs set_Stylesheet].
  rewrite resolve_entries_length. exact Hle.
Qed.

End WriteEdges.

(** ** The base URL of the index *)

Section IndexBase.
Context {RT : Runtime} {XT : XMLTools}.

Lemma resolveSitemapURL_slashes (baseSitemapURL sitemapName : string) (k : nat) :
  resolveSitemapURL (baseSitemapURL +:+ slashes k) sitemapName =
  resolveSitemapURL baseSitemapURL sitemapName.
Proof. unfold resolveSitemapURL. rewrite TrimRight1_app_slashes. reflexivity. Qed.

Lemma bind_congr {A B : Type} (m : M A) (k k' : A -> M B) (st : St) :
  (forall a st', k a st' = k' a st') -> bind m k st = bind m k' st.
Proof.
  intros H. unfold bind. destruct (m st) as [[a | msg] st']; [apply H | reflexivity].
Qed.

(** The run depends on [baseSitemapURL] through [resolveSitemapURL] only. *)
Lemma writeShards_ext (b b' : string) :
  (forall name, resolveSitemapURL b name = resolveSitemapURL b' name) ->
  forall (k : nat) (i : Z) (sitemaps : list Sitemap) (st : St),
    writeShards k i b sitemaps st = writeShards k i b' sitemaps st.
Proof.
  intros H. induction k as [| k IH]; intros i sitemaps st; [reflexivity |].
  cbn [writeShards]. apply bind_congr. intros s st1.
  destruct (slice _ _ _) as [urlsSlice |]; [| reflexivity].
  apply bind_congr. intros [e |] st2; [reflexivity |].
  rewrite H. destruct (resolveSitemapURL b' (sitemapName i)); [reflexivity |].
  apply bind_congr. intros t st3. apply IH.
Qed.

Lemma emit_phase_ext (b b' : string) (st : St) :
  (forall name, resolveSitemapURL b name = resolveSitemapURL b' name) ->
  emit_phase b st = emit_phase b' st.
Proof.
  intros H. unfold emit_phase. apply bind_congr. intros s st1.
  destruct (_ <=? _); [reflexivity |].
  assert (E : forall st', writeSitemapIndex b st' = writeSitemapIndex b' st').
  { intros st'. unfold writeSitemapIndex. apply bind_congr. intros s' st2.
    destruct (int_div _ _); [| reflexivity].
    unfold bind. rewrite (writeShards_ext b b' H). reflexivity. }
  unfold bind. rewrite E. reflexivity.
Qed.

(** X10.  Trailing slashes of [baseSitemapURL] make no difference: the shard
    locations of the index, and with them the whole run of [Write], are
    the same for a base with some slashes more at its end. *)
Theorem Write_base_trailing_slashes (baseSitemapURL stylesheetURL : string)
  (k : nat) (st : St) :
  (forall name, resolveSitemapURL (baseSitemapURL +:+ slashes k) name =
                resolveSitemapURL baseSitemapURL name)
  /\ Write (baseSitemapURL +:+ slashes k) stylesheetURL st =
     Write baseSitemapURL stylesheetURL st.
Proof.
  split; [intros name; apply resolveSitemapURL_slashes |].
  rewrite !Write_phases.
  destruct (ensure_dir stylesheetURL st) as [[[e |] | msg] st1]; try reflexivity.
  destruct (prepare_phase st1) as [[[e |] | msg] st2]; try reflexivity.
  apply emit_phase_ext. intros name. apply resolveSitemapURL_slashes.
Qed.

Lemma sitemapName_0 : sitemapName 0 = "sitemap_1.xml".
Proof. reflexivity. Qed.

(** The emission phase when the base of the index does not parse and
    there are more entries than fit one file. *)
Lemma emit_phase_bad_base (baseSitemapURL msg : string) (st : St) :
  0 < MaxURLs (this st) ->
  MaxURLs (this st) < Z.of_nat (length (URLs (this st))) ->
  Z.of_nat (length (URLs (this st))) < 2 ^ 62 ->
  GoURL.Parse (TrimRight1 baseSitemapURL "/" +:+ "/") = inl msg ->
  exists (r : option string) (w : World),
    emit_phase baseSitemapURL st =
      (Done (Some (match r with Some m => PathError m | None => UrlError msg end)),
       mkSt (this st) w
         (log st ++
          [EvWriteFile (GoPath.Join (Dir (this st)) "sitemap_1.xml")
             (document (Stylesheet (this st))
                (urlset_data (firstn (Z.to_nat (MaxURLs (this st))) (URLs (this st)))))
             420 r])).
Proof.
  intros HM Hgt Hn Hbad.
  set (M := MaxURLs (this st)) in *. set (n := Z.of_nat (length (URLs (this st)))) in *.
  unfold emit_phase. unfold bind at 1, get_this at 1.
  fold M n. destruct (Z.leb_spec n M) as [Hle | _]; [lia |].
  unfold bind at 1, writeSitemapIndex at 1. unfold bind at 1, get_this at 1.
  fold M n. rewrite fileCount_value by lia.
  assert (HN : 2 <= (n + M - 1) / M).
  { apply Z.div_le_lower_bound; lia. }
  destruct (Z.to_nat ((n + M - 1) / M)) as [| k] eqn:Ek; [lia |].
  cbn [writeShards]. unfold bind at 1 2, get_this at 1. fold M n.
  assert (Es : int_mul 0 M = 0) by reflexivity.
  assert (Ee : int_add 0 M = M) by (unfold int_add; apply wrap64_id; lia).
  rewrite Es, Ee.
  destruct (Z.gtb_spec M n) as [Hgt' | _]; [lia |].
  unfold slice. fold n.
  replace ((0 <=? 0) && (0 <=? M) && (M <=? n)) with true
    by (symmetry; rewrite !andb_true_iff, !Z.leb_le; lia).
  rewrite Z.sub_0_r. change (Z.to_nat 0) with 0%nat. cbn [skipn].
  unfold bind at 1. rewrite sitemapName_0, drop_0.
  destruct (writeSitemapFile_run "sitemap_1.xml" (firstn (Z.to_nat M) (URLs (this st))) st)
    as (r & w & _ & ->).
  exists r, w. destruct r as [m |]; cbn [option_map]; [reflexivity |].
  unfold resolveSitemapURL. rewrite Hbad. reflexivity.
Qed.

(** X11.  In the indexed layout a [baseSitemapURL] that does not parse is found
    out only after the first shard is written: [Write] makes the one call
    of [os.WriteFile] for sitemap_1.xml, with the first [MaxURLs] entries,
    and returns the error of [url.Parse] (or that of the write); it
    writes no other shard and no index, and validates nothing. *)
Theorem Write_bad_index_base_after_first_shard
  (baseSitemapURL stylesheetURL msg : string) (st : St) :
  fst (ensure_dir stylesheetURL st) = Done None ->
  Forall (resolvable (this st)) (URLs (this st)) ->
  0 < MaxURLs (this st) ->
  MaxURLs (this st) < Z.of_nat (length (URLs (this st))) ->
  Z.of_nat (length (URLs (this st))) < 2 ^ 62 ->
  GoURL.Parse (TrimRight1 baseSitemapURL "/" +:+ "/") = inl msg ->
  let st' := snd (Write baseSitemapURL stylesheetURL st) in
  exists (evs1 : list event) (r : option string),
    fst (Write baseSitemapURL stylesheetURL st) =
      Done (Some (match r with Some m => PathError m | None => UrlError msg end))
    /\ log st' =
       log st ++ evs1 ++
       [EvWriteFile (GoPath.Join (Dir (this st)) "sitemap_1.xml")
          (document stylesheetURL
             (urlset_data (firstn (Z.to_nat (MaxURLs (this st)))
                             (map (resolved_entry (this st)) (URLs (this st))))))
          420 r]
    /\ write_calls evs1 = [] /\ read_calls evs1 = [].
Proof.
  intros Hdir Hall HM Hgt Hn Hbad st'. subst st'.
  destruct (Write_resolved baseSitemapURL stylesheetURL st Hdir Hall)
    as (w1 & evs1 & Hw & Hr & _ & ->).
  match goal with
  | |- context [emit_phase _ ?st2] =>
      destruct (emit_phase_bad_base baseSitemapURL msg st2) as (r & w & ->)
  end.
  1-4: cbn [this URLs MaxURLs set_URLs set_Stylesheet]; rewrite ?length_map; assumption.
  cbn [fst snd this log URLs MaxURLs Dir Stylesheet set_URLs set_Stylesheet].
  exists evs1, r. rewrite <- app_assoc.
  split; [reflexivity |]. split; [reflexivity |]. split; assumption.
Qed.



End IndexBase.

(** ** The names of the shard files *)

Lemma digits_value_app (a b : string) (acc : Z) :
  digits_value (a +:+ b) acc = digits_value b (digits_value a acc).
Proof.
  revert acc. induction a as [| c a IH]; intros acc; [reflexivity |].
  rewrite append_cons. cbn [digits_value]. apply IH.
Qed.

Lemma all_digits_app (a b : string) :
  GoURL.all_digits (a +:+ b) = GoURL.all_digits a && GoURL.all_digits b.
Proof.
  induction a as [| c a IH]; [reflexivity |].
  rewrite append_cons. cbn [GoURL.all_digits]. rewrite IH. apply andb_assoc.
Qed.

Lemma digit_char_spec (d : Z) :
  0 <= d <= 9 -> is_digit_byte (digit_char d) = true /\ digit_val (digit_char d) = d.
Proof.
  intros H.
  assert (E : byte_of (digit_char d) = 48 + d).
  { unfold byte_of, digit_char. rewrite N_ascii_embedding by lia. lia. }
  unfold is_digit_byte, digit_val. rewrite E. split; [| lia].
  apply andb_true_intro. split; apply Z.leb_le; lia.
Qed.

(** The digits [dec_digits_fuel] puts before [acc] are those of [n]. *)
Lemma dec_digits_fuel_spec (fuel : nat) :
  forall (n : Z) (acc : string),
    0 <= n < 2 ^ Z.of_nat fuel ->
    exists ds, dec_digits_fuel fuel n acc = ds +:+ acc
               /\ GoURL.all_digits ds = true
               /\ digits_value ds 0 = n
               /\ (0 < n -> ds <> EmptyString).
Proof.
  induction fuel as [| fuel IH]; intros n acc Hn.
  - exists EmptyString. change (2 ^ Z.of_nat 0) with 1 in Hn.
    split; [reflexivity |]. split; [reflexivity |]. split; [cbn; lia | lia].
  - cbn [dec_digits_fuel].
    assert (Hd : 0 <= n mod 10 <= 9) by (pose proof (Z.mod_pos_bound n 10); lia).
    destruct (digit_char_spec (n mod 10) Hd) as [Hc Hv].
    destruct (Z.ltb_spec n 10) as [Hlt | Hge].
    + exists (String (digit_char (n mod 10)) EmptyString).
      split; [reflexivity |]. cbn [GoURL.all_digits digits_value]. rewrite Hc, Hv.
      split; [reflexivity |]. split; [rewrite Z.mod_small by lia; lia | discriminate].
    + destruct (IH (n / 10) (String (digit_char (n mod 10)) acc)) as (ds & E & Hall & Hval & _).
      { rewrite Nat2Z.inj_succ, Z.pow_succ_r in Hn by lia.
        split; [apply Z.div_pos; lia |].
        apply Z.div_lt_upper_bound; lia. }
      exists (ds +:+ String (digit_char (n mod 10)) EmptyString).
      rewrite E, str_app_assoc. split; [reflexivity |].
      rewrite all_digits_app, digits_value_app, Hall, Hval.
      cbn [GoURL.all_digits digits_value]. rewrite Hc, Hv.
      split; [reflexivity |]. split; [pose proof (Z.div_mod n 10); lia |].
      intros _. destruct ds; discriminate.
Qed.

Lemma itoa_spec (n : Z) :
  0 <= n ->
  GoURL.all_digits (itoa n) = true /\ digits_value (itoa n) 0 = n
  /\ (0 < n -> itoa n <> EmptyString).
Proof.
  intros Hn. unfold itoa. destruct (Z.ltb_spec n 0) as [? | _]; [lia |].
  unfold dec_digits.
  destruct (dec_digits_fuel_spec (S (Z.to_nat (Z.log2 n))) n EmptyString)
    as (ds & E & Hall & Hval & Hne).
  { split; [exact Hn |]. rewrite Nat2Z.inj_succ, Z2Nat.id by apply Z.log2_nonneg.
    destruct (Z.eq_dec n 0) as [-> | Hnz]; [reflexivity |].
    apply Z.log2_spec. lia. }
  rewrite E, str_app_nil_r. auto.
Qed.

Lemma str_app_length (a b : string) :
  String.length (a +:+ b) = (String.length a + String.length b)%nat.
Proof.
  induction a as [| c a IH]; [reflexivity |].
  rewrite append_cons. cbn [String.length]. rewrite IH. reflexivity.
Qed.

Lemma str_app_inv_tail (a b t : string) : a +:+ t = b +:+ t -> a = b.
Proof.
  intros E.
  assert (L : String.length a = String.length b).
  { apply (f_equal String.length) in E. rewrite !str_app_length in E. lia. }
  revert b E L. induction a as [| c a IH]; intros [| d b] E L; try discriminate L.
  - reflexivity.
  - rewrite !append_cons in E. injection E as -> E. f_equal. apply IH; [exact E |].
    cbn [String.length] in L. lia.
Qed.

Lemma str_app_inv_head (p a b : string) : p +:+ a = p +:+ b -> a = b.
Proof.
  induction p as [| c p IH]; intros E; [exact E |].
  rewrite !append_cons in E. injection E as E. apply IH. exact E.
Qed.

Section ShardNames.
Context {RT : Runtime} {XT : XMLTools}.

(** X14.  Different shards get different file names, and no shard is named
    like the index or like the single file: the name of shard [i] is
    "sitemap_", the decimal digits of [i+1], ".xml". *)
Theorem shard_names_distinct (i j : Z) :
  0 <= i < 2 ^ 62 -> 0 <= j < 2 ^ 62 ->
  (sitemapName i = sitemapName j -> i = j)
  /\ sitemapName i <> "sitemap_index.xml"
  /\ sitemapName i <> "sitemap.xml"
  /\ exists ds, sitemapName i = "sitemap_" +:+ ds +:+ ".xml"
                /\ GoURL.all_digits ds = true /\ digits_value ds 0 = i + 1.
Proof.
  intros Hi Hj. rewrite !sitemapName_small by assumption.
  destruct (itoa_spec (i + 1)) as (Hall & Hval & Hne); [lia |].
  destruct (itoa_spec (j + 1)) as (_ & Hvalj & _); [lia |].
  split; [| split; [| split]].
  - intros E. apply str_app_inv_head, str_app_inv_tail in E.
    rewrite E in Hval. lia.
  - intros E. change "sitemap_index.xml" with ("sitemap_" +:+ "index" +:+ ".xml") in E.
    apply str_app_inv_head, str_app_inv_tail in E.
    rewrite E in Hall. discriminate Hall.
  - intros E.
    change ("sitemap_" +:+ itoa (i + 1) +:+ ".xml")
      with ("sitemap" +:+ String "_" (itoa (i + 1) +:+ ".xml")) in E.
    change "sitemap.xml" with ("sitemap" +:+ ".xml") in E.
    apply str_app_inv_head in E. discriminate E.
  - exists (itoa (i + 1)). auto.
Qed.

End ShardNames.

(** ** The trace of [Write] *)

Lemma wrap64_range (z : Z) : - 2 ^ 63 <= wrap64 z < 2 ^ 63.
Proof.
  unfold wrap64. pose proof (Z.mod_pos_bound (z + 2 ^ 63) (2 ^ 64)). lia.
Qed.

Lemma clock_reads_none (evs : list event) :
  Forall (fun ev => match ev with EvNow _ => False | _ => True end) evs ->
  clock_reads evs = [].
Proof.
  induction 1 as [| ev evs Hev _ IH]; [reflexivity |].
  destruct ev; try contradiction; exact IH.
Qed.

Lemma clock_reads_file_reads (evs : list event) :
  Forall is_file_read evs -> clock_reads evs = [].
Proof.
  induction 1 as [| ev evs Hev _ IH]; [reflexivity |].
  destruct ev; try contradiction; exact IH.
Qed.

Section Trace.
Context {RT : Runtime} {XT : XMLTools}.

(** The loop over the shards, whatever the settings: it writes files and
    reads the clock; when it gets to its end, every write went through,
    and the index entries it made carry the resolved names of the shards
    and the dates the clock showed, one reading per shard. *)
Lemma writeShards_trace (baseSitemapURL : string) (k : nat) :
  forall (i : Z) (sitemaps : list Sitemap) (st : St),
    0 <= i -> i + Z.of_nat k < 2 ^ 63 ->
    exists (r : outcome (error + list Sitemap)) (w : World) (ws : list event),
      writeShards k i baseSitemapURL sitemaps st = (r, mkSt (this st) w (log st ++ ws))
      /\ Forall is_write_step ws
      /\ forall sitemaps', r = Done (inr sitemaps') ->
           Forall write_succeeded ws
           /\ exists new,
                sitemaps' = sitemaps ++ new
                /\ Forall2 (fun j m => resolveSitemapURL baseSitemapURL (sitemapName j)
                                       = inr (sm_Loc m))
                           (seqZ i (Z.of_nat k)) new
                /\ map sm_LastMod new = map Format_date (clock_reads ws).
Proof.
  induction k as [| k IH]; intros i sitemaps st Hi Hk.
  - exists (Done (inr sitemaps)), (world st), []. cbn [writeShards]. unfold ret.
    rewrite app_nil_r, St_eta. split; [reflexivity |]. split; [constructor |].
    intros sitemaps' [= <-]. split; [constructor |].
    exists []. rewrite app_nil_r. split; [reflexivity |]. split; [constructor | reflexivity].
  - cbn [writeShards]. unfold bind at 1, get_this at 1.
    destruct (slice _ _ _) as [urlsSlice |]; cycle 1.
    { exists (Panic "slice bounds out of range"), (world st), []. unfold panic.
      rewrite app_nil_r, St_eta. split; [reflexivity |]. split; [constructor |].
      intros ? [=]. }
    unfold bind at 1.
    destruct (writeSitemapFile_run (sitemapName i) urlsSlice st) as (r0 & w & _ & ->).
    set (ev := EvWriteFile _ _ 420 r0).
    destruct r0 as [e |]; cbn [option_map].
    { eexists _, w, [ev]. split; [reflexivity |].
      split; [repeat constructor |]. intros ? [=]. }
    destruct (resolveSitemapURL baseSitemapURL (sitemapName i)) as [e | sitemapURL] eqn:Hres.
    { eexists _, w, [ev]. split; [reflexivity |].
      split; [repeat constructor |]. intros ? [=]. }
    unfold bind at 1, Now at 1, syscall at 1. cbn [this world log].
    destruct (time_Now w) as [t w'].
    assert (Ei : int_add i 1 = i + 1) by (unfold int_add; apply wrap64_id; lia).
    rewrite Ei.
    destruct (IH (i + 1) (sitemaps ++ [mkSitemap sitemapURL (Format_date t)])
                (mkSt (this st) w' ((log st ++ [ev]) ++ [EvNow t])))
      as (r' & w'' & ws' & Hrun & Hsteps & Hok); [lia | lia |].
    cbn [this world log] in Hrun. rewrite Hrun.
    exists r', w'', ([ev; EvNow t] ++ ws'). rewrite <- !app_assoc.
    split; [reflexivity |].
    split; [repeat constructor; exact Hsteps |].
    intros sitemaps' ->. destruct (Hok sitemaps' eq_refl) as (Hsucc & new & -> & Hloc & Hdates).
    split; [repeat constructor; exact Hsucc |].
    exists (mkSitemap sitemapURL (Format_date t) :: new).
    rewrite <- app_assoc. split; [reflexivity |].
    split.
    + rewrite seqZ_cons by lia. constructor; [exact Hres |].
      replace (Z.pred (Z.of_nat (S k))) with (Z.of_nat k) by lia.
      replace (Z.succ i) with (i + 1) by lia. exact Hloc.
    + cbn [map app]. rewrite Hdates. reflexivity.
Qed.

(** [writeSitemapIndex], whatever the settings. *)
Lemma writeSitemapIndex_trace (baseSitemapURL : string) (st : St) :
  exists (r : outcome (option error)) (w : World) (ws : list event),
    writeSitemapIndex baseSitemapURL st = (r, mkSt (this st) w (log st ++ ws))
    /\ Forall is_write_step ws
    /\ (r = Done None ->
        Forall write_succeeded ws
        /\ exists (fileCount : Z) (sitemaps : list Sitemap) (ws0 : list event),
             int_div (int_sub (int_add (Z.of_nat (length (URLs (this st))))
                                       (MaxURLs (this st))) 1)
                     (MaxURLs (this st)) = Some fileCount
             /\ ws = ws0 ++ [EvWriteFile (index_path (this st))
                               (document (Stylesheet (this st)) (sitemapindex_data sitemaps))
                               420 None]
             /\ Forall2 (fun j m => resolveSitemapURL baseSitemapURL (sitemapName j)
                                    = inr (sm_Loc m))
                        (seqZ 0 (Z.of_nat (Z.to_nat fileCount))) sitemaps
             /\ map sm_LastMod sitemaps = map Format_date (clock_reads ws)).
Proof.
  unfold writeSitemapIndex. unfold bind at 1, get_this at 1.
  destruct (int_div _ _) as [fileCount |] eqn:Hdiv; cycle 1.
  { exists (Panic "integer divide by zero"), (world st), []. unfold panic.
    rewrite app_nil_r, St_eta. split; [reflexivity |]. split; [constructor |].
    intros [=]. }
  assert (Hfc : fileCount < 2 ^ 63).
  { unfold int_div in Hdiv. destruct (_ =? 0); [discriminate |].
    injection Hdiv as <-. apply wrap64_range. }
  unfold bind at 1.
  destruct (writeShards_trace baseSitemapURL (Z.to_nat fileCount) 0 [] st)
    as (r & w & ws & -> & Hsteps & Hok); [lia | lia |].
  destruct r as [[e | sitemaps] | msg].
  - eexists _, w, ws. split; [reflexivity |]. split; [exact Hsteps |]. intros [=].
  - destruct (Hok sitemaps eq_refl) as (Hsucc & new & Hnew & Hloc & Hdates).
    cbn [app] in Hnew. subst new.
    unfold MarshalIndent_SitemapIndex, bind, WriteFile, syscall, ret.
    cbn [this world log].
    destruct (os_WriteFile _ _ 420 w) as [r w'] eqn:Hw.
    match type of Hw with
    | os_WriteFile ?p ?d 420 w = _ => set (ev := EvWriteFile p d 420 r)
    end.
    eexists _, w', (ws ++ [ev]). rewrite <- app_assoc. split; [reflexivity |].
    split; [apply Forall_app; split; [exact Hsteps | repeat constructor] |].
    destruct r as [e |]; cbn [option_map]; [intros [=] | intros _].
    split; [apply Forall_app; split; [exact Hsucc | repeat constructor] |].
    exists fileCount, sitemaps, ws. split; [reflexivity |]. split; [reflexivity |].
    split; [exact Hloc |].
    rewrite clock_reads_app. cbn [clock_reads flat_map app]. rewrite app_nil_r.
    exact Hdates.
  - eexists _, w, ws. split; [reflexivity |]. split; [exact Hsteps |]. intros [=].
Qed.

(** The emission phase, whatever the settings: first the writes, with
    the clock readings between them, then the reads of the validation,
    which only come when every write went through. *)
Lemma emit_phase_trace (baseSitemapURL : string) (st : St) :
  exists (r : outcome (option error)) (w : World) (ws rs : list event),
    emit_phase baseSitemapURL st = (r, mkSt (this st) w (log st ++ ws ++ rs))
    /\ Forall is_write_step ws
    /\ Forall is_file_read rs
    /\ (rs <> [] -> Forall write_succeeded ws)
    /\ (r = Done None -> rs <> []).
Proof.
  unfold emit_phase. unfold bind at 1, get_this at 1.
  destruct (_ <=? _).
  - unfold bind at 1.
    destruct (writeSitemapFile_run "sitemap.xml" (URLs (this st)) st) as (r & w & _ & ->).
    set (ev := EvWriteFile _ _ 420 r).
    destruct r as [e |]; cbn [option_map].
    + eexists _, w, [ev], []. split; [reflexivity |].
      split; [repeat constructor |]. split; [constructor |].
      split; [intros H; contradiction | intros [=]].
    + destruct (validateXMLFile_run (GoPath.Join (Dir (this st)) "sitemap.xml") false
                  (mkSt (this st) w (log st ++ [ev]))) as (res & w' & _ & Hrun).
      rewrite Hrun. cbn [this world log]. rewrite <- app_assoc.
      eexists _, w', [ev], [_]. split; [reflexivity |].
      split; [repeat constructor |]. split; [repeat constructor |].
      split; [intros _; repeat constructor | intros _; discriminate].
  - unfold bind at 1.
    destruct (writeSitemapIndex_trace baseSitemapURL st) as (r & w & ws & -> & Hsteps & Hok).
    destruct r as [[e |] | msg].
    + eexists _, w, ws, []. rewrite app_nil_r. split; [reflexivity |].
      split; [exact Hsteps |]. split; [constructor |].
      split; [intros H; contradiction | intros [=]].
    + destruct (Hok eq_refl) as (Hsucc & _).
      destruct (validateSitemapIndexAndFiles_run (mkSt (this st) w (log st ++ ws)))
        as (res & w' & res0 & rest & Hrun & _).
      destruct (validateSitemapIndexAndFiles_reads (mkSt (this st) w (log st ++ ws)))
        as (res' & w'' & rs & Hrun' & _ & _ & _ & Hall).
      rewrite Hrun in Hrun'. injection Hrun' as <- <- E.
      apply app_inv_head in E. subst rs.
      rewrite Hrun. cbn [this world log]. rewrite <- app_assoc.
      eexists _, w', ws, _. split; [reflexivity |].
      split; [exact Hsteps |]. split; [exact Hall |].
      split; [intros _; exact Hsucc | intros _; discriminate].
    + eexists _, w, ws, []. rewrite app_nil_r. split; [reflexivity |].
      split; [exact Hsteps |]. split; [constructor |].
      split; [intros H; contradiction | intros [=]].
Qed.

(** The first step of [Write], event by event. *)
Lemma ensure_dir_trace (stylesheetURL : string) (st : St) :
  exists (notExist : bool) (r : option string) (w : World),
    ensure_dir stylesheetURL st =
      (Done (if notExist then r else None),
       mkSt (set_Stylesheet (this st) stylesheetURL) w
         (log st ++ EvStat (Dir (this st)) notExist
                 :: (if notExist then [EvMkdirAll (Dir (this st)) 493 r] else []))).
Proof.
  unfold ensure_dir, bind, get_this, set_this, Stat_IsNotExist, MkdirAll, syscall, ret.
  cbn [this world log].
  destruct (os_Stat_IsNotExist (Dir (this st)) (world st)) as [notExist w1].
  destruct notExist.
  - cbn [this world log]. destruct (os_MkdirAll (Dir (this st)) 493 w1) as [r w2].
    exists true, r, w2. rewrite <- app_assoc. reflexivity.
  - exists false, None, w1. reflexivity.
Qed.

(** X5.  [Write] works in this order, whatever the settings and the world:
    one [os.Stat] of the directory; [os.MkdirAll] with mode 0755 if the
    directory is missing, and nothing more if that fails; then the writes,
    mode 0644, with the clock readings of the index between them; then the
    reads of the validation, which start only when every write went
    through.  It returns nil only after it has read back what it wrote. *)
Theorem Write_event_order (baseSitemapURL stylesheetURL : string) (st : St) :
  let st' := snd (Write baseSitemapURL stylesheetURL st) in
  exists (notExist : bool) (r : option string) (ws rs : list event),
    log st' =
      log st ++ EvStat (Dir (this st)) notExist
             :: (if notExist then [EvMkdirAll (Dir (this st)) 493 r] else [])
             ++ ws ++ rs
    /\ (notExist = true -> r <> None -> ws = [] /\ rs = [])
    /\ Forall is_write_step ws
    /\ Forall is_file_read rs
    /\ (rs <> [] -> Forall write_succeeded ws)
    /\ (fst (Write baseSitemapURL stylesheetURL st) = Done None -> rs <> []).
Proof.
  intros st'. subst st'. rewrite Write_phases.
  destruct (ensure_dir_trace stylesheetURL st) as (notExist & r & w1 & ->).
  exists notExist, r.
  assert (Hstop : forall (res : outcome (option error)) (st1 : St) (pre : list event),
             res <> Done None -> log st1 = log st ++ pre ->
             exists ws rs : list event,
               log (snd (res, st1)) = log st ++ pre ++ ws ++ rs
               /\ (notExist = true -> r <> None -> ws = [] /\ rs = [])
               /\ Forall is_write_step ws /\ Forall is_file_read rs
               /\ (rs <> [] -> Forall write_succeeded ws)
               /\ (fst (res, st1) = Done None -> rs <> [])).
  { intros res st1 pre Hres Hlog. exists [], []. cbn [fst snd]. rewrite !app_nil_r.
    split; [exact Hlog |]. split; [auto |]. split; [constructor |]. split; [constructor |].
    split; [intros H; contradiction | intros H; contradiction]. }
  set (pre := EvStat (Dir (this st)) notExist
              :: (if notExist then [EvMkdirAll (Dir (this st)) 493 r] else [])).
  change (log st ++ EvStat (Dir (this st)) notExist
                 :: (if notExist then [EvMkdirAll (Dir (this st)) 493 r] else []))
    with (log st ++ pre).
  assert (Hgoal : forall X : list event,
             EvStat (Dir (this st)) notExist
             :: (if notExist then [EvMkdirAll (Dir (this st)) 493 r] else []) ++ X
             = pre ++ X) by reflexivity.
  setoid_rewrite Hgoal.
  destruct (if notExist then r else None) as [e |] eqn:Hmk.
  { apply Hstop; [discriminate | reflexivity]. }
  rewrite prepare_phase_run. cbn [this world log].
  destruct (snd (resolve_entries _ _)) as [e |].
  { apply Hstop; [discriminate | reflexivity]. }
  match goal with
  | |- context [emit_phase _ ?st2] =>
      destruct (emit_phase_trace baseSitemapURL st2)
        as (res & w & ws & rs & -> & Hsteps & Hreads & Hsucc & Hnil)
  end.
  cbn [fst snd this log]. exists ws, rs. rewrite <- app_assoc.
  split; [reflexivity |].
  split; [intros -> Hr; destruct r; [discriminate Hmk | contradiction] |].
  auto.
Qed.

End Trace.

(** ** What the index lists *)

Lemma written_file_reads (rs : list event) : Forall is_file_read rs -> written rs = [].
Proof.
  induction 1 as [| ev rs Hev _ IH]; [reflexivity |].
  destruct ev; try contradiction; exact IH.
Qed.

Lemma written_app (a b : list event) : written (a ++ b) = written a ++ written b.
Proof. unfold written. apply flat_map_app. Qed.

Lemma Forall2_seqZ_impl {B : Type} (P Q : Z -> B -> Prop) (a n : Z) (l : list B) :
  (forall j m, a <= j < a + n -> P j m -> Q j m) ->
  Forall2 P (seqZ a n) l -> Forall2 Q (seqZ a n) l.
Proof.
  intros H HP. apply Forall2_same_length_lookup in HP as [Hlen HP].
  apply Forall2_same_length_lookup. split; [exact Hlen |].
  intros i x y Hx Hy. apply H; [| exact (HP i x y Hx Hy)].
  apply list_elem_of_lookup_2, elem_of_seqZ in Hx. exact Hx.
Qed.

Section IndexEntries.
Context {RT : Runtime} {XT : XMLTools}.

Lemma resolve_entries_error (s : SitemapOptions) (l : list SitemapURL) (e : error) :
  snd (resolve_entries s l) = Some e -> exists msg, e = UrlError msg.
Proof.
  revert e. induction l as [| u l IH]; intros e R; [discriminate R |].
  cbn [resolve_entries] in R.
  destruct (resolveURL s (Loc u)) as [e' | fullURL] eqn:Ru.
  - cbn in R. injection R as <-. eapply resolveURL_error; eauto.
  - destruct (resolve_entries s l). cbn in *. eauto.
Qed.

Lemma emit_phase_indexed (baseSitemapURL : string) (st : St) :
  MaxURLs (this st) < Z.of_nat (length (URLs (this st))) ->
  emit_phase baseSitemapURL st =
  (err <- writeSitemapIndex baseSitemapURL ;;
   match err with
   | Some e => ret (Some e)
   | None => validateSitemapIndexAndFiles
   end) st.
Proof.
  intros Hgt. unfold emit_phase. unfold bind at 1, get_this at 1.
  destruct (Z.leb_spec (Z.of_nat (length (URLs (this st)))) (MaxURLs (this st)));
    [lia | reflexivity].
Qed.

(** The emission phase of the indexed layout, when it got as far as
    validating. *)
Lemma emit_phase_index (baseSitemapURL : string) (st : St) :
  0 < MaxURLs (this st) ->
  MaxURLs (this st) < Z.of_nat (length (URLs (this st))) ->
  Z.of_nat (length (URLs (this st))) < 2 ^ 62 ->
  emitted (fst (emit_phase baseSitemapURL st)) ->
  let s := this st in
  let N := (Z.of_nat (length (URLs s)) + MaxURLs s - 1) / MaxURLs s in
  exists (w : World) (ws rs : list event) (sitemaps : list Sitemap),
    snd (emit_phase baseSitemapURL st) =
      mkSt s w (log st ++ ws
                ++ EvWriteFile (index_path s)
                     (document (Stylesheet s) (sitemapindex_data sitemaps)) 420 None
                :: rs)
    /\ Forall is_write_step ws
    /\ Forall is_file_read rs
    /\ Forall2 (fun j m => resolveSitemapURL baseSitemapURL (sitemapName j) = inr (sm_Loc m))
               (seqZ 0 N) sitemaps
    /\ map sm_LastMod sitemaps = map Format_date (clock_reads ws).
Proof.
  intros HM Hgt Hn Hem s N. subst s N.
  set (M := MaxURLs (this st)) in *. set (n := Z.of_nat (length (URLs (this st)))) in *.
  rewrite emit_phase_indexed in Hem |- * by exact Hgt.
  revert Hem. unfold bind.
  destruct (writeSitemapIndex_run baseSitemapURL st) as (r1 & w1 & evs1 & Hrun1 & _ & _ & Hr1);
    [fold M; lia | fold n; lia |].
  destruct (writeSitemapIndex_trace baseSitemapURL st) as (r & w & ws & Hrun & Hsteps & Hok).
  rewrite Hrun in Hrun1. injection Hrun1 as -> -> E. apply app_inv_head in E. subst evs1.
  rewrite Hrun.
  destruct r1 as [e |].
  { intros Hem. cbn in Hem. destruct e; cbn in Hr1; contradiction. }
  intros _.
  destruct (Hok eq_refl) as (_ & fileCount & sitemaps & ws0 & Hdiv & -> & Hloc & Hdates).
  fold M n in Hdiv. rewrite fileCount_value in Hdiv by lia. injection Hdiv as <-.
  destruct (validateSitemapIndexAndFiles_reads
              (mkSt (this st) w1 (log st ++ ws0 ++ [EvWriteFile (index_path (this st))
                 (document (Stylesheet (this st)) (sitemapindex_data sitemaps)) 420 None])))
    as (res & w' & rs & -> & _ & _ & _ & Hall).
  cbn [snd this world log].
  exists w', ws0, rs, sitemaps. rewrite <- !app_assoc. cbn [app].
  split; [reflexivity |].
  split; [apply Forall_app in Hsteps as [H _]; exact H |].
  split; [exact Hall |].
  assert (HN : 0 <= (n + M - 1) / M) by (apply Z.div_pos; lia).
  rewrite Z2Nat.id in Hloc by exact HN.
  split; [exact Hloc |].
  rewrite Hdates, clock_reads_app. cbn [clock_reads flat_map app]. rewrite app_nil_r.
  reflexivity.
Qed.

(** X12.  In the indexed layout the index file, written last, lists the shards
    in their order: entry [i] has the location [resolveSitemapURL] gives
    for sitemap_i.xml against [baseSitemapURL], and as [lastmod] the date
    of a clock reading of its own, made after the shard was written; the
    clock is not read for anything else. *)
Theorem index_lists_shards_with_dates (baseSitemapURL stylesheetURL : string) (st : St) :
  0 < MaxURLs (this st) ->
  MaxURLs (this st) < Z.of_nat (length (URLs (this st))) ->
  Z.of_nat (length (URLs (this st))) < 2 ^ 62 ->
  emitted (fst (Write baseSitemapURL stylesheetURL st)) ->
  let st' := snd (Write baseSitemapURL stylesheetURL st) in
  let N := (Z.of_nat (length (URLs (this st))) + MaxURLs (this st) - 1)
           / MaxURLs (this st) in
  exists (evs : list event) (sitemaps : list Sitemap),
    log st' = log st ++ evs
    /\ last (written evs) =
       Some (GoPath.Join (Dir (this st)) "sitemap_index.xml",
             document stylesheetURL (sitemapindex_data sitemaps))
    /\ Forall2 (fun i m => resolveSitemapURL baseSitemapURL
                             ("sitemap_" +:+ itoa i +:+ ".xml") = inr (sm_Loc m))
               (seqZ 1 N) sitemaps
    /\ map sm_LastMod sitemaps = map Format_date (clock_reads evs).
Proof.
  intros HM Hgt Hn Hem st' N. subst st'.
  destruct (Write_run baseSitemapURL stylesheetURL st)
    as (dir_err & w1 & evs1 & Hens & _ & _ & HW).
  destruct (ensure_dir_run stylesheetURL st) as (r0 & w0 & evs0 & Hens0 & _ & _ & Hnow).
  rewrite Hens in Hens0. injection Hens0 as <- <- E. apply app_inv_head in E. subst evs0.
  rewrite HW in Hem |- *. clear HW.
  destruct dir_err as [e |]; [cbn in Hem; contradiction |].
  cbv zeta in Hem |- *.
  destruct (snd (resolve_entries (this st) (URLs (this st)))) as [e |] eqn:R.
  { exfalso. apply resolve_entries_error in R as [msg ->]. exact Hem. }
  set (s2 := set_URLs _ _) in *.
  assert (Hlen : length (URLs s2) = length (URLs (this st))).
  { subst s2. cbn [URLs set_URLs]. apply resolve_entries_length. }
  destruct (emit_phase_index baseSitemapURL (mkSt s2 w1 (log st ++ evs1)))
    as (w & ws & rs & sitemaps & Hsnd & Hsteps & Hreads & Hloc & Hdates).
  1-3: cbn [this]; rewrite ?Hlen; subst s2; cbn [MaxURLs set_URLs set_Stylesheet]; assumption.
  { exact Hem. }
  cbn [this world log] in Hsnd, Hloc. rewrite Hsnd. cbn [log].
  rewrite Hlen in Hloc. change (MaxURLs s2) with (MaxURLs (this st)) in Hloc. fold N in Hloc.
  change (Stylesheet s2) with stylesheetURL. change (index_path s2) with (index_path (this st)).
  eexists (evs1 ++ ws ++ _ :: rs), sitemaps. rewrite <- !app_assoc.
  split; [reflexivity |]. split; [| split].
  - rewrite !written_app. cbn [written flat_map app].
    fold (written rs). rewrite (written_file_reads rs Hreads).
    rewrite !app_assoc. apply last_snoc.
  - rewrite seqZ_shift. apply Forall2_fmap_l.
    eapply Forall2_seqZ_impl; [| exact Hloc].
    intros j m Hj Hres. unfold compose. cbn beta in Hres |- *.
    assert (HN : N <= Z.of_nat (length (URLs (this st)))).
    { subst N. apply Z.div_le_upper_bound; nia. }
    rewrite sitemapName_small in Hres by lia.
    replace (1 + j) with (j + 1) by lia. exact Hres.
  - rewrite !clock_reads_app, (clock_reads_none evs1 Hnow).
    cbn [clock_reads flat_map app]. fold (clock_reads rs).
    rewrite (clock_reads_file_reads rs Hreads), app_nil_r. exact Hdates.
Qed.

End IndexEntries.

(** ** [MaxFileSize] *)

Section MaxFileSizeUnused.
Context {RT : Runtime} {XT : XMLTools}.
Context (v : Z).

Lemma same_run_ret {A : Type} (a : A) : same_run v (ret a) (ret a).
Proof. intros st. reflexivity. Qed.

Lemma same_run_panic {A : Type} (msg : string) :
  same_run v (panic (A:=A) msg) (panic msg).
Proof. intros st. reflexivity. Qed.

Lemma same_run_syscall {A : Type} (f : World -> A * World) (ev : A -> event) :
  same_run v (syscall f ev) (syscall f ev).
Proof.
  intros st. unfold syscall, with_MaxFileSize. cbn [this world log].
  destruct (f (world st)) as [a w]. reflexivity.
Qed.

Lemma same_run_set_this (s : SitemapOptions) :
  same_run v (set_this s) (set_this (set_MaxFileSize s v)).
Proof. intros st. reflexivity. Qed.

Lemma same_run_bind {A B : Type} (m m' : M A) (k k' : A -> M B) :
  same_run v m m' -> (forall a, same_run v (k a) (k' a)) ->
  same_run v (bind m k) (bind m' k').
Proof.
  intros Hm Hk st. unfold bind. rewrite Hm.
  destruct (m st) as [[a | msg] st1]; cbn [fst snd]; [apply Hk | reflexivity].
Qed.

Lemma same_run_get_this {B : Type} (k k' : SitemapOptions -> M B) :
  (forall s, same_run v (k s) (k' (set_MaxFileSize s v))) ->
  same_run v (bind get_this k) (bind get_this k').
Proof.
  intros Hk st. unfold bind, get_this. cbn [this with_MaxFileSize].
  rewrite <- (Hk (this st) st). reflexivity.
Qed.

Lemma resolveURL_set_MaxFileSize (s : SitemapOptions) (loc : string) :
  resolveURL (set_MaxFileSize s v) loc = resolveURL s loc.
Proof. reflexivity. Qed.

Lemma same_run_AddURL (url : SitemapURL) : same_run v (AddURL url) (AddURL url).
Proof.
  unfold AddURL. apply same_run_bind.
  - destruct (String.eqb (LastMod url) "").
    + apply same_run_bind; [apply same_run_syscall | intros; apply same_run_ret].
    + destruct (Parse_date (LastMod url)).
      * apply same_run_bind; [apply same_run_syscall | intros now].
        destruct (After t now); [| apply same_run_ret].
        apply same_run_bind; [apply same_run_syscall | intros; apply same_run_ret].
      * apply same_run_bind; [apply same_run_syscall | intros; apply same_run_ret].
  - intros url'. apply same_run_get_this. intros s. apply same_run_set_this.
Qed.

Lemma same_run_AddURLs (urls : list SitemapURL) : same_run v (AddURLs urls) (AddURLs urls).
Proof.
  induction urls as [| url urls IH]; [apply same_run_ret |].
  cbn [AddURLs]. apply same_run_bind; [apply same_run_AddURL | intros _; exact IH].
Qed.

Lemma same_run_prepareURLs (k : nat) :
  forall i : nat, same_run v (prepareURLs k i) (prepareURLs k i).
Proof.
  induction k as [| k IH]; intros i; [apply same_run_ret |].
  cbn [prepareURLs]. apply same_run_get_this. intros s.
  cbn [URLs set_MaxFileSize]. destruct (URLs s !! i) as [u |]; [| apply same_run_panic].
  rewrite resolveURL_set_MaxFileSize.
  destruct (resolveURL s (Loc u)) as [err0 | val0]; [apply same_run_ret |].
  apply same_run_bind; [apply same_run_set_this | intros _; apply IH].
Qed.

Lemma same_run_writeSitemapFile (filename : string) (urls : list SitemapURL) :
  same_run v (writeSitemapFile filename urls) (writeSitemapFile filename urls).
Proof.
  unfold writeSitemapFile. destruct (MarshalIndent_URLSet _) as [err0 | val0]; [apply same_run_ret |].
  apply same_run_get_this. intros s.
  apply same_run_bind; [apply same_run_syscall | intros; apply same_run_ret].
Qed.

Lemma same_run_writeShards (baseSitemapURL : string) (k : nat) :
  forall (i : Z) (sitemaps : list Sitemap),
    same_run v (writeShards k i baseSitemapURL sitemaps)
               (writeShards k i baseSitemapURL sitemaps).
Proof.
  induction k as [| k IH]; intros i sitemaps; [apply same_run_ret |].
  cbn [writeShards]. apply same_run_get_this. intros s.
  cbn [URLs MaxURLs set_MaxFileSize].
  destruct (slice _ _ _) as [val0 |]; [| apply same_run_panic].
  apply same_run_bind; [apply same_run_writeSitemapFile | intros [e |]].
  { apply same_run_ret. }
  destruct (resolveSitemapURL _ _) as [err1 | val1]; [apply same_run_ret |].
  apply same_run_bind; [apply same_run_syscall | intros; apply IH].
Qed.

Lemma same_run_writeSitemapIndex (baseSitemapURL : string) :
  same_run v (writeSitemapIndex baseSitemapURL) (writeSitemapIndex baseSitemapURL).
Proof.
  unfold writeSitemapIndex. apply same_run_get_this. intros s.
  cbn [URLs MaxURLs Dir Stylesheet set_MaxFileSize].
  destruct (int_div _ _) as [val0 |]; [| apply same_run_panic].
  apply same_run_bind; [apply same_run_writeShards | intros [e | sitemaps]].
  { apply same_run_ret. }
  destruct (MarshalIndent_SitemapIndex _) as [err1 | val1]; [apply same_run_ret |].
  apply same_run_bind; [apply same_run_syscall | intros; apply same_run_ret].
Qed.

Lemma same_run_validateXMLFile (filePath : string) (isIndex : bool) :
  same_run v (validateXMLFile filePath isIndex) (validateXMLFile filePath isIndex).
Proof.
  unfold validateXMLFile. apply same_run_bind; [apply same_run_syscall | intros [e | data]].
  { apply same_run_ret. }
  destruct (xsd_Parse _) as [err0 | val0]; [apply same_run_ret |].
  destruct (libxml2_Parse _) as [err1 | val1]; [apply same_run_ret |].
  destruct (schema_Validate _ _) as [val2 |]; apply same_run_ret.
Qed.

Lemma same_run_validateShards (sitemaps : list Sitemap) :
  same_run v (validateShards sitemaps) (validateShards sitemaps).
Proof.
  induction sitemaps as [| sitemap rest IH]; [apply same_run_ret |].
  cbn [validateShards]. destruct (GoURL.Parse _) as [err0 | val0]; [apply same_run_ret |].
  apply same_run_get_this. intros s. cbn [Dir set_MaxFileSize].
  apply same_run_bind; [apply same_run_validateXMLFile | intros [e |]].
  { apply same_run_ret. }
  exact IH.
Qed.

Lemma same_run_validateSitemapIndexAndFiles :
  same_run v validateSitemapIndexAndFiles validateSitemapIndexAndFiles.
Proof.
  unfold validateSitemapIndexAndFiles. apply same_run_get_this. intros s.
  cbn [Dir set_MaxFileSize].
  apply same_run_bind; [apply same_run_validateXMLFile | intros [e |]].
  { apply same_run_ret. }
  apply same_run_bind; [apply same_run_syscall | intros [e | indexData]].
  { apply same_run_ret. }
  destruct (xml_Unmarshal_SitemapIndex _) as [err1 | val1]; [apply same_run_ret |].
  apply same_run_validateShards.
Qed.

Lemma same_run_Write (baseSitemapURL stylesheetURL : string) :
  same_run v (Write baseSitemapURL stylesheetURL) (Write baseSitemapURL stylesheetURL).
Proof.
  unfold Write. apply same_run_get_this. intros s. cbn [Dir set_MaxFileSize].
  apply same_run_bind; [apply same_run_set_this | intros _].
  apply same_run_bind; [apply same_run_syscall | intros notExist].
  apply same_run_bind.
  { destruct notExist; [apply same_run_syscall | apply same_run_ret]. }
  intros [e |]; [apply same_run_ret |].
  apply same_run_get_this. intros s1. cbn [URLs set_MaxFileSize].
  apply same_run_bind; [apply same_run_prepareURLs | intros [e |]].
  { apply same_run_ret. }
  apply same_run_get_this. intros s2. cbn [URLs MaxURLs Dir set_MaxFileSize].
  destruct (_ <=? _).
  - apply same_run_bind; [apply same_run_writeSitemapFile | intros [e |]].
    + apply same_run_ret.
    + apply same_run_validateXMLFile.
  - apply same_run_bind; [apply same_run_writeSitemapIndex | intros [e |]].
    + apply same_run_ret.
    + apply same_run_validateSitemapIndexAndFiles.
Qed.

(** X19.  [MaxFileSize] is kept and never looked at: with any other value in
    that field, [AddURLs] and [Write] return the same, make the same
    calls with the same data, and leave the same receiver but for that
    field.  No file is ever cut to a size. *)
Theorem MaxFileSize_has_no_effect (baseSitemapURL stylesheetURL : string)
  (urls : list SitemapURL) (st : St) :
  Write baseSitemapURL stylesheetURL (with_MaxFileSize v st) =
    (fst (Write baseSitemapURL stylesheetURL st),
     with_MaxFileSize v (snd (Write baseSitemapURL stylesheetURL st)))
  /\ AddURLs urls (with_MaxFileSize v st) =
     (fst (AddURLs urls st), with_MaxFileSize v (snd (AddURLs urls st))).
Proof. split; [apply same_run_Write | apply same_run_AddURLs]. Qed.

End MaxFileSizeUnused.

(** ** From the entries given to the file written *)

Lemma written_clock_reads (evs : list event) : Forall is_clock_read evs -> written evs = [].
Proof.
  induction 1 as [| ev evs Hev _ IH]; [reflexivity |].
  destruct ev; try contradiction; exact IH.
Qed.

Section Pipeline.
Context {RT : Runtime} {XT : XMLTools}.

Lemma resolve_entries_none (s : SitemapOptions) (l : list SitemapURL) :
  snd (resolve_entries s l) = None -> Forall (resolvable s) l.
Proof.
  induction l as [| u l IH]; intros H; [constructor |].
  cbn [resolve_entries] in H.
  destruct (resolveURL s (Loc u)) as [e | fullURL] eqn:Hu; [discriminate H |].
  destruct (resolve_entries s l) as [l' r]. cbn [snd] in *.
  constructor; [exists fullURL; exact Hu | apply IH; exact H].
Qed.

(** X21.  A sitemap made the usual way: a new [SitemapOptions], the entries
    added, [Write] called.  With at most 33333 entries, when [Write] gets
    to validating, the one file written is sitemap.xml in the directory
    given, and it has one entry per entry added, in their order: the
    location resolved against the base URL with its trailing slashes cut,
    change frequency and priority as given, and as [LastMod] the one
    given or the date of a clock reading. *)
Theorem add_then_write_single_file (dir baseURL baseSitemapURL stylesheetURL : string)
  (urls : list SitemapURL) (w : World) :
  let s0 := NewSitemapOptions dir baseURL in
  let st1 := snd (AddURLs urls (mkSt s0 w [])) in
  let st2 := snd (Write baseSitemapURL stylesheetURL st1) in
  Z.of_nat (length urls) <= 33333 ->
  emitted (fst (Write baseSitemapURL stylesheetURL st1)) ->
  exists es : list SitemapURL,
    written (log st2) =
      [(GoPath.Join dir "sitemap.xml", document stylesheetURL (urlset_data es))]
    /\ URLs (this st2) = es
    /\ Forall2 (fun u e =>
                  resolveURL s0 (Loc u) = inr (Loc e)
                  /\ ChangeFreq e = ChangeFreq u
                  /\ Priority e = Priority u
                  /\ (LastMod e = LastMod u
                      \/ exists t, In t (clock_reads (log st2))
                                   /\ LastMod e = Format_date t))
               urls es.
Proof.
  intros s0 st1 st2 Hlen Hem. subst st2.
  destruct (AddURLs_clock urls (mkSt s0 w [])) as (added & w1 & evs0 & Hadd & Hstored & Hclock & _).
  cbn [this world log app] in Hadd.
  assert (Hst1 : st1 = mkSt (set_URLs s0 added) w1 evs0) by (subst st1; rewrite Hadd; reflexivity).
  clearbody st1. subst st1.
  set (s1 := set_URLs s0 added) in *.
  destruct (Write_run baseSitemapURL stylesheetURL (mkSt s1 w1 evs0))
    as (dir_err & w2 & evs1 & Hens & _ & _ & HW).
  assert (Hall : Forall (resolvable s1) added).
  { rewrite HW in Hem. destruct dir_err as [e |]; [cbn in Hem; contradiction |].
    cbv zeta in Hem. cbn [this URLs] in Hem. change (URLs s1) with added in Hem.
    destruct (snd (resolve_entries s1 added)) as [e |] eqn:R.
    - exfalso. apply resolve_entries_error in R as [msg ->]. exact Hem.
    - apply resolve_entries_none. exact R. }
  assert (Hn : length added = length urls).
  { symmetry. eapply Forall2_length. exact Hstored. }
  destruct (Write_emitted baseSitemapURL stylesheetURL (mkSt s1 w1 evs0))
    as (s' & w' & evs & Hsnd & Hs' & _ & Hfiles).
  { reflexivity. }
  { cbn [this]. change (URLs s1) with added. rewrite Hn. lia. }
  { exact Hem. }
  cbn [this log] in Hsnd, Hs', Hfiles. change (URLs s1) with added in Hs', Hfiles.
  change (MaxURLs s1) with 33333 in Hfiles.
  rewrite resolve_entries_all in Hs' by exact Hall. cbn [fst] in Hs'.
  rewrite Hn in Hfiles.
  destruct (Z.leb_spec (Z.of_nat (length urls)) 33333) as [_ | ?]; [| lia].
  rewrite Hsnd. cbn [this log]. subst s'.
  cbn [URLs Dir set_URLs set_Stylesheet] in Hfiles |- *.
  change (Dir s1) with dir in Hfiles.
  exists (map (resolved_entry s1) added).
  split; [rewrite written_app, (written_clock_reads evs0 Hclock); exact Hfiles |].
  split; [reflexivity |].
  apply Forall2_fmap_r.
  clear - Hstored Hall.
  induction Hstored as [| u a urls added (HL & HC & HP & HD) _ IH]; [constructor |].
  apply Forall_cons in Hall as [Ha Hall].
  constructor; [| apply IH; exact Hall].
  destruct (resolved_entry_frame s1 a Ha) as (Hloc & Hlm & Hcf & Hpr).
  rewrite HL in Hloc. split; [exact Hloc |].
  split; [congruence |]. split; [congruence |].
  rewrite Hlm.
  destruct HD as [HD | (t & Ht & HD)]; [left; exact HD |].
  right. exists t. split; [| exact HD].
  rewrite clock_reads_app. apply in_or_app. left. exact Ht.
Qed.

End Pipeline.

(** ** The single file, step by step *)

Section SingleFile.
Context {RT : Runtime} {XT : XMLTools}.

(** X8.  With at most [MaxURLs] entries, all of which resolve, [Write] makes
    one call of [os.WriteFile], for sitemap.xml with all entries.  If
    that fails it returns the error and reads nothing; otherwise it reads
    that one file back and returns the verdict of the validation on what
    it read. *)
Theorem Write_single_file_run (baseSitemapURL stylesheetURL : string) (st : St) :
  fst (ensure_dir stylesheetURL st) = Done None ->
  Forall (resolvable (this st)) (URLs (this st)) ->
  Z.of_nat (length (URLs (this st))) <= MaxURLs (this st) ->
  let st' := snd (Write baseSitemapURL stylesheetURL st) in
  let p := GoPath.Join (Dir (this st)) "sitemap.xml" in
  let doc := document stylesheetURL
               (urlset_data (map (resolved_entry (this st)) (URLs (this st)))) in
  exists (evs1 rs : list event) (r : option string),
    log st' = log st ++ evs1 ++ EvWriteFile p doc 420 r :: rs
    /\ write_calls evs1 = [] /\ read_calls evs1 = []
    /\ match r with
       | Some m =>
           rs = [] /\ fst (Write baseSitemapURL stylesheetURL st) = Done (Some (PathError m))
       | None =>
           exists res, rs = [EvReadFile p res]
                       /\ fst (Write baseSitemapURL stylesheetURL st)
                          = Done (check_read res false)
       end.
Proof.
  intros Hdir Hall Hle st' p doc. subst st' p doc.
  destruct (Write_resolved baseSitemapURL stylesheetURL st Hdir Hall)
    as (w1 & evs1 & Hw & Hr & _ & ->).
  unfold emit_phase, bind, get_this.
  cbn [this world log URLs MaxURLs Dir set_URLs set_Stylesheet].
  rewrite length_map.
  destruct (Z.leb_spec (Z.of_nat (length (URLs (this st)))) (MaxURLs (this st)))
    as [_ | ?]; [| lia].
  match goal with
  | |- context [writeSitemapFile ?f ?l ?st2] =>
      destruct (writeSitemapFile_run f l st2) as (r & w & _ & ->)
  end.
  cbn [this world log Dir Stylesheet set_URLs set_Stylesheet].
  exists evs1. destruct r as [m |]; cbn [option_map].
  - exists [], (Some m). cbn [fst snd log]. rewrite <- app_assoc.
    split; [reflexivity |]. split; [exact Hw |]. split; [exact Hr |].
    split; reflexivity.
  - match goal with
    | |- context [validateXMLFile ?f ?b ?st2] =>
        destruct (validateXMLFile_run f b st2) as (res & w' & _ & ->)
    end.
    cbn [fst snd this world log].
    exists [EvReadFile (GoPath.Join (Dir (this st)) "sitemap.xml") res], None.
    rewrite <- !app_assoc. cbn [app].
    split; [reflexivity |]. split; [exact Hw |]. split; [exact Hr |].
    exists res. split; reflexivity.
Qed.

(** X18.  With a positive [MaxURLs], [Write] returns, with nil or an error: it
    does not panic, whatever the entries and whatever the operating
    system and the validator answer. *)
Theorem Write_returns_for_positive_MaxURLs (baseSitemapURL stylesheetURL : string)
  (st : St) :
  0 < MaxURLs (this st) ->
  Z.of_nat (length (URLs (this st))) < 2 ^ 62 ->
  exists r : option error, fst (Write baseSitemapURL stylesheetURL st) = Done r.
Proof.
  intros HM Hn.
  destruct (Write_run baseSitemapURL stylesheetURL st)
    as (dir_err & w1 & evs1 & _ & _ & _ & ->).
  destruct dir_err as [e |]; [eexists; reflexivity |]. cbv zeta.
  destruct (snd (resolve_entries (this st) (URLs (this st)))); [eexists; reflexivity |].
  match goal with
  | |- context [emit_phase _ ?st2] =>
      destruct (emit_phase_run baseSitemapURL st2) as (r & w & evs & -> & _)
  end.
  - exact HM.
  - cbn [this URLs set_URLs]. rewrite resolve_entries_length. exact Hn.
  - eexists; reflexivity.
Qed.

End SingleFile.

(** ** Markup and character data *)

Lemma count_byte_app (c : ascii) (a b : string) :
  count_byte c (a +:+ b) = (count_byte c a + count_byte c b)%nat.
Proof.
  induction a as [| d a IH]; [reflexivity |].
  rewrite append_cons. cbn [count_byte]. rewrite IH. lia.
Qed.

Lemma count_byte_absent (c : ascii) (s : string) :
  contains_byte c s = false -> count_byte c s = O.
Proof.
  induction s as [| d s IH]; [reflexivity |].
  cbn [contains_byte count_byte]. intros H. apply orb_false_elim in H as [-> H].
  rewrite IH by exact H. reflexivity.
Qed.

Lemma count_lt_EscapeString (s : string) : count_byte "<" (GoXML.EscapeString s) = O.
Proof. apply count_byte_absent, EscapeString_fuel_no_lt. Qed.

Lemma count_lt_indent (depth : nat) : count_byte "<" (GoXML.indent depth) = O.
Proof.
  induction depth as [| d IH]; [reflexivity |].
  cbn [GoXML.indent]. rewrite count_byte_app, IH. reflexivity.
Qed.

Lemma count_lt_text_element (depth : nat) (name value : string) (omitempty : bool) :
  count_byte "<" name = O ->
  count_byte "<" (GoXML.text_element depth name value omitempty) =
  if omitempty && String.eqb value "" then O else 2%nat.
Proof.
  intros Hname. unfold GoXML.text_element.
  destruct (omitempty && String.eqb value ""); [reflexivity |].
  rewrite !count_byte_app, count_lt_indent, count_lt_EscapeString, Hname. reflexivity.
Qed.

Lemma count_lt_end_tag (depth : nat) (name children : string) :
  count_byte "<" name = O ->
  count_byte "<" (GoXML.end_tag depth name children) = 1%nat.
Proof.
  intros Hname. unfold GoXML.end_tag. rewrite !count_byte_app, Hname.
  destruct (String.eqb children ""); [reflexivity |].
  rewrite !count_byte_app, count_lt_indent. reflexivity.
Qed.

Lemma count_lt_start_tag (top : bool) (depth : nat) (name attrs : string) :
  count_byte "<" name = O -> count_byte "<" attrs = O ->
  count_byte "<" (GoXML.start_tag top depth name attrs) = 1%nat.
Proof.
  intros Hname Hattrs. unfold GoXML.start_tag. rewrite !count_byte_app, Hname, Hattrs.
  destruct top; [reflexivity |].
  rewrite !count_byte_app, count_lt_indent. reflexivity.
Qed.

Lemma count_lt_xmlns_attr (v : string) : count_byte "<" (xmlns_attr v) = O.
Proof.
  unfold xmlns_attr. rewrite !count_byte_app, count_lt_EscapeString. reflexivity.
Qed.

Lemma count_lt_concat_str (l : list string) :
  count_byte "<" (GoXML.concat_str l) = sum_nat (map (count_byte "<") l).
Proof.
  induction l as [| a l IH]; [reflexivity |].
  cbn [GoXML.concat_str fold_right map sum_nat].
  rewrite count_byte_app. fold (GoXML.concat_str l). rewrite IH. reflexivity.
Qed.

Lemma filled_one (v : string) :
  (if true && String.eqb v "" then O else 2%nat) = (2 * filled_fields [v])%nat.
Proof. unfold filled_fields. cbn. destruct (String.eqb v ""); reflexivity. Qed.

Lemma count_lt_marshal_SitemapURL (u : SitemapURL) :
  count_byte "<" (marshal_SitemapURL u) = url_tags u.
Proof.
  unfold marshal_SitemapURL. cbv zeta.
  rewrite !count_byte_app, count_lt_start_tag, count_lt_end_tag by reflexivity.
  rewrite !count_lt_text_element by reflexivity.
  unfold url_tags, filled_fields. cbn [andb List.filter].
  destruct (String.eqb (LastMod u) ""), (String.eqb (ChangeFreq u) ""),
    (String.eqb (Priority u) ""); reflexivity.
Qed.

Lemma count_lt_marshal_Sitemap (m : Sitemap) :
  count_byte "<" (marshal_Sitemap m) = sitemap_tags m.
Proof.
  unfold marshal_Sitemap. cbv zeta.
  rewrite !count_byte_app, count_lt_start_tag, count_lt_end_tag by reflexivity.
  rewrite !count_lt_text_element by reflexivity.
  unfold sitemap_tags, filled_fields. cbn [andb List.filter].
  destruct (String.eqb (sm_LastMod m) ""); reflexivity.
Qed.

Section Markup.
Context {RT : Runtime} {XT : XMLTools}.

(** X20.  The text of the fields adds no markup.  In the data [Write] marshals,
    the byte "<" occurs once per tag and nowhere else: twice for the root
    element and, per entry, twice for its element, twice for [loc] and
    twice for every optional field that is not empty, whatever the fields
    hold; an empty optional field gets no element. *)
Theorem marshalled_markup_count (urls : list SitemapURL) (sitemaps : list Sitemap) :
  count_byte "<" (urlset_data urls) = (2 + sum_nat (map url_tags urls))%nat
  /\ count_byte "<" (sitemapindex_data sitemaps)
     = (2 + sum_nat (map sitemap_tags sitemaps))%nat.
Proof.
  split.
  - unfold urlset_data, MarshalIndent_URLSet. cbv zeta. cbn [us_URLs us_Xmlns].
    rewrite !count_byte_app.
    rewrite count_lt_start_tag by (reflexivity || apply count_lt_xmlns_attr).
    rewrite count_lt_end_tag by reflexivity.
    rewrite count_lt_concat_str, map_map.
    rewrite (map_ext _ url_tags count_lt_marshal_SitemapURL). lia.
  - unfold sitemapindex_data, MarshalIndent_SitemapIndex. cbv zeta. cbn [ix_Sitemaps ix_Xmlns].
    rewrite !count_byte_app.
    rewrite count_lt_start_tag by (reflexivity || apply count_lt_xmlns_attr).
    rewrite count_lt_end_tag by reflexivity.
    rewrite count_lt_concat_str, map_map.
    rewrite (map_ext _ sitemap_tags count_lt_marshal_Sitemap). lia.
Qed.

End Markup.

(** ** Failures of the operating system *)

Section OsFailures.
Context {RT : Runtime} {XT : XMLTools}.

(** X6.  When the directory is missing and cannot be made, [Write] returns the
    error of [os.MkdirAll] right away: the stylesheet is stored, the
    entries are as they were, not resolved, and nothing is written. *)
Theorem Write_mkdir_failure (baseSitemapURL stylesheetURL m : string) (st : St)
  (w1 w2 : World) :
  os_Stat_IsNotExist (Dir (this st)) (world st) = (true, w1) ->
  os_MkdirAll (Dir (this st)) 493 w1 = (Some m, w2) ->
  Write baseSitemapURL stylesheetURL st =
    (Done (Some (PathError m)),
     mkSt (set_Stylesheet (this st) stylesheetURL) w2
          (log st ++ [EvStat (Dir (this st)) true;
                      EvMkdirAll (Dir (this st)) 493 (Some m)])).
Proof.
  intros Hstat Hmk. rewrite Write_phases.
  unfold ensure_dir, bind, get_this, set_this, Stat_IsNotExist, MkdirAll, syscall, ret.
  cbn [this world log]. rewrite Hstat. cbn [this world log]. rewrite Hmk.
  rewrite <- app_assoc. reflexivity.
Qed.

(** [writeSitemapIndex] when it fails: some of the shards are written, in
    their order, and that is all. *)
Lemma writeSitemapIndex_failed (baseSitemapURL : string) (st : St) :
  0 < MaxURLs (this st) < 2 ^ 62 ->
  Z.of_nat (length (URLs (this st))) < 2 ^ 62 ->
  let s := this st in
  let N := (Z.of_nat (length (URLs s)) + MaxURLs s - 1) / MaxURLs s in
  exists (r : option error) (w : World) (evs : list event) (j : Z),
    writeSitemapIndex baseSitemapURL st = (Done r, mkSt s w (log st ++ evs))
    /\ read_calls evs = []
    /\ (r <> None -> 0 <= j <= N /\ written evs = map (shard_file s) (seqZ 0 j)).
Proof.
  intros HM Hn s N. subst s.
  unfold writeSitemapIndex. unfold bind at 1, get_this at 1.
  rewrite fileCount_value by lia. fold N.
  assert (HN : 0 <= N) by (apply Z.div_pos; lia).
  pose proof (ceil_bounds (Z.of_nat (length (URLs (this st)))) (MaxURLs (this st))
                ltac:(lia) ltac:(lia)) as HB.
  fold N in HB.
  destruct (writeShards_run baseSitemapURL (Z.to_nat N) 0 [] st)
    as (r & w & evs & j & Hrun & Hj & Hwr & Hrd & _ & Hr); try lia.
  unfold bind at 1. rewrite Hrun.
  destruct r as [e | sitemaps].
  - exists (Some e), w, evs, (Z.of_nat j). split; [reflexivity |]. split; [exact Hrd |].
    intros _. split; [lia | exact Hwr].
  - destruct Hr as (-> & _ & new & -> & _).
    unfold MarshalIndent_SitemapIndex, bind, WriteFile, syscall, ret.
    cbn [this world log].
    destruct (os_WriteFile _ _ 420 w) as [r w'] eqn:Hw.
    match type of Hw with
    | os_WriteFile ?p ?d 420 w = _ => set (ev := EvWriteFile p d 420 r)
    end.
    exists (option_map PathError r), w', (evs ++ [ev]), N.
    rewrite <- app_assoc. split; [reflexivity |].
    split; [unfold read_calls in *; rewrite flat_map_app, Hrd; reflexivity |].
    destruct r as [e |]; cbn [option_map]; [intros _ | intros H; contradiction].
    split; [lia |]. rewrite Z2Nat.id in Hwr by lia.
    rewrite written_app, Hwr. cbn. apply app_nil_r.
Qed.

(** X15.  [Write] leaves behind what it wrote.  In the indexed layout, when it
    fails after the locations are resolved, with an error that is not one
    of the validation, the files written are the first [j] shards,
    complete, for some [j] from 0 to N; there is no index, nothing is read
    and nothing is removed. *)
Theorem Write_failure_leaves_shards (baseSitemapURL stylesheetURL : string)
  (st : St) (e : error) :
  fst (ensure_dir stylesheetURL st) = Done None ->
  Forall (resolvable (this st)) (URLs (this st)) ->
  0 < MaxURLs (this st) ->
  MaxURLs (this st) < Z.of_nat (length (URLs (this st))) ->
  Z.of_nat (length (URLs (this st))) < 2 ^ 62 ->
  fst (Write baseSitemapURL stylesheetURL st) = Done (Some e) ->
  not_validation e ->
  let st' := snd (Write baseSitemapURL stylesheetURL st) in
  let N := (Z.of_nat (length (URLs (this st))) + MaxURLs (this st) - 1)
           / MaxURLs (this st) in
  exists (evs : list event) (j : Z),
    log st' = log st ++ evs
    /\ 0 <= j <= N
    /\ written evs = map (shard_file (this st')) (seqZ 0 j)
    /\ read_calls evs = [].
Proof.
  intros Hdir Hall HM Hgt Hn Hres He st' N. subst st'. revert Hres.
  destruct (Write_resolved baseSitemapURL stylesheetURL st Hdir Hall)
    as (w1 & evs1 & Hw & Hr & _ & ->).
  set (s2 := set_URLs _ _).
  assert (Hlen : length (URLs s2) = length (URLs (this st))).
  { subst s2. cbn [URLs set_URLs]. apply length_map. }
  rewrite emit_phase_indexed
    by (cbn [this]; rewrite Hlen; subst s2; cbn [MaxURLs set_URLs set_Stylesheet]; exact Hgt).
  unfold bind.
  destruct (writeSitemapIndex_failed baseSitemapURL (mkSt s2 w1 (log st ++ evs1)))
    as (r & w & evs & j & -> & Hrd & Hfiles).
  { cbn [this]. subst s2. cbn [MaxURLs set_URLs set_Stylesheet]. lia. }
  { cbn [this]. rewrite Hlen. exact Hn. }
  cbn [this world log] in Hfiles |- *. rewrite Hlen in Hfiles.
  change (MaxURLs s2) with (MaxURLs (this st)) in Hfiles. fold N in Hfiles.
  destruct r as [e' |].
  - intros _. cbn [fst snd this log]. destruct Hfiles as [Hj Hwr]; [discriminate |].
    exists (evs1 ++ evs), j. rewrite <- app_assoc. split; [reflexivity |].
    split; [exact Hj |]. split.
    + rewrite written_app, Hwr.
      assert (E : written evs1 = []).
      { clear - Hw. induction evs1 as [| ev evs1 IH]; [reflexivity |].
        destruct ev; cbn in *; try (apply IH; assumption). discriminate. }
      rewrite E. reflexivity.
    + unfold read_calls in *. rewrite flat_map_app, Hr, Hrd. reflexivity.
  - destruct (validateSitemapIndexAndFiles_reads (mkSt s2 w (log st ++ evs1 ++ evs)))
      as (res & w' & evs' & Hrun & Hem & _).
    rewrite <- app_assoc. rewrite Hrun. cbn [fst]. intros [= ->].
    exfalso. destruct e; cbn in He, Hem; contradiction.
Qed.

End OsFailures.

(** ** The sizes of the shards *)

Section ShardSizes.
Context {RT : Runtime} {XT : XMLTools}.


End ShardSizes.

(** ** The earlier version *)

Section LegacyProperties.
Context {RT : Runtime} {XT : XMLTools}.

Lemma Legacy_St_eta (st : Legacy.St) :
  Legacy.mkSt (Legacy.this st) (Legacy.world st) (Legacy.log st) = st.
Proof. destruct st; reflexivity. Qed.

Lemma Legacy_set_URLs_same (s : Legacy.SitemapOptions) :
  Legacy.set_URLs s (Legacy.URLs s) = s.
Proof. destruct s; reflexivity. Qed.

(** The loop "Prepare URLs" of the earlier version changes the entries,
    and neither their number nor anything else. *)
Lemma Legacy_prepareURLs_frame (k : nat) :
  forall (i : nat) (st : Legacy.St),
    exists (r : outcome (option error)) (l : list SitemapURL),
      Legacy.prepareURLs k i st =
        (r, Legacy.mkSt (Legacy.set_URLs (Legacy.this st) l) (Legacy.world st)
                        (Legacy.log st))
      /\ length l = length (Legacy.URLs (Legacy.this st)).
Proof.
  induction k as [| k IH]; intros i st.
  - exists (Done None), (Legacy.URLs (Legacy.this st)). cbn [Legacy.prepareURLs].
    unfold Legacy.ret. rewrite Legacy_set_URLs_same, Legacy_St_eta. auto.
  - cbn [Legacy.prepareURLs]. unfold Legacy.bind at 1, Legacy.get_this at 1.
    destruct (Legacy.URLs (Legacy.this st) !! i) as [u |] eqn:Hu.
    + destruct (Legacy.resolveURL (Legacy.this st) (Loc u)) as [e | fullURL].
      * exists (Done (Some e)), (Legacy.URLs (Legacy.this st)). unfold Legacy.ret.
        rewrite Legacy_set_URLs_same, Legacy_St_eta. auto.
      * unfold Legacy.bind, Legacy.set_this.
        match goal with
        | |- context [Legacy.prepareURLs k (S i) ?st1] =>
            destruct (IH (S i) st1) as (r & l & -> & Hl)
        end.
        cbn [Legacy.this Legacy.world Legacy.log Legacy.URLs Legacy.set_URLs] in *.
        exists r, l. split; [reflexivity |].
        rewrite Hl. apply length_insert.
    + exists (Panic "index out of range"), (Legacy.URLs (Legacy.this st)).
      unfold Legacy.panic. rewrite Legacy_set_URLs_same, Legacy_St_eta. auto.
Qed.

(** The loop "Prepare URLs" is the same in both versions. *)
Lemma prepareURLs_as_legacy (k : nat) :
  forall (i : nat) (st : Legacy.St),
    prepareURLs k i (upgrade_state st) =
    (fst (Legacy.prepareURLs k i st), upgrade_state (snd (Legacy.prepareURLs k i st))).
Proof.
  induction k as [| k IH]; intros i st; [reflexivity |].
  cbn [prepareURLs Legacy.prepareURLs].
  unfold bind at 1, get_this at 1, Legacy.bind at 1 3, Legacy.get_this.
  cbn [this upgrade_state upgrade URLs].
  destruct (Legacy.URLs (Legacy.this st) !! i) as [u |]; [| reflexivity].
  change (resolveURL (upgrade (Legacy.this st)) (Loc u))
    with (Legacy.resolveURL (Legacy.this st) (Loc u)).
  destruct (Legacy.resolveURL (Legacy.this st) (Loc u)) as [e | fullURL]; [reflexivity |].
  unfold bind, set_this, Legacy.bind, Legacy.set_this.
  cbn [this world log upgrade_state upgrade URLs Legacy.this Legacy.world Legacy.log].
  match goal with
  | |- _ = (fst (Legacy.prepareURLs k (S i) ?st1), _) => rewrite <- (IH (S i) st1)
  end.
  reflexivity.
Qed.

Lemma Legacy_writeSitemapFile_run (filename : string) (urls : list SitemapURL)
  (st : Legacy.St) :
  exists (r : option string) (w : World),
    Legacy.writeSitemapFile filename urls st =
      (Done (option_map PathError r),
       Legacy.mkSt (Legacy.this st) w
         (Legacy.log st ++
          [EvWriteFile (GoPath.Join (Legacy.Dir (Legacy.this st)) filename)
             (GoXML.Header +:+ urlset_data urls) 420 r])).
Proof.
  unfold Legacy.writeSitemapFile, urlset_data, MarshalIndent_URLSet,
    Legacy.bind, Legacy.get_this, Legacy.WriteFile, Legacy.syscall, Legacy.ret.
  destruct (os_WriteFile _ _ 420 (Legacy.world st)) as [r w].
  exists r, w. reflexivity.
Qed.

(** The loop over the shards of the earlier version only writes. *)
Lemma Legacy_writeShards_trace (k : nat) :
  forall (i : Z) (sitemaps : list Legacy.Sitemap) (st : Legacy.St),
    exists (r : outcome (error + list Legacy.Sitemap)) (w : World) (ws : list event),
      Legacy.writeShards k i sitemaps st =
        (r, Legacy.mkSt (Legacy.this st) w (Legacy.log st ++ ws))
      /\ Forall is_file_write ws
      /\ forall sitemaps', r = Done (inr sitemaps') -> Forall write_succeeded ws.
Proof.
  induction k as [| k IH]; intros i sitemaps st.
  - exists (Done (inr sitemaps)), (Legacy.world st), []. cbn [Legacy.writeShards].
    unfold Legacy.ret. rewrite app_nil_r, Legacy_St_eta.
    split; [reflexivity |]. split; [constructor |]. intros _ _. constructor.
  - cbn [Legacy.writeShards]. unfold Legacy.bind at 1, Legacy.get_this at 1.
    destruct (slice _ _ _) as [urlsSlice |]; cycle 1.
    { exists (Panic "slice bounds out of range"), (Legacy.world st), [].
      unfold Legacy.panic. rewrite app_nil_r, Legacy_St_eta.
      split; [reflexivity |]. split; [constructor |]. intros ? [=]. }
    unfold Legacy.bind at 1.
    destruct (Legacy_writeSitemapFile_run (sitemapName i) urlsSlice st) as (r0 & w & ->).
    set (ev := EvWriteFile _ _ 420 r0).
    destruct r0 as [e |]; cbn [option_map].
    { eexists _, w, [ev]. split; [reflexivity |].
      split; [repeat constructor |]. intros ? [=]. }
    destruct (Legacy.resolveURL (Legacy.this st) ("/" +:+ sitemapName i))
      as [e | sitemapURL].
    { eexists _, w, [ev]. split; [reflexivity |].
      split; [repeat constructor |]. intros ? [=]. }
    destruct (IH (int_add i 1) (sitemaps ++ [Legacy.mkSitemap sitemapURL])
                (Legacy.mkSt (Legacy.this st) w (Legacy.log st ++ [ev])))
      as (r' & w' & ws' & Hrun & Hsteps & Hok).
    cbn [Legacy.this Legacy.world Legacy.log] in Hrun. rewrite Hrun.
    exists r', w', (ev :: ws'). rewrite <- app_assoc.
    split; [reflexivity |]. split; [constructor; [reflexivity | exact Hsteps] |].
    intros sitemaps' Hr. constructor; [exact I | exact (Hok sitemaps' Hr)].
Qed.

(** The [Write] of the earlier version, event by event. *)
Lemma Legacy_Write_trace (st : Legacy.St) :
  let dir := Legacy.Dir (Legacy.this st) in
  exists (res : outcome (option error)) (s' : Legacy.SitemapOptions) (w : World)
         (notExist : bool) (r : option string) (ws : list event),
    Legacy.Write st =
      (res, Legacy.mkSt s' w
              (Legacy.log st ++ EvStat dir notExist
                             :: (if notExist then [EvMkdirAll dir 493 r] else []) ++ ws))
    /\ (notExist = true -> r <> None -> ws = [])
    /\ Forall is_file_write ws
    /\ (res = Done None -> ws <> [] /\ Forall write_succeeded ws).
Proof.
  intros dir. subst dir.
  unfold Legacy.Write. unfold Legacy.bind at 1 2 3, Legacy.get_this at 1.
  unfold Legacy.Stat_IsNotExist, Legacy.syscall at 1.
  destruct (os_Stat_IsNotExist (Legacy.Dir (Legacy.this st)) (Legacy.world st))
    as [notExist w1].
  cbn [Legacy.this Legacy.world Legacy.log].
  assert (Hmk : exists (r : option string) (w2 : World),
             (if notExist then Legacy.MkdirAll (Legacy.Dir (Legacy.this st)) 493
              else Legacy.ret None)
               (Legacy.mkSt (Legacy.this st) w1
                  (Legacy.log st ++ [EvStat (Legacy.Dir (Legacy.this st)) notExist]))
             = (Done (if notExist then r else None),
                Legacy.mkSt (Legacy.this st) w2
                  (Legacy.log st ++ EvStat (Legacy.Dir (Legacy.this st)) notExist
                   :: (if notExist then [EvMkdirAll (Legacy.Dir (Legacy.this st)) 493 r]
                       else [])))).
  { destruct notExist.
    - unfold Legacy.MkdirAll, Legacy.syscall. cbn [Legacy.this Legacy.world Legacy.log].
      destruct (os_MkdirAll _ 493 w1) as [r w2]. exists r, w2.
      rewrite <- app_assoc. reflexivity.
    - exists None, w1. reflexivity. }
  destruct Hmk as (r & w2 & Hmk). rewrite Hmk. clear Hmk.
  set (pre := EvStat (Legacy.Dir (Legacy.this st)) notExist
              :: (if notExist then [EvMkdirAll (Legacy.Dir (Legacy.this st)) 493 r]
                  else [])).
  assert (Hgoal : forall X : list event,
             EvStat (Legacy.Dir (Legacy.this st)) notExist
             :: (if notExist then [EvMkdirAll (Legacy.Dir (Legacy.this st)) 493 r] else [])
                ++ X = pre ++ X) by reflexivity.
  assert (Hstop : forall (res : outcome (option error)) (s' : Legacy.SitemapOptions)
                         (w : World),
             res <> Done None ->
             exists (res0 : outcome (option error)) (s0 : Legacy.SitemapOptions) (w0 : World)
                    (notExist0 : bool) (r0 : option string) (ws : list event),
               (res, Legacy.mkSt s' w (Legacy.log st ++ pre)) =
                 (res0, Legacy.mkSt s0 w0
                          (Legacy.log st ++ EvStat (Legacy.Dir (Legacy.this st)) notExist0
                           :: (if notExist0
                               then [EvMkdirAll (Legacy.Dir (Legacy.this st)) 493 r0]
                               else []) ++ ws))
               /\ (notExist0 = true -> r0 <> None -> ws = [])
               /\ Forall is_file_write ws
               /\ (res0 = Done None -> ws <> [] /\ Forall write_succeeded ws)).
  { intros res s' w Hres. exists res, s', w, notExist, r, [].
    rewrite Hgoal, app_nil_r. split; [reflexivity |]. split; [auto |].
    split; [constructor |]. intros H. contradiction. }
  destruct (if notExist then r else None) as [e |] eqn:Hr.
  { unfold Legacy.ret. apply Hstop. discriminate. }
  assert (Hnone : notExist = true -> r <> None -> False).
  { intros -> H. apply H. exact Hr. }
  unfold Legacy.bind at 1, Legacy.get_this at 1.
  cbn [Legacy.this Legacy.world Legacy.log].
  unfold Legacy.bind at 1.
  destruct (Legacy_prepareURLs_frame (length (Legacy.URLs (Legacy.this st))) 0%nat
              (Legacy.mkSt (Legacy.this st) w2 (Legacy.log st ++ pre)))
    as (res & l & -> & Hl).
  cbn [Legacy.this Legacy.world Legacy.log] in *.
  destruct res as [[e |] | msg].
  1, 3: unfold Legacy.ret; apply Hstop; discriminate.
  unfold Legacy.bind at 1, Legacy.get_this at 1.
  cbn [Legacy.this Legacy.world Legacy.log].
  destruct (_ <=? _).
  - match goal with
    | |- context [Legacy.writeSitemapFile ?f ?u ?st1] =>
        destruct (Legacy_writeSitemapFile_run f u st1) as (r0 & w3 & ->)
    end.
    cbn [Legacy.this Legacy.world Legacy.log].
    eexists _, _, w3, notExist, r, [_]. rewrite Hgoal, <- app_assoc.
    split; [reflexivity |].
    split; [intros H1 H2; destruct (Hnone H1 H2) |].
    split; [repeat constructor |].
    destruct r0 as [e |]; cbn [option_map]; [intros [=] | intros _].
    split; [discriminate | repeat constructor].
  - unfold Legacy.writeSitemapIndex. unfold Legacy.bind at 1, Legacy.get_this at 1.
    cbn [Legacy.this Legacy.world Legacy.log].
    destruct (int_div _ _) as [fileCount |]; cycle 1.
    { unfold Legacy.panic. apply Hstop. discriminate. }
    unfold Legacy.bind at 1.
    match goal with
    | |- context [Legacy.writeShards ?k 0 [] ?st1] =>
        destruct (Legacy_writeShards_trace k 0 [] st1) as (res & w3 & ws & -> & Hsteps & Hok)
    end.
    cbn [Legacy.this Legacy.world Legacy.log] in *.
    destruct res as [[e | sitemaps] | msg].
    + unfold Legacy.ret. eexists _, _, w3, notExist, r, ws. rewrite Hgoal, <- app_assoc.
      split; [reflexivity |]. split; [intros H1 H2; destruct (Hnone H1 H2) |].
      split; [exact Hsteps | intros [=]].
    + unfold Legacy.MarshalIndent_SitemapIndex, Legacy.bind, Legacy.WriteFile,
        Legacy.syscall, Legacy.ret.
      cbn [Legacy.this Legacy.world Legacy.log].
      destruct (os_WriteFile _ _ 420 w3) as [r0 w4].
      eexists _, _, w4, notExist, r, (ws ++ [_]). rewrite Hgoal, <- !app_assoc.
      split; [reflexivity |].
      split; [intros H1 H2; destruct (Hnone H1 H2) |].
      split; [apply Forall_app; split; [exact Hsteps | repeat constructor] |].
      destruct r0 as [e |]; cbn [option_map]; [intros [=] | intros _].
      split; [intros H; apply app_eq_nil in H as [_ H]; discriminate H |].
      apply Forall_app. split; [exact (Hok sitemaps eq_refl) | repeat constructor].
    + eexists _, _, w3, notExist, r, ws. rewrite Hgoal, <- app_assoc.
      split; [reflexivity |]. split; [intros H1 H2; destruct (Hnone H1 H2) |].
      split; [exact Hsteps | intros [=]].
Qed.

(** X22.  The [Write] of the earlier version checks the directory like the
    present one and then only writes, with mode 0644: it never reads the
    clock and never reads back or validates what it wrote.  When it
    returns nil it has written a file, and every write went through. *)
Theorem Legacy_Write_only_writes (st : Legacy.St) :
  let st' := snd (Legacy.Write st) in
  let dir := Legacy.Dir (Legacy.this st) in
  exists (notExist : bool) (r : option string) (ws : list event),
    Legacy.log st' =
      Legacy.log st ++ EvStat dir notExist
                    :: (if notExist then [EvMkdirAll dir 493 r] else []) ++ ws
    /\ (notExist = true -> r <> None -> ws = [])
    /\ Forall is_file_write ws
    /\ (fst (Legacy.Write st) = Done None -> ws <> [] /\ Forall write_succeeded ws).
Proof.
  intros st' dir. subst st' dir.
  destruct (Legacy_Write_trace st) as (res & s' & w & notExist & r & ws & -> & H1 & H2 & H3).
  exists notExist, r, ws. cbn [fst snd Legacy.log].
  split; [reflexivity |]. split; [exact H1 |]. split; [exact H2 | exact H3].
Qed.

(** X23.  With no stylesheet and at most [MaxURLs] entries, the present
    [Write] is the [Write] of the earlier version followed by the
    validation of sitemap.xml: the same calls with the same data, the same
    entries in the receiver, the same error if the earlier one fails; and
    when the earlier one returns nil, the file is read back and the result
    is the verdict of [validateXMLFile]. *)
Theorem Write_is_legacy_Write_then_validation (baseSitemapURL : string)
  (st : Legacy.St) :
  Z.of_nat (length (Legacy.URLs (Legacy.this st))) <= Legacy.MaxURLs (Legacy.this st) ->
  Write baseSitemapURL "" (upgrade_state st) =
  match Legacy.Write st with
  | (Done None, st1) =>
      validateXMLFile (GoPath.Join (Legacy.Dir (Legacy.this st1)) "sitemap.xml") false
        (upgrade_state st1)
  | (r, st1) => (r, upgrade_state st1)
  end.
Proof.
  intros Hle.
  unfold Write, Legacy.Write.
  unfold bind at 1 2 3 4, get_this at 1, set_this at 1.
  unfold Legacy.bind at 1 2 3, Legacy.get_this at 1.
  unfold Stat_IsNotExist, syscall at 1, Legacy.Stat_IsNotExist, Legacy.syscall at 1.
  cbn [this world log upgrade_state upgrade Dir set_Stylesheet
       MaxFileSize MaxURLs BaseURL URLs Stylesheet].
  destruct (os_Stat_IsNotExist (Legacy.Dir (Legacy.this st)) (Legacy.world st))
    as [notExist w1].
  assert (Hmk : exists (r : option string) (w2 : World) (evs : list event),
             (if notExist then MkdirAll (Legacy.Dir (Legacy.this st)) 493 else ret None)
               (mkSt (upgrade (Legacy.this st)) w1
                  (Legacy.log st ++ [EvStat (Legacy.Dir (Legacy.this st)) notExist]))
             = (Done r, upgrade_state (Legacy.mkSt (Legacy.this st) w2 evs))
             /\ (if notExist then Legacy.MkdirAll (Legacy.Dir (Legacy.this st)) 493
                 else Legacy.ret None)
                  (Legacy.mkSt (Legacy.this st) w1
                     (Legacy.log st ++ [EvStat (Legacy.Dir (Legacy.this st)) notExist]))
                = (Done r, Legacy.mkSt (Legacy.this st) w2 evs)).
  { destruct notExist.
    - unfold MkdirAll, syscall, Legacy.MkdirAll, Legacy.syscall.
      cbn [this world log Legacy.this Legacy.world Legacy.log].
      destruct (os_MkdirAll _ 493 w1) as [r w2]. eexists r, w2, _.
      split; reflexivity.
    - eexists None, w1, _. split; reflexivity. }
  destruct Hmk as (r & w2 & evs & Hnew & Hold).
  change (mkSt (upgrade (Legacy.this st)) w1
            (Legacy.log st ++ [EvStat (Legacy.Dir (Legacy.this st)) notExist]))
    with (mkSt (set_Stylesheet (upgrade (Legacy.this st)) "") w1
            (Legacy.log st ++ [EvStat (Legacy.Dir (Legacy.this st)) notExist])) in Hnew.
  cbn [this world log] in Hnew |- *.
  rewrite Hnew. unfold Legacy.bind. rewrite Hold. clear Hnew Hold.
  destruct r as [e |]; [reflexivity |].
  unfold bind at 1, get_this at 1, Legacy.get_this at 1.
  cbn [this world log upgrade_state upgrade URLs Legacy.this Legacy.world Legacy.log].
  unfold bind at 1. rewrite prepareURLs_as_legacy.
  destruct (Legacy_prepareURLs_frame (length (Legacy.URLs (Legacy.this st))) 0%nat
              (Legacy.mkSt (Legacy.this st) w2 evs)) as (res & l & -> & Hl).
  cbn [fst snd Legacy.this Legacy.world Legacy.log] in *.
  destruct res as [[e |] | msg]; [reflexivity | | reflexivity].
  unfold bind at 1, get_this at 1, Legacy.get_this at 1.
  cbn [this world log upgrade_state upgrade URLs MaxURLs Dir
       Legacy.this Legacy.world Legacy.log Legacy.URLs Legacy.MaxURLs Legacy.Dir
       Legacy.set_URLs].
  rewrite Hl.
  destruct (Z.leb_spec (Z.of_nat (length (Legacy.URLs (Legacy.this st))))
              (Legacy.MaxURLs (Legacy.this st))) as [_ | ?]; [| lia].
  unfold bind, writeSitemapFile, Legacy.writeSitemapFile, MarshalIndent_URLSet,
    bind, get_this, WriteFile, syscall, ret,
    Legacy.bind, Legacy.get_this, Legacy.WriteFile, Legacy.syscall, Legacy.ret.
  cbn [this world log Dir Stylesheet upgrade upgrade_state
       Legacy.this Legacy.world Legacy.log Legacy.Dir Legacy.set_URLs].
  change (document "" ?d) with (GoXML.Header +:+ d).
  destruct (os_WriteFile _ _ 420 w2) as [r0 w3].
  destruct r0 as [e |]; reflexivity.
Qed.

End LegacyProperties.

(* ===================================================================== *)
(** * Runs in the world in memory *)
(* ===================================================================== *)

Import Mem.



(** On 1 November 2026 the entry with the date "invalid-date" is stored
    with the date of the day, and stays as stored when added again. *)
Lemma AddURL_defaulting_idempotent_invalid_date :
  let url := entry "/about" "invalid-date" in
  let st := fresh in
  let st' := snd (AddURL url st) in
  (on_day 2026 11 1 (reading 0 (world st))
   /\ on_day 2026 11 1 (reading 1 (world st))
   /\ on_day 2026 11 1 (reading 0 (world st'))
   /\ on_day 2026 11 1 (reading 1 (world st')))
  /\
  exists url1 : SitemapURL,
    stored_last (this (snd (AddURL url st))) = Some url1
    /\ stored_last (this (snd (AddURL url1 st'))) = Some url1
    /\ (forall y m d, is_calendar_date (LastMod url) y m d ->
          date_ltb 2026 11 1 y m d = false -> url1 = url).
Proof.
  intros url st st'.
  assert (H0 : on_day 2026 11 1 (reading 0 (world st)))
    by (split; [| split]; vm_compute; reflexivity).
  assert (H1 : on_day 2026 11 1 (reading 1 (world st)))
    by (split; [| split]; vm_compute; reflexivity).
  assert (H0' : on_day 2026 11 1 (reading 0 (world st')))
    by (split; [| split]; vm_compute; reflexivity).
  assert (H1' : on_day 2026 11 1 (reading 1 (world st')))
    by (split; [| split]; vm_compute; reflexivity).
  split; [split; [exact H0 | split; [exact H1 | split; [exact H0' | exact H1']]] |].
  exact (AddURL_defaulting_idempotent url st st' 2026 11 1 H0 H1 H0' H1').
Defined.


(** With the location ":" among the entries [Write] stops before any file
    is written. *)
Lemma Write_unparseable_aborts_colon :
  let baseSitemapURL := "https://cdn.example.com/maps/" in
  let stylesheetURL := "" in
  let st := added_bad in
  (fst (ensure_dir stylesheetURL st) = Done None
   /\ URLs (this st) <> []
   /\ ((exists e, GoURL.Parse (BaseURL (this st)) = inl e)
       \/ Exists (fun u => exists e, GoURL.Parse (Loc u) = inl e) (URLs (this st))))
  /\
  exists (msg : string) (evs : list event),
    fst (Write baseSitemapURL stylesheetURL st) = Done (Some (UrlError msg))
    /\ log (snd (Write baseSitemapURL stylesheetURL st)) = log st ++ evs
    /\ write_calls evs = [].
Proof.
  intros baseSitemapURL stylesheetURL st.
  assert (Hdir : fst (ensure_dir stylesheetURL st) = Done None)
    by (vm_compute; reflexivity).
  assert (Hne : URLs (this st) <> []) by (vm_compute; discriminate).
  assert (Hbad : (exists e, GoURL.Parse (BaseURL (this st)) = inl e)
                 \/ Exists (fun u => exists e, GoURL.Parse (Loc u) = inl e)
                           (URLs (this st))).
  { right.
    let l := eval vm_compute in (URLs (this st)) in
    change (URLs (this st)) with l.
    apply Exists_cons_tl, Exists_cons_hd.
    exists "missing protocol scheme". vm_compute; reflexivity. }
  split; [split; [exact Hdir | split; [exact Hne | exact Hbad]] |].
  exact (Write_unparseable_aborts baseSitemapURL stylesheetURL st Hdir Hne Hbad).
Defined.

(** Three entries added with one call of each kind on 1 November 2026. *)
Lemma entries_dated_after_two_calls :
  let cs := [CallAddURL (mkSitemapURL "" "2023-10-25" "daily" "1.0");
             CallAddURLs [entry ":" ""; entry "/about" "invalid-date"]] in
  let st := fresh in
  let st' := snd (run_calls cs st) in
  (Forall dated (URLs (this st))
   /\ clock_civil (skipn (length (log st)) (log st')))
  /\ fst (run_calls cs st) = Done tt
  /\ Forall dated (URLs (this st'))
  /\ map Loc (URLs (this st')) =
     map Loc (URLs (this st)) ++ map Loc (flat_map call_entries cs)
  /\ map ChangeFreq (URLs (this st')) =
     map ChangeFreq (URLs (this st)) ++ map ChangeFreq (flat_map call_entries cs)
  /\ map Priority (URLs (this st')) =
     map Priority (URLs (this st)) ++ map Priority (flat_map call_entries cs).
Proof.
  intros cs st st'.
  assert (Hd : Forall dated (URLs (this st))) by (vm_compute; constructor).
  assert (Hc : clock_civil (skipn (length (log st)) (log st'))).
  { unfold clock_civil.
    let l := eval vm_compute in (skipn (length (log st)) (log st')) in
    change (skipn (length (log st)) (log st')) with l.
    repeat (constructor; [unfold civil; cbn; lia |]). constructor. }
  split; [split; [exact Hd | exact Hc] |].
  exact (entries_dated_after_calls cs st Hd Hc).
Defined.

(** Two calls of [Write] on the five entries. *)
Lemma Write_resolves_in_place_twice :
  let baseSitemapURL := "https://cdn.example.com/maps/" in
  let stylesheetURL := "" in
  let st := added5 10 in
  let st1 := snd (Write baseSitemapURL stylesheetURL st) in
  let st2 := snd (Write baseSitemapURL stylesheetURL st1) in
  (fst (ensure_dir stylesheetURL st) = Done None
   /\ Forall (resolvable (this st)) (URLs (this st)))
  /\ URLs (this st1) = map (resolved_entry (this st)) (URLs (this st))
  /\ Forall2 (fun u u' =>
                resolveURL (this st) (Loc u) = inr (Loc u')
                /\ LastMod u' = LastMod u
                /\ ChangeFreq u' = ChangeFreq u
                /\ Priority u' = Priority u)
             (URLs (this st)) (URLs (this st1))
  /\ (fst (ensure_dir stylesheetURL st1) = Done None ->
      Forall (resolvable (this st1)) (URLs (this st1)) ->
      URLs (this st2) = map (resolved_entry (this st1)) (URLs (this st1))).
Proof.
  intros baseSitemapURL stylesheetURL st st1 st2.
  assert (Hdir : fst (ensure_dir stylesheetURL st) = Done None)
    by (vm_compute; reflexivity).
  assert (Hall : Forall (resolvable (this st)) (URLs (this st))).
  { let l := eval vm_compute in (URLs (this st)) in
    change (URLs (this st)) with l.
    repeat (constructor; [eexists; vm_compute; reflexivity |]). constructor. }
  split; [split; [exact Hdir | exact Hall] |].
  exact (Write_resolves_in_place baseSitemapURL stylesheetURL
           baseSitemapURL stylesheetURL st Hdir Hall).
Defined.

(** ** Where the code does something else than described *)


(** C6.  With no entry added, the base URL ":" does not parse, and
    [Write] writes out/sitemap.xml all the same and returns no error of
    [url.Parse]. *)
Lemma Write_bad_base_no_entries :
  let st := fresh_bad_base in
  let r := Write "https://cdn.example.com/maps/" "" st in
  URLs (this st) = []
  /\ GoURL.Parse (BaseURL (this st)) = inl "missing protocol scheme"
  /\ write_calls (log (snd r)) = ["out/sitemap.xml"]
  /\ forall msg, fst r <> Done (Some (UrlError msg)).
Proof.
  intros st r. split; [| split; [| split]].
  - reflexivity.
  - vm_compute; reflexivity.
  - vm_compute; reflexivity.
  - intros msg. vm_compute. discriminate.
Qed.

(** C9.  [AddURL] and [AddURLs] store an empty location and the location
    ":", which does not resolve: the entries [Write] meets are not all
    ready. *)
Lemma stored_entries_not_ready :
  let cs := [CallAddURL (mkSitemapURL "" "2023-10-25" "daily" "1.0");
             CallAddURLs [entry ":" ""]] in
  let st' := snd (run_calls cs fresh) in
  fst (run_calls cs fresh) = Done tt
  /\ map Loc (URLs (this st')) = [""; ":"]
  /\ resolveURL (this st') ":" = inl (UrlError "missing protocol scheme")
  /\ ~ Forall (entry_ready (this st')) (URLs (this st')).
Proof.
  intros cs st'. split; [| split; [| split]].
  - vm_compute; reflexivity.
  - vm_compute; reflexivity.
  - vm_compute; reflexivity.
  - intros H.
    assert (E : URLs (this st') =
                mkSitemapURL "" "2023-10-25" "daily" "1.0" :: tl (URLs (this st')))
      by (vm_compute; reflexivity).
    rewrite E in H. apply Forall_inv in H. destruct H as [H _]. apply H. reflexivity.
Qed.

(* ===================================================================== *)
(** * Further runs in the world in memory *)
(* ===================================================================== *)


(** The second of three entries has the location ":". *)
Lemma Write_stops_at_first_bad_location_colon :
  let baseSitemapURL := "https://cdn.example.com/maps/" in
  let stylesheetURL := "" in
  let st := added_bad in
  let l1 := [mkSitemapURL "/" "2023-10-25" "weekly" "0.5"] in
  let u := mkSitemapURL ":" "2023-10-26" "weekly" "0.5" in
  let l2 := [mkSitemapURL "/about" "2026-11-01" "weekly" "0.5"] in
  let e := UrlError "missing protocol scheme" in
  (fst (ensure_dir stylesheetURL st) = Done None
   /\ URLs (this st) = l1 ++ u :: l2
   /\ Forall (resolvable (this st)) l1
   /\ resolveURL (this st) (Loc u) = inl e)
  /\ fst (Write baseSitemapURL stylesheetURL st) = Done (Some e)
  /\ URLs (this (snd (Write baseSitemapURL stylesheetURL st))) =
     map (resolved_entry (this st)) l1 ++ u :: l2
  /\ Forall2 (fun x x' => resolveURL (this st) (Loc x) = inr (Loc x'))
             l1 (map (resolved_entry (this st)) l1).
Proof.
  intros baseSitemapURL stylesheetURL st l1 u l2 e.
  assert (Hdir : fst (ensure_dir stylesheetURL st) = Done None)
    by (vm_compute; reflexivity).
  assert (HU : URLs (this st) = l1 ++ u :: l2) by (vm_compute; reflexivity).
  assert (Hall : Forall (resolvable (this st)) l1).
  { constructor; [| constructor]. eexists. vm_compute. reflexivity. }
  assert (Hu : resolveURL (this st) (Loc u) = inl e) by (vm_compute; reflexivity).
  split; [split; [exact Hdir | split; [exact HU | split; [exact Hall | exact Hu]]] |].
  exact (Write_stops_at_first_bad_location baseSitemapURL stylesheetURL st l1 l2 u e
           Hdir HU Hall Hu).
Defined.

(** Five entries and [MaxURLs] zero. *)
Lemma Write_zero_MaxURLs_panics_five :
  let baseSitemapURL := "https://cdn.example.com/maps/" in
  let stylesheetURL := "" in
  let st := added5 0 in
  (fst (ensure_dir stylesheetURL st) = Done None
   /\ Forall (resolvable (this st)) (URLs (this st))
   /\ URLs (this st) <> []
   /\ MaxURLs (this st) = 0)
  /\
  let st' := snd (Write baseSitemapURL stylesheetURL st) in
  exists evs : list event,
    fst (Write baseSitemapURL stylesheetURL st) = Panic "integer divide by zero"
    /\ log st' = log st ++ evs
    /\ write_calls evs = []
    /\ URLs (this st') = map (resolved_entry (this st)) (URLs (this st)).
Proof.
  intros baseSitemapURL stylesheetURL st.
  assert (Hdir : fst (ensure_dir stylesheetURL st) = Done None)
    by (vm_compute; reflexivity).
  assert (Hall : Forall (resolvable (this st)) (URLs (this st))).
  { let l := eval vm_compute in (URLs (this st)) in
    change (URLs (this st)) with l.
    repeat (constructor; [eexists; vm_compute; reflexivity |]). constructor. }
  assert (Hne : URLs (this st) <> []) by (vm_compute; discriminate).
  assert (HM : MaxURLs (this st) = 0) by reflexivity.
  split; [split; [exact Hdir | split; [exact Hall | split; [exact Hne | exact HM]]] |].
  exact (Write_zero_MaxURLs_panics baseSitemapURL stylesheetURL st Hdir Hall Hne HM).
Defined.

(** Five entries in one file, with two different bases for the index. *)
Lemma Write_single_file_ignores_base_five :
  let st := added5 10 in
  Z.of_nat (length (URLs (this st))) <= MaxURLs (this st)
  /\ Write "https://cdn.example.com/maps/" "" st = Write ":" "" st.
Proof.
  intros st.
  assert (Hle : Z.of_nat (length (URLs (this st))) <= MaxURLs (this st))
    by (vm_compute; discriminate).
  split; [exact Hle |].
  exact (Write_single_file_ignores_base "https://cdn.example.com/maps/" ":" "" st Hle).
Defined.

(** Five entries, two per file, and the base ":" for the index. *)
Lemma Write_bad_index_base_after_first_shard_colon :
  let baseSitemapURL := ":" in
  let stylesheetURL := "" in
  let msg := "missing protocol scheme" in
  let st := added5 2 in
  (fst (ensure_dir stylesheetURL st) = Done None
   /\ Forall (resolvable (this st)) (URLs (this st))
   /\ 0 < MaxURLs (this st)
   /\ MaxURLs (this st) < Z.of_nat (length (URLs (this st)))
   /\ Z.of_nat (length (URLs (this st))) < 2 ^ 62
   /\ GoURL.Parse (TrimRight1 baseSitemapURL "/" +:+ "/") = inl msg)
  /\
  let st' := snd (Write baseSitemapURL stylesheetURL st) in
  exists (evs1 : list event) (r : option string),
    fst (Write baseSitemapURL stylesheetURL st) =
      Done (Some (match r with Some m => PathError m | None => UrlError msg end))
    /\ log st' =
       log st ++ evs1 ++
       [EvWriteFile (GoPath.Join (Dir (this st)) "sitemap_1.xml")
          (document stylesheetURL
             (urlset_data (firstn (Z.to_nat (MaxURLs (this st)))
                             (map (resolved_entry (this st)) (URLs (this st))))))
          420 r]
    /\ write_calls evs1 = [] /\ read_calls evs1 = [].
Proof.
  intros baseSitemapURL stylesheetURL msg st.
  assert (Hdir : fst (ensure_dir stylesheetURL st) = Done None)
    by (vm_compute; reflexivity).
  assert (Hall : Forall (resolvable (this st)) (URLs (this st))).
  { let l := eval vm_compute in (URLs (this st)) in
    change (URLs (this st)) with l.
    repeat (constructor; [eexists; vm_compute; reflexivity |]). constructor. }
  assert (HM : 0 < MaxURLs (this st)) by (vm_compute; reflexivity).
  assert (Hgt : MaxURLs (this st) < Z.of_nat (length (URLs (this st))))
    by (vm_compute; reflexivity).
  assert (Hn : Z.of_nat (length (URLs (this st))) < 2 ^ 62) by (vm_compute; reflexivity).
  assert (Hbad : GoURL.Parse (TrimRight1 baseSitemapURL "/" +:+ "/") = inl msg)
    by (vm_compute; reflexivity).
  split; [split; [exact Hdir | split; [exact Hall | split; [exact HM |
          split; [exact Hgt | split; [exact Hn | exact Hbad]]]]] |].
  exact (Write_bad_index_base_after_first_shard baseSitemapURL stylesheetURL msg st
           Hdir Hall HM Hgt Hn Hbad).
Defined.


(** The names of the first and of the tenth shard. *)
Lemma shard_names_distinct_0_9 :
  (0 <= 0 < 2 ^ 62 /\ 0 <= 9 < 2 ^ 62)
  /\ (sitemapName 0 = sitemapName 9 -> 0 = 9)
  /\ sitemapName 0 <> "sitemap_index.xml"
  /\ sitemapName 0 <> "sitemap.xml"
  /\ exists ds, sitemapName 0 = "sitemap_" +:+ ds +:+ ".xml"
                /\ GoURL.all_digits ds = true /\ digits_value ds 0 = 0 + 1.
Proof.
  assert (H0 : 0 <= 0 < 2 ^ 62) by lia.
  assert (H9 : 0 <= 9 < 2 ^ 62) by lia.
  split; [split; [exact H0 | exact H9] |].
  exact (shard_names_distinct 0 9 H0 H9).
Defined.

(** The index of five entries, two per file. *)
Lemma index_lists_shards_with_dates_five :
  let baseSitemapURL := "https://cdn.example.com/maps/" in
  let stylesheetURL := "" in
  let st := added5 2 in
  (0 < MaxURLs (this st)
   /\ MaxURLs (this st) < Z.of_nat (length (URLs (this st)))
   /\ Z.of_nat (length (URLs (this st))) < 2 ^ 62
   /\ emitted (fst (Write baseSitemapURL stylesheetURL st)))
  /\
  let st' := snd (Write baseSitemapURL stylesheetURL st) in
  let N := (Z.of_nat (length (URLs (this st))) + MaxURLs (this st) - 1)
           / MaxURLs (this st) in
  exists (evs : list event) (sitemaps : list Sitemap),
    log st' = log st ++ evs
    /\ last (written evs) =
       Some (GoPath.Join (Dir (this st)) "sitemap_index.xml",
             document stylesheetURL (sitemapindex_data sitemaps))
    /\ Forall2 (fun i m => resolveSitemapURL baseSitemapURL
                             ("sitemap_" +:+ itoa i +:+ ".xml") = inr (sm_Loc m))
               (seqZ 1 N) sitemaps
    /\ map sm_LastMod sitemaps = map Format_date (clock_reads evs).
Proof.
  intros baseSitemapURL stylesheetURL st.
  assert (HM : 0 < MaxURLs (this st)) by (vm_compute; reflexivity).
  assert (Hgt : MaxURLs (this st) < Z.of_nat (length (URLs (this st))))
    by (vm_compute; reflexivity).
  assert (Hn : Z.of_nat (length (URLs (this st))) < 2 ^ 62) by (vm_compute; reflexivity).
  assert (Hem : emitted (fst (Write baseSitemapURL stylesheetURL st)))
    by (vm_compute; exact I).
  split; [split; [exact HM | split; [exact Hgt | split; [exact Hn | exact Hem]]] |].
  exact (index_lists_shards_with_dates baseSitemapURL stylesheetURL st HM Hgt Hn Hem).
Defined.

(** A new [SitemapOptions], five entries, [Write] with a stylesheet. *)
Lemma add_then_write_single_file_five :
  let dir := "out" in
  let baseURL := "https://www.example.com/" in
  let baseSitemapURL := "https://cdn.example.com/maps/" in
  let stylesheetURL := "/sitemap.xsl" in
  let urls := five in
  let w := world0 in
  let s0 := NewSitemapOptions dir baseURL in
  let st1 := snd (AddURLs urls (mkSt s0 w [])) in
  let st2 := snd (Write baseSitemapURL stylesheetURL st1) in
  (Z.of_nat (length urls) <= 33333
   /\ emitted (fst (Write baseSitemapURL stylesheetURL st1)))
  /\
  exists es : list SitemapURL,
    written (log st2) =
      [(GoPath.Join dir "sitemap.xml", document stylesheetURL (urlset_data es))]
    /\ URLs (this st2) = es
    /\ Forall2 (fun u e =>
                  resolveURL s0 (Loc u) = inr (Loc e)
                  /\ ChangeFreq e = ChangeFreq u
                  /\ Priority e = Priority u
                  /\ (LastMod e = LastMod u
                      \/ exists t, In t (clock_reads (log st2))
                                   /\ LastMod e = Format_date t))
               urls es.
Proof.
  intros dir baseURL baseSitemapURL stylesheetURL urls w s0 st1 st2.
  assert (Hlen : Z.of_nat (length urls) <= 33333) by (vm_compute; discriminate).
  assert (Hem : emitted (fst (Write baseSitemapURL stylesheetURL st1)))
    by (vm_compute; exact I).
  split; [split; [exact Hlen | exact Hem] |].
  exact (add_then_write_single_file dir baseURL baseSitemapURL stylesheetURL urls w
           Hlen Hem).
Defined.

(** Five entries in one file. *)
Lemma Write_single_file_run_five :
  let baseSitemapURL := "https://cdn.example.com/maps/" in
  let stylesheetURL := "" in
  let st := added5 10 in
  (fst (ensure_dir stylesheetURL st) = Done None
   /\ Forall (resolvable (this st)) (URLs (this st))
   /\ Z.of_nat (length (URLs (this st))) <= MaxURLs (this st))
  /\
  let st' := snd (Write baseSitemapURL stylesheetURL st) in
  let p := GoPath.Join (Dir (this st)) "sitemap.xml" in
  let doc := document stylesheetURL
               (urlset_data (map (resolved_entry (this st)) (URLs (this st)))) in
  exists (evs1 rs : list event) (r : option string),
    log st' = log st ++ evs1 ++ EvWriteFile p doc 420 r :: rs
    /\ write_calls evs1 = [] /\ read_calls evs1 = []
    /\ match r with
       | Some m =>
           rs = [] /\ fst (Write baseSitemapURL stylesheetURL st) = Done (Some (PathError m))
       | None =>
           exists res, rs = [EvReadFile p res]
                       /\ fst (Write baseSitemapURL stylesheetURL st)
                          = Done (check_read res false)
       end.
Proof.
  intros baseSitemapURL stylesheetURL st.
  assert (Hdir : fst (ensure_dir stylesheetURL st) = Done None)
    by (vm_compute; reflexivity).
  assert (Hall : Forall (resolvable (this st)) (URLs (this st))).
  { let l := eval vm_compute in (URLs (this st)) in
    change (URLs (this st)) with l.
    repeat (constructor; [eexists; vm_compute; reflexivity |]). constructor. }
  assert (Hle : Z.of_nat (length (URLs (this st))) <= MaxURLs (this st))
    by (vm_compute; discriminate).
  split; [split; [exact Hdir | split; [exact Hall | exact Hle]] |].
  exact (Write_single_file_run baseSitemapURL stylesheetURL st Hdir Hall Hle).
Defined.

(** Five entries, two per file. *)
Lemma Write_returns_for_positive_MaxURLs_five :
  let baseSitemapURL := "https://cdn.example.com/maps/" in
  let stylesheetURL := "" in
  let st := added5 2 in
  (0 < MaxURLs (this st) /\ Z.of_nat (length (URLs (this st))) < 2 ^ 62)
  /\ exists r : option error, fst (Write baseSitemapURL stylesheetURL st) = Done r.
Proof.
  intros baseSitemapURL stylesheetURL st.
  assert (HM : 0 < MaxURLs (this st)) by (vm_compute; reflexivity).
  assert (Hn : Z.of_nat (length (URLs (this st))) < 2 ^ 62) by (vm_compute; reflexivity).
  split; [split; [exact HM | exact Hn] |].
  exact (Write_returns_for_positive_MaxURLs baseSitemapURL stylesheetURL st HM Hn).
Defined.

(** The directory "out" is missing and cannot be made. *)
Lemma Write_mkdir_failure_locked :
  let baseSitemapURL := "https://cdn.example.com/maps/" in
  let stylesheetURL := "/sitemap.xsl" in
  let m := "mkdir out: permission denied" in
  let st := MemFaults.fresh_no_dir in
  let w := MemFaults.world_no_dir in
  (os_Stat_IsNotExist (Dir (this st)) (world st) = (true, w)
   /\ os_MkdirAll (Dir (this st)) 493 w = (Some m, w))
  /\ Write baseSitemapURL stylesheetURL st =
     (Done (Some (PathError m)),
      mkSt (set_Stylesheet (this st) stylesheetURL) w
           (log st ++ [EvStat (Dir (this st)) true;
                       EvMkdirAll (Dir (this st)) 493 (Some m)])).
Proof.
  intros baseSitemapURL stylesheetURL m st w.
  assert (Hstat : os_Stat_IsNotExist (Dir (this st)) (world st) = (true, w))
    by (vm_compute; reflexivity).
  assert (Hmk : os_MkdirAll (Dir (this st)) 493 w = (Some m, w))
    by (vm_compute; reflexivity).
  split; [split; [exact Hstat | exact Hmk] |].
  exact (Write_mkdir_failure baseSitemapURL stylesheetURL m st w w Hstat Hmk).
Defined.

(** Five entries, two per file, and the second shard cannot be written. *)
Lemma Write_failure_leaves_shards_second :
  let baseSitemapURL := "https://cdn.example.com/maps/" in
  let stylesheetURL := "" in
  let st := MemFaults.added5_shard2_locked in
  let e := PathError "open out/sitemap_2.xml: permission denied" in
  (fst (ensure_dir stylesheetURL st) = Done None
   /\ Forall (resolvable (this st)) (URLs (this st))
   /\ 0 < MaxURLs (this st)
   /\ MaxURLs (this st) < Z.of_nat (length (URLs (this st)))
   /\ Z.of_nat (length (URLs (this st))) < 2 ^ 62
   /\ fst (Write baseSitemapURL stylesheetURL st) = Done (Some e)
   /\ not_validation e)
  /\
  let st' := snd (Write baseSitemapURL stylesheetURL st) in
  let N := (Z.of_nat (length (URLs (this st))) + MaxURLs (this st) - 1)
           / MaxURLs (this st) in
  exists (evs : list event) (j : Z),
    log st' = log st ++ evs
    /\ 0 <= j <= N
    /\ written evs = map (shard_file (this st')) (seqZ 0 j)
    /\ read_calls evs = [].
Proof.
  intros baseSitemapURL stylesheetURL st e.
  assert (Hdir : fst (ensure_dir stylesheetURL st) = Done None)
    by (vm_compute; reflexivity).
  assert (Hall : Forall (resolvable (this st)) (URLs (this st))).
  { let l := eval vm_compute in (URLs (this st)) in
    change (URLs (this st)) with l.
    repeat (constructor; [eexists; vm_compute; reflexivity |]). constructor. }
  assert (HM : 0 < MaxURLs (this st)) by (vm_compute; reflexivity).
  assert (Hgt : MaxURLs (this st) < Z.of_nat (length (URLs (this st))))
    by (vm_compute; reflexivity).
  assert (Hn : Z.of_nat (length (URLs (this st))) < 2 ^ 62) by (vm_compute; reflexivity).
  assert (Hres : fst (Write baseSitemapURL stylesheetURL st) = Done (Some e))
    by (vm_compute; reflexivity).
  assert (He : not_validation e) by exact I.
  split; [split; [exact Hdir | split; [exact Hall | split; [exact HM | split; [exact Hgt |
          split; [exact Hn | split; [exact Hres | exact He]]]]]] |].
  exact (Write_failure_leaves_shards baseSitemapURL stylesheetURL st e
           Hdir Hall HM Hgt Hn Hres He).
Defined.


(** Five entries, written by both versions. *)
Lemma Write_is_legacy_Write_then_validation_five :
  let baseSitemapURL := "https://cdn.example.com/maps/" in
  let st := MemLegacy.added5 in
  Z.of_nat (length (Legacy.URLs (Legacy.this st))) <= Legacy.MaxURLs (Legacy.this st)
  /\ Write baseSitemapURL "" (upgrade_state st) =
     match Legacy.Write st with
     | (Done None, st1) =>
         validateXMLFile (GoPath.Join (Legacy.Dir (Legacy.this st1)) "sitemap.xml") false
           (upgrade_state st1)
     | (r, st1) => (r, upgrade_state st1)
     end.
Proof.
  intros baseSitemapURL st.
  assert (Hle : Z.of_nat (length (Legacy.URLs (Legacy.this st)))
                <= Legacy.MaxURLs (Legacy.this st)) by (vm_compute; discriminate).
  split; [exact Hle |].
  exact (Write_is_legacy_Write_then_validation baseSitemapURL st Hle).
Defined.
